(** * Stratified train/validation/test split of the bird-classification notebook

    Shallow embedding of [split_to_train_val_test], the pandas helper of the
    PyTorch bird-species notebook, together with the small part of pandas,
    NumPy and Python arithmetic that it calls:

    - Python numbers: [int] as [Z], [float] as IEEE-754 binary64
      ([spec_float] at precision 53), the built-in [round] (ties to even);
    - [numpy.random]: the process-global [RandomState], as a tape of raw
      draws with a cursor; [permutation] and [choice(replace=False)];
    - pandas: a [DataFrame] as column names plus rows carrying an index
      label, with [df[col]], [unique], boolean-mask selection, [sample],
      [drop], [append] and [index];
    - the function itself, written in a state-and-exception monad over the
      interpreter state it touches (the NumPy random state and stdout).

    Library behaviour follows pandas 1.1 and NumPy 1.19, the last releases
    for the notebook's Python 3.6 kernel. *)

From Stdlib Require Import ZArith String List Bool Lia Permutation PeanoNat.
From Stdlib Require Import SpecFloat.
Import ListNotations.

(** ** Python exceptions and results *)

Inductive PyError : Type :=
| KeyError
| ValueError
| ZeroDivisionError
| OverflowError.

Inductive Result (A : Type) : Type :=
| Ok (a : A)
| Raise (e : PyError).

Arguments Ok {A} a.
Arguments Raise {A} e.

(** ** Python floats *)

Module Float64.

Definition prec : Z := 53.
Definition emax : Z := 1024.

Definition float : Type := spec_float.

(** [float(z)] for a Python int: the nearest binary64. *)
Definition of_Z (z : Z) : float := binary_normalize prec emax z 0 false.

Definition add (x y : float) : float := SFadd prec emax x y.
Definition mul (x y : float) : float := SFmul prec emax x y.
Definition div (x y : float) : float := SFdiv prec emax x y.
Definition ltb (x y : float) : bool := SFltb x y.

Definition is_zero (x : float) : bool :=
  match x with
  | S754_zero _ => true
  | _ => false
  end.

(** [x / y] on floats: a zero divisor raises. *)
Definition truediv (x y : float) : Result float :=
  if is_zero y then Raise ZeroDivisionError else Ok (div x y).

(** A decimal literal [m]e-[k], e.g. [0.7] is [decimal 7 1]: the binary64
    nearest to the rational, which a correctly rounded division of two
    exactly representable integers yields. *)
Definition decimal (m : Z) (k : nat) : float :=
  div (of_Z m) (of_Z (10 ^ Z.of_nat k)).

Definition one : float := of_Z 1.
Definition zero : float := of_Z 0.

(** Nearest integer to [m / 2^k], ties to the even one ([0 < k]). *)
Definition round_half_even (m k : Z) : Z :=
  let q := (m / 2 ^ k)%Z in
  let r := (m mod 2 ^ k)%Z in
  let h := (2 ^ (k - 1))%Z in
  if (r <? h)%Z then q
  else if (h <? r)%Z then (q + 1)%Z
  else if Z.even q then q else (q + 1)%Z.

(** The built-in [round(x)] of a float: [ValueError] on NaN,
    [OverflowError] on an infinity. *)
Definition round (x : float) : Result Z :=
  match x with
  | S754_zero _ => Ok 0%Z
  | S754_nan => Raise ValueError
  | S754_infinity _ => Raise OverflowError
  | S754_finite s m e =>
      let a := if (0 <=? e)%Z then (Zpos m * 2 ^ e)%Z
               else round_half_even (Zpos m) (- e) in
      Ok (cond_Zopp s a)
  end.

End Float64.

Import Float64.

(** A Python number as [sample] receives it: the notebook passes float
    fractions for the groups and the int literal [1] for the final shuffle. *)
Inductive Num : Type :=
| Int (z : Z)
| Float (f : float).

(** [a * n] for an int [n]. *)
Definition num_mul_int (a : Num) (n : Z) : Num :=
  match a with
  | Int z => Int (z * n)
  | Float f => Float (mul f (of_Z n))
  end.

(** [a > 1]. *)
Definition num_gt_one (a : Num) : bool :=
  match a with
  | Int z => (1 <? z)%Z
  | Float f => ltb one f
  end.

(** [int(round(a))]. *)
Definition num_round (a : Num) : Result Z :=
  match a with
  | Int z => Ok z
  | Float f => round f
  end.

(** ** The NumPy global random state

    The Mersenne Twister itself is not modelled: the state is the tape of
    raw draws still to come, so that every sequence of draws is some state. *)

Record RandomState : Type := {
  tape : nat -> nat;
  cursor : nat
}.

(** One bounded draw, in [0, bound). *)
Definition random_below (bound : nat) (g : RandomState) : nat * RandomState :=
  (tape g (cursor g) mod bound,
   {| tape := tape g; cursor := S (cursor g) |}).

(** The pool without its [k]-th element. *)
Fixpoint remove_at (k : nat) (pool : list nat) : list nat :=
  match pool with
  | [] => []
  | x :: t =>
      match k with
      | 0 => t
      | S k' => x :: remove_at k' t
      end
  end.

(** Shuffle of a pool of [n] elements: draw a position, move that element
    out, go on with the rest. *)
Fixpoint permute (n : nat) (pool : list nat) (g : RandomState)
  : list nat * RandomState :=
  match n with
  | 0 => ([], g)
  | S n' =>
      let (k, g1) := random_below (length pool) g in
      let (rest, g2) := permute n' (remove_at k pool) g1 in
      (nth k pool 0 :: rest, g2)
  end.

(** [permutation(n)]: a shuffled [arange(n)]. *)
Definition permutation (n : nat) (g : RandomState) : list nat * RandomState :=
  permute n (seq 0 n) g.

(** [choice(pop, size, replace=False)]: the first [size] entries of a
    permutation of the population. *)
Definition choice (pop size : nat) (g : RandomState)
  : Result (list nat * RandomState) :=
  if pop <? size then Raise ValueError
  else let (p, g') := permutation pop g in Ok (firstn size p, g').

(** ** Interpreter state and the monad of the embedding *)

(** What one verbose [print] of the loop interpolates into its format
    string: the label and the four lengths. *)
Record LogLine : Type := {
  log_label : option string;
  log_total : nat;
  log_train : nat;
  log_val : nat;
  log_test : nat
}.

Record World : Type := {
  np_random : RandomState;
  stdout : list LogLine
}.

Definition M (A : Type) : Type := World -> Result (A * World).

Definition ret {A : Type} (a : A) : M A := fun w => Ok (a, w).

Definition bind {A B : Type} (m : M A) (k : A -> M B) : M B :=
  fun w =>
    match m w with
    | Ok (a, w') => k a w'
    | Raise e => Raise e
    end.

Definition lift {A : Type} (r : Result A) : M A :=
  fun w =>
    match r with
    | Ok a => Ok (a, w)
    | Raise e => Raise e
    end.

Definition raise {A : Type} (e : PyError) : M A := fun _ => Raise e.

Declare Scope py_scope.
Delimit Scope py_scope with py.
Notation "x <- m ;; k" := (bind m (fun x => k))
  (at level 61, m at next level, right associativity) : py_scope.
Notation "m ;;; k" := (bind m (fun _ => k))
  (at level 61, right associativity) : py_scope.
Open Scope py_scope.

(** Run NumPy code on the global random state. *)
Definition with_np_random {A : Type}
  (f : RandomState -> Result (A * RandomState)) : M A :=
  fun w =>
    match f (np_random w) with
    | Ok (a, g) => Ok (a, {| np_random := g; stdout := stdout w |})
    | Raise e => Raise e
    end.

Definition py_print (l : LogLine) : M unit :=
  fun w => Ok (tt, {| np_random := np_random w; stdout := stdout w ++ [l] |}).

(** ** pandas *)

(** A row carries its index label and its cells by column name; a column
    with no cell in a row reads as NaN ([None]). *)
Record Row : Type := {
  index_label : Z;
  cells : list (string * string)
}.

Record DataFrame : Type := {
  columns : list string;
  rows : list Row
}.

(** [pd.DataFrame()] *)
Definition empty_frame : DataFrame := {| columns := []; rows := [] |}.

Fixpoint assoc (c : string) (l : list (string * string)) : option string :=
  match l with
  | [] => None
  | (k, v) :: t => if String.eqb c k then Some v else assoc c t
  end.

Definition cell (c : string) (r : Row) : option string := assoc c (cells r).

(** [df.index] *)
Definition index (df : DataFrame) : list Z := map index_label (rows df).

(** [df[c]]: the column as a series of values, [KeyError] when absent. *)
Definition getitem (df : DataFrame) (c : string)
  : Result (list (option string)) :=
  if existsb (String.eqb c) (columns df)
  then Ok (map (cell c) (rows df))
  else Raise KeyError.

(** Sameness of two values for [unique]: all NaN count as one value. *)
Definition same_value (a b : option string) : bool :=
  match a, b with
  | Some x, Some y => String.eqb x y
  | None, None => true
  | _, _ => false
  end.

(** [series.unique()]: distinct values in order of first appearance. *)
Fixpoint unique (s : list (option string)) : list (option string) :=
  match s with
  | [] => []
  | v :: t => v :: filter (fun u => negb (same_value v u)) (unique t)
  end.

(** Elementwise [==]: NaN equals nothing, itself included. *)
Definition value_eqb (v lbl : option string) : bool :=
  match v, lbl with
  | Some x, Some y => String.eqb x y
  | _, _ => false
  end.

(** [series == lbl] *)
Definition series_eq (s : list (option string)) (lbl : option string)
  : list bool :=
  map (fun v => value_eqb v lbl) s.

Fixpoint select (rs : list Row) (mask : list bool) : list Row :=
  match rs, mask with
  | r :: rs', b :: mask' =>
      if b then r :: select rs' mask' else select rs' mask'
  | _, _ => []
  end.

(** [df[mask]] *)
Definition getitem_mask (df : DataFrame) (mask : list bool) : DataFrame :=
  {| columns := columns df; rows := select (rows df) mask |}.

Definition take_rows (rs : list Row) (locs : list nat) : list Row :=
  flat_map (fun i => match nth_error rs i with
                     | Some r => [r]
                     | None => []
                     end) locs.

(** [df.take(locs)] *)
Definition take (df : DataFrame) (locs : list nat) : DataFrame :=
  {| columns := columns df; rows := take_rows (rows df) locs |}.

(** [df.sample(frac=frac)]: [n = int(round(frac * len))] rows at random
    positions, without replacement, drawn from the global random state. *)
Definition sample (frac : Num) (df : DataFrame) : M DataFrame :=
  let axis_length := length (rows df) in
  if num_gt_one frac then raise ValueError
  else
    n <- lift (num_round (num_mul_int frac (Z.of_nat axis_length))) ;;
    if (n <? 0)%Z then raise ValueError
    else
      locs <- with_np_random (choice axis_length (Z.to_nat n)) ;;
      ret (take df locs).

Definition mem_label (l : Z) (labels : list Z) : bool :=
  existsb (Z.eqb l) labels.

(** [df.drop(labels)]: every row whose index label is listed goes; a label
    that is not in the index is a [KeyError]. *)
Definition drop (df : DataFrame) (labels : list Z) : Result DataFrame :=
  if forallb (fun l => mem_label l (index df)) labels
  then Ok {| columns := columns df;
             rows := filter (fun r => negb (mem_label (index_label r) labels))
                       (rows df) |}
  else Raise KeyError.

(** [a.append(b)]: the rows of [a] then those of [b], over the union of
    the columns. *)
Definition append (a b : DataFrame) : DataFrame :=
  {| columns := columns a ++
                filter (fun c => negb (existsb (String.eqb c) (columns a)))
                  (columns b);
     rows := rows a ++ rows b |}.

(** ** The notebook's function *)

Definition Splits : Type := (float * float * float)%type.
Definition Frames : Type := (DataFrame * DataFrame * DataFrame)%type.

(** The notebook's [SPLIT_RATIOS], also the default of [splits]. *)
Definition SPLIT_RATIOS : Splits := (decimal 7 1, decimal 2 1, decimal 1 1).

(** Body of [for lbl in labels]. *)
Definition split_label (df : DataFrame) (label_column : string)
  (splits : Splits) (verbose : bool) (acc : Frames) (lbl : option string)
  : M Frames :=
  let '(train_df, val_df, test_df) := acc in
  let '(s0, s1, s2) := splits in
  col <- lift (getitem df label_column) ;;
  let lbl_df := getitem_mask df (series_eq col lbl) in
  lbl_train_df <- sample (Float s0) lbl_df ;;
  lbl_val_and_test_df <- lift (drop lbl_df (index lbl_train_df)) ;;
  frac <- lift (truediv s2 (add s1 s2)) ;;
  lbl_test_df <- sample (Float frac) lbl_val_and_test_df ;;
  lbl_val_df <- lift (drop lbl_val_and_test_df (index lbl_test_df)) ;;
  (if verbose
   then py_print {| log_label := lbl;
                 log_total := length (rows lbl_df);
                 log_train := length (rows lbl_train_df);
                 log_val := length (rows lbl_val_df);
                 log_test := length (rows lbl_test_df) |}
   else ret tt) ;;;
  ret (append train_df lbl_train_df,
       append val_df lbl_val_df,
       append test_df lbl_test_df).

Fixpoint for_labels (df : DataFrame) (label_column : string)
  (splits : Splits) (verbose : bool) (labels : list (option string))
  (acc : Frames) : M Frames :=
  match labels with
  | [] => ret acc
  | lbl :: rest =>
      acc' <- split_label df label_column splits verbose acc lbl ;;
      for_labels df label_column splits verbose rest acc'
  end.

Definition split_to_train_val_test (df : DataFrame) (label_column : string)
  (splits : Splits) (verbose : bool) : M Frames :=
  col <- lift (getitem df label_column) ;;
  let labels := unique col in
  acc <- for_labels df label_column splits verbose labels
           (empty_frame, empty_frame, empty_frame) ;;
  let '(train_df, val_df, test_df) := acc in
  (* shuffle them on the way out using .sample(frac=1) *)
  train_out <- sample (Int 1) train_df ;;
  val_out <- sample (Int 1) val_df ;;
  test_out <- sample (Int 1) test_df ;;
  ret (train_out, val_out, test_out).

(** ** Vocabulary of the properties *)

(** The row carries label [lbl] in column [c]. *)
Definition has_label (c : string) (lbl : option string) (r : Row) : bool :=
  value_eqb (cell c r) lbl.

(** The label group of [lbl]: what [df[df[c] == lbl]] holds. *)
Definition group (df : DataFrame) (c : string) (lbl : option string)
  : list Row :=
  filter (has_label c lbl) (rows df).

Definition count_label (c : string) (lbl : option string) (rs : list Row)
  : nat :=
  length (filter (has_label c lbl) rs).

(** The number of rows [sample(frac=frac)] draws from [len] rows, or the
    exception it raises: the arithmetic of [sample] and the size check of
    [choice], without the drawing. *)
Definition sample_size (frac : Num) (len : nat) : Result nat :=
  if num_gt_one frac then Raise ValueError
  else
    match num_round (num_mul_int frac (Z.of_nat len)) with
    | Raise e => Raise e
    | Ok n =>
        if (n <? 0)%Z then Raise ValueError
        else if len <? Z.to_nat n then Raise ValueError
        else Ok (Z.to_nat n)
    end.

(** Sizes (train, validation, test) that one pass of the loop gives a
    label group of [n] rows, or the exception of that pass. *)
Definition group_sizes (splits : Splits) (n : nat)
  : Result (nat * nat * nat) :=
  let '(s0, s1, s2) := splits in
  match sample_size (Float s0) n with
  | Raise e => Raise e
  | Ok n_train =>
      match truediv s2 (add s1 s2) with
      | Raise e => Raise e
      | Ok frac =>
          match sample_size (Float frac) (n - n_train) with
          | Raise e => Raise e
          | Ok n_test => Ok (n_train, n - n_train - n_test, n_test)
          end
      end
  end.

(** The sizes of all passes of the loop, on the sizes of the label
    groups in loop order; the exception of the first pass that raises. *)
Fixpoint all_group_sizes (splits : Splits) (ns : list nat)
  : Result (list (nat * nat * nat)) :=
  match ns with
  | [] => Ok []
  | n :: t =>
      match group_sizes splits n with
      | Raise e => Raise e
      | Ok s =>
          match all_group_sizes splits t with
          | Raise e => Raise e
          | Ok ss => Ok (s :: ss)
          end
      end
  end.

(** What one pass prints. *)
Definition pass_log (verbose : bool) (lbl : option string)
  (n_total n_train n_val n_test : nat) : list LogLine :=
  if verbose
  then [{| log_label := lbl; log_total := n_total; log_train := n_train;
           log_val := n_val; log_test := n_test |}]
  else [].

(** All rows of three frames: train, then validation, then test. *)
Definition all_rows (f : Frames) : list Row :=
  rows (fst (fst f)) ++ rows (snd (fst f)) ++ rows (snd f).

(** How many rows of label [v] each of three frames holds. *)
Definition counts (c : string) (v : option string) (f : Frames)
  : nat * nat * nat :=
  (count_label c v (rows (fst (fst f))),
   count_label c v (rows (snd (fst f))),
   count_label c v (rows (snd f))).

Definition plus3 (a b : nat * nat * nat) : nat * nat * nat :=
  let '(a1, a2, a3) := a in
  let '(b1, b2, b3) := b in
  (a1 + b1, a2 + b2, a3 + b3).

(** Boolean test that a list of index labels has no repetition. *)
Fixpoint distinct (l : list Z) : bool :=
  match l with
  | [] => true
  | x :: t => negb (mem_label x t) && distinct t
  end.

(** Every row carries a label in column [c] (no NaN). *)
Definition labelled (c : string) (df : DataFrame) : bool :=
  forallb (fun r => match cell c r with Some _ => true | None => false end)
    (rows df).

(** A valid binary64 between 0 and 1.0. *)
Definition unit_fraction (f : float) : bool :=
  valid_binary prec emax f &&
  match f with
  | S754_zero _ => true
  | S754_finite false _ _ => negb (ltb one f)
  | _ => false
  end.

(** Ratios whose two sampling fractions, [train_ratio] and
    [test_ratio / (val_ratio + test_ratio)], are defined and between 0
    and 1. *)
Definition fractions_in_range (splits : Splits) : bool :=
  let '(s0, s1, s2) := splits in
  unit_fraction s0 &&
  match truediv s2 (add s1 s2) with
  | Ok frac => unit_fraction frac
  | Raise _ => false
  end.

(** Two worlds with the same NumPy random state. *)
Definition same_random (w1 w2 : World) : Prop := np_random w1 = np_random w2.

(** Two runs agree: they raise the same exception, or return the same
    value and leave the same random state. *)
Definition agree {A : Type} (r1 r2 : Result (A * World)) : Prop :=
  match r1, r2 with
  | Ok (a1, w1), Ok (a2, w2) => a1 = a2 /\ same_random w1 w2
  | Raise e1, Raise e2 => e1 = e2
  | _, _ => False
  end.

(** A computation whose outcome is a function of the random state it
    starts from. *)
Definition reproducible {A : Type} (m : M A) : Prop :=
  forall w1 w2, same_random w1 w2 -> agree (m w1) (m w2).

(** ** Concrete frames and states used in the examples *)

Definition digit (d : nat) : string :=
  String (Ascii.ascii_of_nat (48 + d)) EmptyString.

(** Item number [i] of class [l], e.g. file "A/07.jpg" with label "A". *)
Definition item (l : string) (i : nat) : Row :=
  {| index_label := Z.of_nat i;
     cells := [("image_file_name"%string,
                (l ++ "/" ++ digit (i / 10) ++ digit (i mod 10)
                   ++ ".jpg")%string);
               ("class_id"%string, l)] |}.

Definition frame_of (rs : list Row) : DataFrame :=
  {| columns := ["image_file_name"%string; "class_id"%string]; rows := rs |}.

(** Ten items of label "A" followed by ten of label "B". *)
Definition df_ab : DataFrame :=
  frame_of (map (item "A") (seq 0 10) ++ map (item "B") (seq 10 10)).

(** Three items of one label. *)
Definition df_aaa : DataFrame := frame_of (map (item "A") (seq 0 3)).

(** The label column is there, no row is. *)
Definition df_no_rows : DataFrame := frame_of [].

(** A random state and a world to run the examples from. *)
Definition g0 : RandomState := {| tape := fun i => i * 7 + 3; cursor := 0 |}.
Definition w0 : World := {| np_random := g0; stdout := [] |}.

(** Ratios that sum to 0.95. *)
Definition ratios_095 : Splits := (decimal 65 2, decimal 2 1, decimal 1 1).

(** All of the data to train: (1.0, 0.0, 0.0). *)
Definition ratios_all_train : Splits := (one, zero, zero).

From Stdlib Require Import Sorted.
From Stdlib Require Ascii Decimal DecimalString DecimalPos.

(** * Around the split: definitions

    What follows embeds the code around [split_to_train_val_test]: its
    caller [get_train_val_dataframes] with [get_class_name], the code that
    reads the frames it returns ([ImageDataset], [get_random_images],
    [test_image_df] with [predict_bird_from_file]), the [download] helper
    and, from the XGBoost notebook, [download_artifacts]; then the
    vocabulary of their properties. A Python [str] is a [string] of
    one-byte characters; what the notebooks call outside of pandas and
    NumPy (PIL, the model, the network, AWS) is a parameter of the
    function that calls it. *)

(** ** More vocabulary for the split *)

(** Two computations with the same outcome from the same random state. *)
Definition same_outcome {A : Type} (m1 m2 : M A) : Prop :=
  forall w1 w2, same_random w1 w2 -> agree (m1 w1) (m2 w2).

(** The row has a value (not NaN) in column [c]. *)
Definition has_cell (c : string) (r : Row) : bool :=
  match cell c r with
  | Some _ => true
  | None => false
  end.

(** What a verbose pass over label [lbl] prints when it succeeds. *)
Definition label_report (df : DataFrame) (c : string) (splits : Splits)
  (lbl : option string) : list LogLine :=
  match group_sizes splits (length (group df c lbl)) with
  | Ok (n_train, n_val, n_test) =>
      [{| log_label := lbl;
          log_total := length (group df c lbl);
          log_train := n_train;
          log_val := n_val;
          log_test := n_test |}]
  | Raise _ => []
  end.

(** An accumulator is still [pd.DataFrame()] or has the input's columns. *)
Definition columns_ok (cols : list string) (a : DataFrame) : Prop :=
  a = empty_frame \/ columns a = cols.

(** ** Python strings, lists and integers *)

(** Exceptions beyond those of the split, [External] for what a library
    outside the notebook raises, and results that may raise them. *)
Inductive Exn : Type :=
| Std (e : PyError)
| IndexError
| TypeError
| AttributeError
| External (name : string).

Inductive Outcome (A : Type) : Type :=
| Return (a : A)
| Throw (e : Exn).

Arguments Return {A} a.
Arguments Throw {A} e.

Module PyText.

Import Ascii.

(** [s.split(sep)] for a one-character separator: the pieces between the
    separators, always at least one piece. *)
Fixpoint split_on (sep : ascii) (s : string) : list string :=
  match s with
  | EmptyString => [EmptyString]
  | String c s' =>
      if Ascii.eqb c sep then EmptyString :: split_on sep s'
      else
        match split_on sep s' with
        | piece :: rest => String c piece :: rest
        | [] => [String c EmptyString]
        end
  end.

(** [sep.join(pieces)] *)
Fixpoint join (sep : ascii) (pieces : list string) : string :=
  match pieces with
  | [] => EmptyString
  | [p] => p
  | p :: rest => (p ++ String sep (join sep rest))%string
  end.

(** [l[i]]: a negative index counts from the end; out of range is an
    [IndexError]. *)
Definition list_getitem {A : Type} (l : list A) (i : Z) : Outcome A :=
  let n := Z.of_nat (length l) in
  let j := if (i <? 0)%Z then (i + n)%Z else i in
  if ((0 <=? j) && (j <? n))%Z
  then match nth_error l (Z.to_nat j) with
       | Some a => Return a
       | None => Throw IndexError
       end
  else Throw IndexError.

(** The character is not in the string. *)
Fixpoint lacks (c : ascii) (s : string) : bool :=
  match s with
  | EmptyString => true
  | String a s' => negb (Ascii.eqb a c) && lacks c s'
  end.

(** [str(z)] of an int: its decimal digits, with "-" when negative. *)
Definition str_int (z : Z) : string :=
  DecimalString.NilZero.string_of_int (Z.to_int z).

(** Whitespace that [int()] strips around a number (ASCII). *)
Definition is_space (c : ascii) : bool :=
  let n := nat_of_ascii c in
  ((9 <=? n) && (n <=? 13)) || ((28 <=? n) && (n <=? 32)).

Definition digit_value (c : ascii) : option Z :=
  let n := nat_of_ascii c in
  if (48 <=? n) && (n <=? 57) then Some (Z.of_nat (n - 48)) else None.

Fixpoint lstrip (s : string) : string :=
  match s with
  | EmptyString => EmptyString
  | String c s' => if is_space c then lstrip s' else s
  end.

Fixpoint rstrip (s : string) : string :=
  match s with
  | EmptyString => EmptyString
  | String c s' =>
      match rstrip s' with
      | EmptyString => if is_space c then EmptyString else String c EmptyString
      | t => String c t
      end
  end.

(** Decimal digits, where single underscores may stand between digits;
    [after_digit] tells whether the previous character was a digit. *)
Fixpoint digits_value (acc : Z) (after_digit : bool) (s : string)
  : option Z :=
  match s with
  | EmptyString => if after_digit then Some acc else None
  | String c s' =>
      match digit_value c with
      | Some d => digits_value (10 * acc + d) true s'
      | None =>
          if Ascii.eqb c "_"%char && after_digit
          then digits_value acc false s'
          else None
      end
  end.

(** [int(s)] of a string (ASCII, base 10): surrounding whitespace, an
    optional sign, digits; anything else is a [ValueError]. *)
Definition py_int (s : string) : Outcome Z :=
  let t := rstrip (lstrip s) in
  let signed :=
    match t with
    | String "+"%char r => digits_value 0 false r
    | String "-"%char r => option_map Z.opp (digits_value 0 false r)
    | _ => digits_value 0 false t
    end in
  match signed with
  | Some z => Return z
  | None => Throw (Std ValueError)
  end.

End PyText.

Import PyText.

(** ** The helpers of the notebook *)

(** The path separator, "/". *)
Definition slash : Ascii.ascii := Ascii.ascii_of_nat 47.

(** [get_class_name(fn)]: [fn.split('/')[0]]. *)
Definition get_class_name (fn : string) : Outcome string :=
  list_getitem (split_on slash fn) 0.

(** What [download] asks of the network. *)
Inductive Call : Type :=
| Urlretrieve (url filename : string).

(** [download(url)], given [os.path.exists]: the calls it makes.
    [os.path.exists] answers from the file system and may itself raise:
    under the Python 3.6 of the notebooks it lets through the
    [ValueError] of [os.stat] on a name with an embedded NUL character.
    Whatever it raises leaves [download] before anything is fetched. *)
Definition download (path_exists : string -> Outcome bool) (url : string)
  : Outcome (list Call) :=
  match list_getitem (split_on slash url) (-1) with
  | Throw e => Throw e
  | Return filename =>
      match path_exists filename with
      | Throw e => Throw e
      | Return found =>
          if negb found
          then Return [Urlretrieve url filename]
          else Return []
      end
  end.


(** ** The caller of the split: typed frames

    [get_train_val_dataframes] works on the two files of the data set as
    [read_csv] parses them: [images.txt] holds an int64 id and a file name
    per line, [image_class_labels.txt] an int64 id and an int64 class.
    The lines below are the result of that parse, so the model covers
    the files on which [read_csv] infers these column types: every id and
    class an integer, every file name kept as a str. A file whose name
    column [read_csv] would read as NaN (an empty field, NA) or as a
    number, and an empty file, on which [read_csv] raises, have no lines
    of these types and are outside the model. *)

Record ImageLine : Type := {
  image_pretty_name : Z;
  image_file_name : string
}.

Record LabelLine : Type := {
  labelled_pretty_name : Z;
  orig_class_id : Z
}.

(** A row of the merged frame: the columns of the image line, then
    [orig_class_id]. *)
Record MergedLine : Type := {
  image : ImageLine;
  merged_class_id : Z
}.

(** A frame with typed rows under their index labels. *)
Definition Table (A : Type) : Type := list (Z * A).

(** [RangeIndex(n)] *)
Definition range_index (n : nat) : list Z := map Z.of_nat (seq 0 n).

(** Rows under a fresh range index. *)
Definition range_indexed {A : Type} (lines : list A) : Table A :=
  combine (range_index (length lines)) lines.

(** [read_csv(..., header=None)] of parsed lines: the typed rows under a
    fresh range index. The parse itself, from the text of the file to
    typed lines, is not modelled. *)
Definition read_csv {A : Type} (lines : list A) : Table A :=
  range_indexed lines.

(** [t.reset_index(inplace=True, drop=True)] *)
Definition reset_index {A : Type} (t : Table A) : Table A :=
  range_indexed (map snd t).

(** [series.isin(values)], on one value. *)
Definition isin {A : Type} (eqb : A -> A -> bool) (v : A) (values : list A)
  : bool :=
  existsb (eqb v) values.

(** [t[mask]] for the mask that [keep] computes row by row. *)
Definition mask_rows {A : Type} (keep : A -> bool) (t : Table A) : Table A :=
  filter (fun p => keep (snd p)) t.

(** [series.drop_duplicates()]: the first occurrence of each value. *)
Fixpoint drop_duplicates (s : list Z) : list Z :=
  match s with
  | [] => []
  | v :: t => v :: filter (fun u => negb (Z.eqb v u)) (drop_duplicates t)
  end.

(** [pd.merge(left, right, on='image_pretty_name')], an inner join: the
    keys of the left frame in order of first appearance, for each key
    every left row with it paired with every right row with it, under a
    fresh range index (the row order of pandas 1.1). *)
Definition merge (left : Table ImageLine) (right : Table LabelLine)
  : Table MergedLine :=
  let lines := map snd left in
  let label_lines := map snd right in
  range_indexed
    (flat_map
       (fun key =>
          flat_map
            (fun l =>
               map (fun r => {| image := l;
                                merged_class_id := orig_class_id r |})
                 (filter (fun r => Z.eqb (labelled_pretty_name r) key)
                    label_lines))
            (filter (fun l => Z.eqb (image_pretty_name l) key) lines))
       (drop_duplicates (map image_pretty_name lines))).

Fixpoint insert_sorted (x : Z) (l : list Z) : list Z :=
  match l with
  | [] => [x]
  | y :: t => if (x <=? y)%Z then x :: l else y :: insert_sorted x t
  end.

(** [sorted(values)] *)
Definition sorted (values : list Z) : list Z :=
  fold_right insert_sorted [] values.

(** A dict from int to str, in insertion order. *)
Definition Dict : Type := list (Z * string).

(** [d[k] = v] *)
Fixpoint dict_set (d : Dict) (k : Z) (v : string) : Dict :=
  match d with
  | [] => [(k, v)]
  | (k', v') :: t =>
      if Z.eqb k k' then (k, v) :: t else (k', v') :: dict_set t k v
  end.

(** [d.get(k)] *)
Fixpoint dict_get (d : Dict) (k : Z) : option string :=
  match d with
  | [] => None
  | (k', v) :: t => if Z.eqb k k' then Some v else dict_get t k
  end.

(** The loop [for c in sorted_unique_classes: id_to_one_based[c] = str(i);
    i += 1]. *)
Fixpoint number_classes (classes : list Z) (i : Z) (id_to_one_based : Dict)
  : Dict :=
  match classes with
  | [] => id_to_one_based
  | c :: rest =>
      number_classes rest (i + 1) (dict_set id_to_one_based c (str_int i))
  end.

(** [series.apply(f)]: the first exception of [f] ends it. *)
Fixpoint apply_series {A B : Type} (f : A -> Outcome B) (s : list A)
  : Outcome (list B) :=
  match s with
  | [] => Return []
  | a :: t =>
      match f a with
      | Throw e => Throw e
      | Return b =>
          match apply_series f t with
          | Throw e => Throw e
          | Return bs => Return (b :: bs)
          end
      end
  end.

(** The columns of [full_df] when it reaches the split:
    [image_pretty_name] is dropped, [class_id] and [class_name] are the
    two added columns. An int cell is held as its [str]; a NaN of
    [series.map] is a missing cell. *)
Definition full_columns : list string :=
  ["image_file_name"; "orig_class_id"; "class_id"; "class_name"]%string.

Definition full_row (line : Z * MergedLine) (class_id : option string)
  (class_name : string) : Row :=
  {| index_label := fst line;
     cells :=
       [("image_file_name", image_file_name (image (snd line)));
        ("orig_class_id", str_int (merged_class_id (snd line)))]%string
       ++ match class_id with
          | Some c => [("class_id"%string, c)]
          | None => []
          end
       ++ [("class_name"%string, class_name)] |}.

Fixpoint full_rows (t : Table MergedLine) (class_id : list (option string))
  (class_name : list string) : list Row :=
  match t, class_id, class_name with
  | line :: t', c :: class_id', n :: class_name' =>
      full_row line c n :: full_rows t' class_id' class_name'
  | _, _, _ => []
  end.

(** [df.reset_index(inplace=True, drop=True)] *)
Definition frame_reset_index (df : DataFrame) : DataFrame :=
  {| columns := columns df;
     rows := map (fun p => {| index_label := fst p; cells := cells (snd p) |})
               (range_indexed (rows df)) |}.

(** ** The caller of the split: state and exceptions *)

(** What the notebook prints: a line of text, or a report of a verbose
    split. *)
Inductive Line : Type :=
| Text (s : string)
| Report (l : LogLine).

Record Session : Type := {
  random_state : RandomState;
  printed : list Line
}.

Definition Run (A : Type) : Type := Session -> Outcome (A * Session).

Definition run_ret {A : Type} (a : A) : Run A := fun s => Return (a, s).

Definition run_bind {A B : Type} (m : Run A) (k : A -> Run B) : Run B :=
  fun s =>
    match m s with
    | Return (a, s') => k a s'
    | Throw e => Throw e
    end.

Definition run_lift {A : Type} (o : Outcome A) : Run A :=
  fun s =>
    match o with
    | Return a => Return (a, s)
    | Throw e => Throw e
    end.

Declare Scope run_scope.
Delimit Scope run_scope with run.
Notation "x <- m ;; k" := (run_bind m (fun x => k))
  (at level 61, m at next level, right associativity) : run_scope.
Notation "m ;;; k" := (run_bind m (fun _ => k))
  (at level 61, right associativity) : run_scope.

(** [print(text)] *)
Definition print_text (text : string) : Run unit :=
  fun s => Return (tt, {| random_state := random_state s;
                          printed := printed s ++ [Text text] |}).

(** A call of a function of the split's monad: it runs on the session's
    random state and its output follows what was printed before. *)
Definition call {A : Type} (m : M A) : Run A :=
  fun s =>
    match m {| np_random := random_state s; stdout := [] |} with
    | Ok (a, w) =>
        Return (a, {| random_state := np_random w;
                      printed := printed s ++ map Report (stdout w) |})
    | Raise e => Throw (Std e)
    end.

(** [str(n)] of a length. *)
Definition str_nat (n : nat) : string := str_int (Z.of_nat n).

Definition newline : string := String (Ascii.ascii_of_nat 10) EmptyString.

(** ** The caller of the split: [get_train_val_dataframes] *)

Section Globals.

(** The notebook's globals that the function reads. *)
Variable SAMPLE_ONLY : bool.
Variable CLASSES : list Z.
Variable EXCLUDE_IMAGE_LIST : list string.

(** The function up to the call of the split: [full_df] as the split
    receives it. The two files are given by their parsed lines. *)
Definition build_full_df (images : list ImageLine)
  (image_class_labels : list LabelLine) : Run DataFrame :=
  (let images_df := read_csv images in
   let image_class_labels_df := read_csv image_class_labels in
   (* Merge the metadata into a single flat dataframe *)
   let full_df := images_df in
   let full_df :=
     mask_rows (fun l => negb (isin String.eqb (image_file_name l)
                                 EXCLUDE_IMAGE_LIST)) full_df in
   let full_df := reset_index full_df in
   let full_df := merge full_df image_class_labels_df in
   full_df <-
     (if SAMPLE_ONLY
      then
        (* grab a small subset of species for testing *)
        let full_df :=
          mask_rows (fun l => isin Z.eqb (merged_class_id l) CLASSES)
            full_df in
        print_text
          ("Using subset of total images based on sample class list. subtotal: "
           ++ str_nat (length full_df)) ;;;
        run_ret full_df
      else run_ret full_df) ;;
   let unique_classes :=
     drop_duplicates (map (fun p => merged_class_id (snd p)) full_df) in
   let sorted_unique_classes := sorted unique_classes in
   let id_to_one_based := number_classes sorted_unique_classes 1 [] in
   let class_id :=
     map (fun p => dict_get id_to_one_based (merged_class_id (snd p)))
       full_df in
   let full_df := reset_index full_df in
   class_name <-
     run_lift
       (apply_series get_class_name
          (map (fun p => image_file_name (image (snd p))) full_df)) ;;
   run_ret {| columns := full_columns;
              rows := full_rows full_df class_id class_name |})%run.

Definition get_train_val_dataframes (images : list ImageLine)
  (image_class_labels : list LabelLine) : Run Frames :=
  (full_df <- build_full_df images image_class_labels ;;
   (* split into training and validation sets *)
   out <- call (split_to_train_val_test full_df "class_id" SPLIT_RATIOS
                  false) ;;
   let '(train_df, val_df, test_df) := out in
   let train_df := frame_reset_index train_df in
   let val_df := frame_reset_index val_df in
   let test_df := frame_reset_index test_df in
   print_text ("num images total: " ++ str_nat (length images)) ;;;
   print_text (newline ++ "num train: "
               ++ str_nat (length (rows train_df))) ;;;
   print_text ("num val: " ++ str_nat (length (rows val_df))) ;;;
   print_text ("num test: " ++ str_nat (length (rows test_df))) ;;;
   run_ret (train_df, val_df, test_df))%run.

End Globals.

(** The values the notebook gives its globals. *)
Definition notebook_CLASSES : list Z := [13; 17; 35; 47]%Z.

Definition notebook_EXCLUDE_IMAGE_LIST : list string :=
  ["087.Mallard/Mallard_0130_76836.jpg"%string].

(** ** Vocabulary for the caller *)

(** The rows an inner join on the image id has, image line by image
    line. *)
Definition matching_pairs (images : list ImageLine)
  (image_class_labels : list LabelLine) : list MergedLine :=
  flat_map
    (fun l =>
       map (fun r => {| image := l; merged_class_id := orig_class_id r |})
         (filter (fun r => Z.eqb (labelled_pretty_name r)
                             (image_pretty_name l))
            image_class_labels))
    images.

(** The row is of an image that is not excluded and, when only a sample
    is used, of one of the sample's classes. *)
Definition wanted_line (SAMPLE_ONLY : bool) (CLASSES : list Z)
  (EXCLUDE_IMAGE_LIST : list string) (m : MergedLine) : bool :=
  negb (isin String.eqb (image_file_name (image m)) EXCLUDE_IMAGE_LIST)
  && (if SAMPLE_ONLY then isin Z.eqb (merged_class_id m) CLASSES else true).

Definition wanted (SAMPLE_ONLY : bool) (CLASSES : list Z)
  (EXCLUDE_IMAGE_LIST : list string) (images : list ImageLine)
  (image_class_labels : list LabelLine) : list MergedLine :=
  filter (wanted_line SAMPLE_ONLY CLASSES EXCLUDE_IMAGE_LIST)
    (matching_pairs images image_class_labels).

(** The rows of [full_df], in its order, before the two columns are
    added. *)
Definition selected (SAMPLE_ONLY : bool) (CLASSES : list Z)
  (EXCLUDE_IMAGE_LIST : list string) (images : list ImageLine)
  (image_class_labels : list LabelLine) : list MergedLine :=
  let kept :=
    filter (fun l => negb (isin String.eqb (image_file_name l)
                             EXCLUDE_IMAGE_LIST)) images in
  let merged :=
    map snd (merge (range_indexed kept) (range_indexed image_class_labels)) in
  if SAMPLE_ONLY
  then filter (fun l => isin Z.eqb (merged_class_id l) CLASSES) merged
  else merged.

(** The distinct classes of some rows. *)
Definition classes_of (ms : list MergedLine) : list Z :=
  drop_duplicates (map merged_class_id ms).

(** How many of the classes are smaller than [c]. *)
Definition class_rank (classes : list Z) (c : Z) : nat :=
  length (filter (fun x => (x <? c)%Z) classes).

(** The part of a file name before its first "/". *)
Definition directory_of (fn : string) : string :=
  hd EmptyString (split_on slash fn).

(** The cells of the row of [full_df] for a merged line, when the classes
    of the frame are [classes]. *)
Definition expected_cells (classes : list Z) (m : MergedLine)
  : list (string * string) :=
  [("image_file_name", image_file_name (image m));
   ("orig_class_id", str_int (merged_class_id m));
   ("class_id", str_nat (1 + class_rank classes (merged_class_id m)));
   ("class_name", directory_of (image_file_name (image m)))]%string.

(** What the function prints before the split when only a sample is
    used. *)
Definition subset_report (SAMPLE_ONLY : bool) (n : nat) : list Line :=
  if SAMPLE_ONLY
  then [Text ("Using subset of total images based on sample class list. subtotal: "
              ++ str_nat n)]
  else [].

(** [full_df] when it reaches the split: the selected rows under a range
    index, each with its four cells. *)
Definition full_frame (SAMPLE_ONLY : bool) (CLASSES : list Z)
  (EXCLUDE_IMAGE_LIST : list string) (images : list ImageLine)
  (image_class_labels : list LabelLine) : DataFrame :=
  let sel :=
    selected SAMPLE_ONLY CLASSES EXCLUDE_IMAGE_LIST images
      image_class_labels in
  {| columns := full_columns;
     rows := map (fun p => {| index_label := fst p;
                              cells := expected_cells (classes_of sel)
                                         (snd p) |})
               (range_indexed sel) |}.

(** The four lines the function prints after the split. *)
Definition size_report (n_images : nat) (out : Frames) : list Line :=
  let '(train_df, val_df, test_df) := out in
  [Text ("num images total: " ++ str_nat n_images);
   Text (newline ++ "num train: " ++ str_nat (length (rows train_df)));
   Text ("num val: " ++ str_nat (length (rows val_df)));
   Text ("num test: " ++ str_nat (length (rows test_df)))].

(** How many rows carry [value] in column [c], in each of three frames. *)
Definition rows_with (c value : string) (rs : list Row) : nat :=
  count_label c (Some value) rs.

(** ** A small data set for the examples *)

Definition image_line (i : Z) (fn : string) : ImageLine :=
  {| image_pretty_name := i; image_file_name := fn |}.

Definition label_line (i c : Z) : LabelLine :=
  {| labelled_pretty_name := i; orig_class_id := c |}.

Definition birds_images : list ImageLine :=
  [image_line 1 "013.Bobolink/a.jpg";
   image_line 2 "013.Bobolink/b.jpg";
   image_line 3 "087.Mallard/Mallard_0130_76836.jpg";
   image_line 4 "017.Cardinal/c.jpg";
   image_line 5 "001.Albatross/d.jpg";
   image_line 6 "017.Cardinal/e.jpg";
   image_line 7 "013.Bobolink/f.jpg"]%string.

Definition birds_labels : list LabelLine :=
  [label_line 1 13; label_line 2 13; label_line 3 87; label_line 4 17;
   label_line 5 1; label_line 6 17; label_line 7 13]%Z.

Definition session0 : Session := {| random_state := g0; printed := [] |}.

(** ** Reading the frames: the data set class and the test helpers *)

Definition and_then {A B : Type} (o : Outcome A) (k : A -> Outcome B)
  : Outcome B :=
  match o with
  | Return a => k a
  | Throw e => Throw e
  end.

Declare Scope outcome_scope.
Delimit Scope outcome_scope with outcome.
Notation "x <- m ;; k" := (and_then m (fun x => k))
  (at level 61, m at next level, right associativity) : outcome_scope.

(** [row[c]] for a row of [df], as [df.loc[label]] or [df.iloc[i]] give
    it: the cell, NaN included; [KeyError] when the frame has no column
    [c]. *)
Definition row_getitem (df : DataFrame) (row : Row) (c : string)
  : Outcome (option string) :=
  if existsb (String.eqb c) (columns df) then Return (cell c row)
  else Throw (Std KeyError).

(** [prefix + v] for a cell [v]: a str and NaN do not add. *)
Definition str_add (prefix : string) (v : option string) : Outcome string :=
  match v with
  | Some s => Return (prefix ++ s)%string
  | None => Throw TypeError
  end.

(** [int(v)] for a cell [v]: NaN has no int. *)
Definition int_of_cell (v : option string) : Outcome Z :=
  match v with
  | Some s => py_int s
  | None => Throw (Std ValueError)
  end.

(** The rows [df.loc[label]] selects. *)
Definition loc_rows (df : DataFrame) (label : Z) : list Row :=
  filter (fun r => Z.eqb (index_label r) label) (rows df).

(** [df.sample(n)]: [n] rows at random positions, without replacement. *)
Definition sample_n (n : Z) (df : DataFrame) : M DataFrame :=
  let axis_length := length (rows df) in
  if (n <? 0)%Z then raise ValueError
  else
    locs <- with_np_random (choice axis_length (Z.to_nat n)) ;;
    ret (take df locs).

Section Images.

(** What lies outside the notebook: the images, the directory they are
    in, PIL and the network. *)
Variable Image : Type.
Variable Confidence : Type.
Variable IMAGES_DIR : string.
(** [Image.open(fn)] *)
Variable Image_open : string -> Outcome Image.
(** [image.convert('RGB')] *)
Variable convert_RGB : Image -> Outcome Image.
(** [predict_image(image)] *)
Variable predict_image : Image -> Outcome (Z * Confidence).
Variable class_name_list : list string.

(** The two lines shared by [ImageDataset.__getitem__] and
    [get_random_images]:
    [fn = IMAGES_DIR + df.loc[label]['image_file_name']] and
    [label = int(df.loc[label]['class_id']) - 1]. Where the index holds
    the label several times, [loc] gives a frame, its columns are series,
    and [int] of such a series is a [TypeError]. *)
Definition file_and_label (df : DataFrame) (label : Z)
  : Outcome (string * Z) :=
  (match loc_rows df label with
   | [] => Throw (Std KeyError)
   | [row] =>
       name <- row_getitem df row "image_file_name" ;;
       fn <- str_add IMAGES_DIR name ;;
       class_id <- row_getitem df row "class_id" ;;
       (* make the label 0-based, not 1-based *)
       i <- int_of_cell class_id ;;
       Return (fn, (i - 1)%Z)
   | row :: _ =>
       _ <- row_getitem df row "image_file_name" ;;
       _ <- row_getitem df row "class_id" ;;
       Throw TypeError
   end)%outcome.

Record ImageDataset : Type := {
  data : DataFrame;
  transform : option (Image -> Outcome Image)
}.

(** [ImageDataset.__len__] *)
Definition ImageDataset_len (self : ImageDataset) : nat :=
  length (rows (data self)).

(** [ImageDataset.__getitem__]: the image and the value of the label
    tensor. *)
Definition ImageDataset_getitem (self : ImageDataset) (index : Z)
  : Outcome (Image * Z) :=
  (fl <- file_and_label (data self) index ;;
   let '(fn, label) := fl in
   image <- Image_open fn ;;
   image <- convert_RGB image ;;
   image <- match transform self with
            | Some t => t image
            | None => Return image
            end ;;
   Return (image, label))%outcome.

(** The loop of [get_random_images] over [range(num)]. *)
Fixpoint random_images_loop (sample_df : DataFrame) (range : list Z)
  (images : list Image) (labels : list Z)
  : Outcome (list Image * list Z) :=
  match range with
  | [] => Return (images, labels)
  | i :: rest =>
      (fl <- file_and_label sample_df i ;;
       let '(fn, lbl) := fl in
       img <- Image_open fn ;;
       random_images_loop sample_df rest (images ++ [img])
         (labels ++ [lbl]))%outcome
  end.

Definition get_random_images (df : DataFrame) (num : Z)
  : Run (list Image * list Z) :=
  (sample_df <- call (sample_n num df) ;;
   let sample_df := frame_reset_index sample_df in
   run_lift
     (random_images_loop sample_df (range_index (Z.to_nat num)) [] []))%run.







End Images.

(** ** Vocabulary for the test helpers *)


(** The zero-based label of a row: [int(class_id) - 1]. *)
Definition zero_based_label (row : Row) : Outcome Z :=
  match int_of_cell (cell "class_id" row) with
  | Return n => Return (n - 1)%Z
  | Throw e => Throw e
  end.

(** What a frame returned by [get_train_val_dataframes] is like: indexed
    from 0, with the four columns when it has a row, each row with the
    cells of a wanted row. *)
Definition returned_frame_like (SAMPLE_ONLY : bool) (CLASSES : list Z)
  (EXCLUDE_IMAGE_LIST : list string) (images : list ImageLine)
  (image_class_labels : list LabelLine) (f : DataFrame) : Prop :=
  let rows_wanted :=
    wanted SAMPLE_ONLY CLASSES EXCLUDE_IMAGE_LIST images
      image_class_labels in
  index f = range_index (length (rows f)) /\
  (rows f <> [] -> columns f = full_columns) /\
  forall r, In r (rows f) ->
    exists m, In m rows_wanted /\
              cells r = expected_cells (classes_of rows_wanted) m.

(** ** Stand-ins for the outside world in the examples

    An image is named by the path it is opened from; the model always
    predicts class 0 with confidence 1. *)

Definition example_dir : string := "images/".

Definition example_open (fn : string) : Outcome string := Return fn.

Definition example_convert (image : string) : Outcome string := Return image.



Definition two_birds : DataFrame :=
  {| columns := ["image_file_name"; "class_id"]%string;
     rows := [{| index_label := 0;
                 cells := [("image_file_name", "013.Bobolink/a.jpg");
                           ("class_id", "1")]%string |};
              {| index_label := 1;
                 cells := [("image_file_name", "017.Cardinal/c.jpg");
                           ("class_id", "2")]%string |}] |}.

(** ** The XGBoost notebook: [download_artifacts] *)

Module S3Path.

Import Ascii.

(** [s[n:]] *)
Fixpoint drop_chars (n : nat) (s : string) : string :=
  match n, s with
  | S n', String _ s' => drop_chars n' s'
  | _, _ => s
  end.

(** [s[:-1]] *)
Definition drop_last (s : string) : string :=
  substring 0 (String.length s - 1) s.

(** Where the shortest match of [.*?/] from the start of [s] ends: after
    the first "/", which no newline may precede. *)
Fixpoint lazy_to_slash (s : string) : option nat :=
  match s with
  | EmptyString => None
  | String c s' =>
      if Ascii.eqb c "/"%char then Some 1
      else if Ascii.eqb c "010"%char then None
      else option_map S (lazy_to_slash s')
  end.

(** The lookbehind [(?<=s3://)] at position [i] of [whole]. *)
Definition after_s3 (whole : string) (i : nat) : bool :=
  (5 <=? i) && String.eqb (substring (i - 5) 5 whole) "s3://".

(** [re.compile('(?<=s3://).*?/').search(whole)] from position [i] on,
    where [rest] is [whole[i:]]: the span of the first match. *)
Fixpoint search_from (whole : string) (i : nat) (rest : string)
  : option (nat * nat) :=
  let here :=
    if after_s3 whole i
    then option_map (fun n => (i, i + n)) (lazy_to_slash rest)
    else None in
  match here with
  | Some span => Some span
  | None =>
      match rest with
      | EmptyString => None
      | String _ rest' => search_from whole (S i) rest'
      end
  end.

End S3Path.

Import S3Path.

(** What [download_artifacts] asks of AWS. *)
Inductive AwsCall : Type :=
| DescribeTrainingJob (TrainingJobName : string)
| DownloadFile (bucket_name object_name local_fname : string).

Section Artifacts.

(** The notebook's global. *)
Variable TRAINING_JOB_NAME : string.

(** [describe_training_job(TrainingJobName=name)
    ['ModelArtifacts']['S3ModelArtifacts']] *)
Variable S3ModelArtifacts : string -> Outcome string.

(** [download_artifacts(job_name, local_fname)]: the calls it makes. *)
Definition download_artifacts (job_name local_fname : string)
  : Outcome (list AwsCall) :=
  (model_artifacts_full_path <- S3ModelArtifacts TRAINING_JOB_NAME ;;
   match search_from model_artifacts_full_path 0 model_artifacts_full_path
   with
   | None => Throw AttributeError
   | Some (span_start, span_end) =>
       let object_name_start := span_end in
       let object_name :=
         drop_chars object_name_start model_artifacts_full_path in
       let group :=
         substring span_start (span_end - span_start)
           model_artifacts_full_path in
       let bucket_name := drop_last group in
       Return [DescribeTrainingJob TRAINING_JOB_NAME;
               DownloadFile bucket_name object_name local_fname]
   end)%outcome.

End Artifacts.

(** The character is not a newline. *)
Definition newline_char : Ascii.ascii := Ascii.ascii_of_nat 10.

(** ** Frames as objects

    A frame of the Python program is an object and a variable holds a
    reference to it. To say what a call does to the objects that exist
    when it starts, the function is written once more over a store that
    keeps every frame created, in order of creation. The pandas calls of
    the function return a new frame each ([pd.DataFrame()], [df[mask]],
    [sample], [drop] without [inplace], [append]); the function reads the
    frames through their references. *)

Module Objects.

Definition Ref : Type := nat.

Record Store : Type := {
  heap : list DataFrame;
  interpreter : World
}.

(** A computation on the store. An exception leaves the store as it is
    when raised. *)
Definition P (A : Type) : Type := Store -> Result A * Store.

Definition pret {A : Type} (a : A) : P A := fun s => (Ok a, s).

Definition pbind {A B : Type} (m : P A) (k : A -> P B) : P B :=
  fun s =>
    match m s with
    | (Ok a, s') => k a s'
    | (Raise e, s') => (Raise e, s')
    end.

Declare Scope object_scope.
Delimit Scope object_scope with object.
Notation "x <- m ;; k" := (pbind m (fun x => k))
  (at level 61, m at next level, right associativity) : object_scope.
Notation "m ;;; k" := (pbind m (fun _ => k))
  (at level 61, right associativity) : object_scope.

(** The frame a reference points to. References come from [alloc] only,
    so a variable of the program always points to an object of the
    store. *)
Definition read (r : Ref) : P DataFrame :=
  fun s => (Ok (nth r (heap s) empty_frame), s).

(** A new object. *)
Definition alloc (f : DataFrame) : P Ref :=
  fun s => (Ok (length (heap s)),
            {| heap := heap s ++ [f]; interpreter := interpreter s |}).

(** An object changed in place: the reference stays, the frame it
    points to is replaced. *)
Fixpoint store_at (r : Ref) (f : DataFrame) (objects : list DataFrame)
  : list DataFrame :=
  match objects, r with
  | [], _ => []
  | _ :: rest, O => f :: rest
  | o :: rest, S r' => o :: store_at r' f rest
  end.

Definition write (r : Ref) (f : DataFrame) : P unit :=
  fun s => (Ok tt, {| heap := store_at r f (heap s);
                      interpreter := interpreter s |}).

(** A step on the interpreter state: it raises before it changes the
    state, or not at all. *)
Definition interp {A : Type} (m : M A) : P A :=
  fun s =>
    match m (interpreter s) with
    | Ok (a, w) => (Ok a, {| heap := heap s; interpreter := w |})
    | Raise e => (Raise e, s)
    end.

(** [pd.DataFrame()] *)
Definition new_frame : P Ref := alloc empty_frame.

(** [df[c]] *)
Definition frame_getitem (df : Ref) (c : string)
  : P (list (option string)) :=
  (f <- read df ;; interp (lift (getitem f c)))%object.

(** [df[mask]] *)
Definition frame_getitem_mask (df : Ref) (mask : list bool) : P Ref :=
  (f <- read df ;; alloc (getitem_mask f mask))%object.

(** [df.sample(frac=frac)] *)
Definition frame_sample (frac : Num) (df : Ref) : P Ref :=
  (f <- read df ;; s <- interp (sample frac f) ;; alloc s)%object.

(** [df.index] *)
Definition frame_index (df : Ref) : P (list Z) :=
  (f <- read df ;; pret (index f))%object.

(** [df.drop(labels)] *)
Definition frame_drop (df : Ref) (labels : list Z) : P Ref :=
  (f <- read df ;; d <- interp (lift (drop f labels)) ;; alloc d)%object.

(** [a.append(b)] *)
Definition frame_append (a b : Ref) : P Ref :=
  (fa <- read a ;; fb <- read b ;; alloc (append fa fb))%object.

(** [len(df)] *)
Definition frame_len (df : Ref) : P nat :=
  (f <- read df ;; pret (length (rows f)))%object.

(** [df.reset_index(inplace=True, drop=True)], which the caller runs on
    each frame the split returns: a call that changes the object it is
    given. The split itself makes no such call. *)
Definition frame_reset_index_inplace (df : Ref) : P unit :=
  (f <- read df ;; write df (frame_reset_index f))%object.

Definition Refs : Type := (Ref * Ref * Ref)%type.

(** Body of [for lbl in labels]. *)
Definition split_label (df : Ref) (label_column : string)
  (splits : Splits) (verbose : bool) (acc : Refs) (lbl : option string)
  : P Refs :=
  (let '(train_df, val_df, test_df) := acc in
   let '(s0, s1, s2) := splits in
   col <- frame_getitem df label_column ;;
   lbl_df <- frame_getitem_mask df (series_eq col lbl) ;;
   lbl_train_df <- frame_sample (Float s0) lbl_df ;;
   train_index <- frame_index lbl_train_df ;;
   lbl_val_and_test_df <- frame_drop lbl_df train_index ;;
   frac <- interp (lift (truediv s2 (add s1 s2))) ;;
   lbl_test_df <- frame_sample (Float frac) lbl_val_and_test_df ;;
   test_index <- frame_index lbl_test_df ;;
   lbl_val_df <- frame_drop lbl_val_and_test_df test_index ;;
   (if verbose
    then
      n_total <- frame_len lbl_df ;;
      n_train <- frame_len lbl_train_df ;;
      n_val <- frame_len lbl_val_df ;;
      n_test <- frame_len lbl_test_df ;;
      interp (py_print {| log_label := lbl;
                          log_total := n_total;
                          log_train := n_train;
                          log_val := n_val;
                          log_test := n_test |})
    else pret tt) ;;;
   train_df <- frame_append train_df lbl_train_df ;;
   val_df <- frame_append val_df lbl_val_df ;;
   test_df <- frame_append test_df lbl_test_df ;;
   pret (train_df, val_df, test_df))%object.

Fixpoint for_labels (df : Ref) (label_column : string) (splits : Splits)
  (verbose : bool) (labels : list (option string)) (acc : Refs) : P Refs :=
  match labels with
  | [] => pret acc
  | lbl :: rest =>
      (acc' <- split_label df label_column splits verbose acc lbl ;;
       for_labels df label_column splits verbose rest acc')%object
  end.

Definition split_to_train_val_test (df : Ref) (label_column : string)
  (splits : Splits) (verbose : bool) : P Refs :=
  (train_df <- new_frame ;;
   val_df <- new_frame ;;
   test_df <- new_frame ;;
   col <- frame_getitem df label_column ;;
   let labels := unique col in
   acc <- for_labels df label_column splits verbose labels
            (train_df, val_df, test_df) ;;
   let '(train_df, val_df, test_df) := acc in
   (* shuffle them on the way out using .sample(frac=1) *)
   train_out <- frame_sample (Int 1) train_df ;;
   val_out <- frame_sample (Int 1) val_df ;;
   test_out <- frame_sample (Int 1) test_df ;;
   pret (train_out, val_out, test_out))%object.

(** The reference points to the frame. *)
Definition points (s : Store) (r : Ref) (f : DataFrame) : Prop :=
  nth_error (heap s) r = Some f.

(** The later store holds every object of the earlier one, as it was,
    and perhaps new ones after them. *)
Definition extends (s s' : Store) : Prop :=
  exists new_objects, heap s' = heap s ++ new_objects.

(** What a step that makes a new frame out of frame [f] does. *)
Definition makes (s : Store) (run : Result Ref * Store)
  (pure : Result (DataFrame * World)) : Prop :=
  match pure with
  | Ok (f, w) =>
      run = (Ok (length (heap s)),
             {| heap := heap s ++ [f]; interpreter := w |})
  | Raise e => run = (Raise e, s)
  end.

(** A run over the store does what the run over values does: it raises
    the same exception, or returns references to new objects that are
    the frames returned there and leaves the interpreter in the same
    state; either way every object of the store stays as it was. *)
Definition follows (s : Store) (run : Result Refs * Store)
  (pure : Result (Frames * World)) : Prop :=
  extends s (snd run) /\
  match pure with
  | Ok ((f1, f2, f3), w) =>
      exists r1 r2 r3,
        fst run = Ok (r1, r2, r3) /\
        interpreter (snd run) = w /\
        points (snd run) r1 f1 /\ points (snd run) r2 f2 /\
        points (snd run) r3 f3
  | Raise e => fst run = Raise e
  end.

End Objects.

(** A store for the examples: the frame of the example at reference 0. *)
Definition store_ab : Objects.Store :=
  {| Objects.heap := [df_ab]; Objects.interpreter := w0 |}.

(** * Facts about the embedding *)

(** ** Floats: a fraction of a row count, rounded

    Multiplying a row count by 1.0 and rounding is exact; multiplying it by
    a fraction between 0 and 1 and rounding stays within the row count. *)

Section FloatFacts.

Local Open Scope Z_scope.

Lemma digits2_pos_lower (p : positive) :
  2 ^ (Zpos (digits2_pos p) - 1) <= Zpos p.
Proof.
  induction p as [p IH | p IH |]; simpl digits2_pos.
  - rewrite Pos2Z.inj_succ.
    replace (Z.succ (Zpos (digits2_pos p)) - 1)
      with (Z.succ (Zpos (digits2_pos p) - 1)) by lia.
    rewrite Z.pow_succ_r by lia. lia.
  - rewrite Pos2Z.inj_succ.
    replace (Z.succ (Zpos (digits2_pos p)) - 1)
      with (Z.succ (Zpos (digits2_pos p) - 1)) by lia.
    rewrite Z.pow_succ_r by lia. lia.
  - simpl. lia.
Qed.

Lemma digits2_pos_le_53 (p : positive) :
  Zpos p < 2 ^ 53 -> Zpos (digits2_pos p) <= 53.
Proof.
  intros Hp.
  destruct (Z_le_gt_dec (Zpos (digits2_pos p)) 53) as [H | H];
    [exact H | exfalso].
  pose proof (digits2_pos_lower p) as Hl.
  assert (2 ^ 53 <= 2 ^ (Zpos (digits2_pos p) - 1))
    by (apply Z.pow_le_mono_r; lia).
  lia.
Qed.

Lemma digits2_pos_shift (p k : positive) :
  digits2_pos (Pos.iter xO p k) = (digits2_pos p + k)%positive.
Proof.
  induction k as [| k IH] using Pos.peano_ind.
  - simpl. lia.
  - rewrite Pos.iter_succ. simpl. rewrite IH. lia.
Qed.

Lemma Zpos_shift (p k : positive) :
  Zpos (Pos.iter xO p k) = Zpos p * 2 ^ Zpos k.
Proof.
  induction k as [| k IH] using Pos.peano_ind.
  - simpl. lia.
  - rewrite Pos.iter_succ, Pos2Z.inj_succ, Z.pow_succ_r by lia.
    rewrite Pos2Z.inj_xO, IH. lia.
Qed.

(** A mantissa of 53 bits with an exponent in range is left as it is by
    the final rounding. *)
Lemma binary_round_aux_canonical (m : positive) (e : Z) :
  Zpos (digits2_pos m) = 53 -> -1074 <= e <= 971 ->
  binary_round_aux prec emax false (Zpos m) e loc_Exact = S754_finite false m e.
Proof.
  intros Hd He.
  unfold binary_round_aux, shr_fexp, Zdigits2, shr_record_of_loc.
  rewrite Hd.
  assert (Hf : fexp prec emax (53 + e) - e = 0).
  { unfold fexp, emin, prec, emax. lia. }
  rewrite Hf. cbn [shr shr_m loc_of_shr_record round_nearest_even shr_r shr_s].
  unfold Zdigits2. rewrite Hd, Hf.
  cbn [shr shr_m].
  replace (e <=? emax - prec) with true; [reflexivity |].
  symmetry. apply Z.leb_le. unfold emax, prec. lia.
Qed.

Lemma mul_one_canonical (m : positive) (e : Z) :
  Zpos (digits2_pos m) = 53 -> -1074 <= e <= 971 ->
  mul one (S754_finite false m e) = S754_finite false m e.
Proof.
  intros Hd He.
  change one with (S754_finite false 4503599627370496 (-52)).
  unfold mul, SFmul. cbn [xorb].
  change (4503599627370496 * m)%positive with (Pos.iter xO m 52).
  unfold binary_round_aux, shr_fexp, Zdigits2, shr_record_of_loc.
  rewrite digits2_pos_shift, Pos2Z.inj_add, Hd.
  assert (Hf : fexp prec emax (53 + 52 + (-52 + e)) - (-52 + e) = 52).
  { unfold fexp, emin, prec, emax. lia. }
  rewrite Hf.
  cbn [shr].
  change (iter_pos shr_1 52
            {| shr_m := Zpos (Pos.iter xO m 52);
               shr_r := false; shr_s := false |})
    with {| shr_m := Zpos m; shr_r := false; shr_s := false |}.
  cbn [shr_m loc_of_shr_record round_nearest_even].
  unfold Zdigits2. rewrite Hd.
  replace (-52 + e + 52) with e by lia.
  assert (Hf' : fexp prec emax (53 + e) - e = 0).
  { unfold fexp, emin, prec, emax. lia. }
  rewrite Hf'. cbn [shr shr_m].
  replace (e <=? emax - prec) with true; [reflexivity |].
  symmetry. apply Z.leb_le. unfold emax, prec. lia.
Qed.

(** [float(p)] is exact below [2^53]. *)
Lemma of_Z_small (p : positive) :
  Zpos p < 2 ^ 53 ->
  exists m e, of_Z (Zpos p) = S754_finite false m e /\
              Zpos (digits2_pos m) = 53 /\ -52 <= e <= 0 /\
              Zpos m = Zpos p * 2 ^ (- e).
Proof.
  intros Hp. pose proof (digits2_pos_le_53 p Hp) as Hd.
  unfold of_Z, binary_normalize, binary_round.
  assert (Hf : fexp prec emax (Zpos (digits2_pos p) + 0)
               = Zpos (digits2_pos p) - 53).
  { unfold fexp, emin, prec, emax. lia. }
  rewrite Hf. unfold shl_align.
  destruct (Zpos (digits2_pos p) - 53 - 0) as [| q | q] eqn:Hq; try lia.
  - exists p, 0. rewrite binary_round_aux_canonical by lia.
    repeat split; try lia.
  - assert (Hdq : Zpos (digits2_pos (Pos.iter xO p q)) = 53).
    { rewrite digits2_pos_shift, Pos2Z.inj_add. lia. }
    exists (Pos.iter xO p q), (Zpos (digits2_pos p) - 53).
    rewrite binary_round_aux_canonical by lia.
    repeat split; try lia.
    rewrite Zpos_shift. f_equal. f_equal. lia.
Qed.

Lemma round_half_even_exact (n k : Z) :
  0 < k -> round_half_even (n * 2 ^ k) k = n.
Proof.
  intros Hk. unfold round_half_even.
  assert (0 < 2 ^ k) by (apply Z.pow_pos_nonneg; lia).
  assert (0 < 2 ^ (k - 1)) by (apply Z.pow_pos_nonneg; lia).
  rewrite Z.mod_mul, Z.div_mul by lia.
  replace (0 <? 2 ^ (k - 1)) with true; [reflexivity |].
  symmetry. apply Z.ltb_lt. lia.
Qed.

Lemma round_mul_one_of_Z (n : Z) :
  0 <= n < 2 ^ 53 -> round (mul one (of_Z n)) = Ok n.
Proof.
  intros Hn. destruct n as [| p | p]; try lia.
  - reflexivity.
  - destruct (of_Z_small p) as (m & e & -> & Hd & He & Hm); [lia |].
    rewrite mul_one_canonical by lia.
    unfold round, cond_Zopp.
    destruct (0 <=? e) eqn:Hle.
    + apply Z.leb_le in Hle. assert (e = 0) by lia. subst e.
      rewrite Hm. f_equal. simpl. lia.
    + apply Z.leb_gt in Hle.
      rewrite Hm, round_half_even_exact by lia. reflexivity.
Qed.

(** Rounding a product with a fraction. *)

Lemma iter_pos_nat {A : Type} (f : A -> A) (p : positive) :
  forall x, iter_pos f p x = Nat.iter (Pos.to_nat p) f x.
Proof.
  induction p as [p IH | p IH |]; intros x; cbn [iter_pos].
  - rewrite !IH, Pos2Nat.inj_xI.
    replace (S (2 * Pos.to_nat p))%nat
      with (Pos.to_nat p + S (Pos.to_nat p))%nat by lia.
    rewrite Nat.iter_add, Nat.iter_succ_r. reflexivity.
  - rewrite !IH, Pos2Nat.inj_xO.
    replace (2 * Pos.to_nat p)%nat
      with (Pos.to_nat p + Pos.to_nat p)%nat by lia.
    rewrite Nat.iter_add. reflexivity.
  - reflexivity.
Qed.

Lemma shr_1_spec (mrs : shr_record) :
  0 <= shr_m mrs ->
  shr_1 mrs = {| shr_m := shr_m mrs / 2;
                 shr_r := Z.odd (shr_m mrs);
                 shr_s := shr_r mrs || shr_s mrs |}.
Proof.
  destruct mrs as [m r s]. simpl. intros Hm.
  rewrite <- Z.div2_div.
  destruct m as [| p | p]; [reflexivity | | lia].
  destruct p; reflexivity.
Qed.

(** Shifting right [j] times is the floor division by [2^j], and leaves no
    round or sticky bit when the division is exact. *)
Lemma shr_iter_spec (j : nat) (m : Z) :
  0 <= m ->
  let mrs := Nat.iter j shr_1
               {| shr_m := m; shr_r := false; shr_s := false |} in
  shr_m mrs = m / 2 ^ Z.of_nat j /\
  (m mod 2 ^ Z.of_nat j = 0 -> shr_r mrs = false /\ shr_s mrs = false).
Proof.
  intros Hm. induction j as [| j IH].
  - simpl. rewrite Z.div_1_r. auto.
  - cbv zeta in *. rewrite Nat.iter_succ.
    set (mrs := Nat.iter j shr_1 _) in *.
    destruct IH as [IHm IHx].
    assert (Hp : 0 < 2 ^ Z.of_nat j) by (apply Z.pow_pos_nonneg; lia).
    assert (Hq : 0 <= m / 2 ^ Z.of_nat j) by (apply Z.div_pos; lia).
    rewrite shr_1_spec by (rewrite IHm; exact Hq). cbn [shr_m shr_r shr_s].
    rewrite Nat2Z.inj_succ, Z.pow_succ_r by lia.
    split.
    + rewrite IHm, Z.div_div by lia. f_equal. lia.
    + intros Hx.
      apply Z.mod_divide in Hx; [| lia]. destruct Hx as [q Hq'].
      assert (Hmj : m mod 2 ^ Z.of_nat j = 0).
      { apply Z.mod_divide; [lia |]. exists (2 * q). lia. }
      destruct (IHx Hmj) as [-> ->]. split; [| reflexivity].
      rewrite IHm.
      replace m with ((2 * q) * 2 ^ Z.of_nat j) by lia.
      rewrite Z.div_mul by lia. rewrite Z.odd_mul. reflexivity.
Qed.

(** [shr] by [k]: the mantissa is floor-divided by [2^max(k,0)], the
    exponent grows by as much, and an exact division is located exactly. *)
Lemma shr_spec (m e k : Z) :
  0 <= m ->
  exists mrs,
    shr {| shr_m := m; shr_r := false; shr_s := false |} e k
    = (mrs, e + Z.max k 0) /\
    shr_m mrs = m / 2 ^ Z.max k 0 /\
    (m mod 2 ^ Z.max k 0 = 0 -> loc_of_shr_record mrs = loc_Exact).
Proof.
  intros Hm. destruct k as [| p | p].
  - eexists. split; [simpl; rewrite Z.add_0_r; reflexivity |].
    simpl. rewrite Z.div_1_r. auto.
  - pose proof (shr_iter_spec (Pos.to_nat p) m Hm) as H. cbv zeta in H.
    rewrite positive_nat_Z in H. destruct H as [H1 H2].
    eexists. split; [| split].
    + unfold shr. rewrite iter_pos_nat. rewrite Z.max_l by lia. reflexivity.
    + rewrite Z.max_l by lia. exact H1.
    + rewrite Z.max_l by lia. intros Hx. destruct (H2 Hx) as [Hr Hs].
      destruct (Nat.iter _ _ _) as [m' r s]. simpl in *. subst. reflexivity.
  - eexists. split; [simpl; rewrite Z.add_0_r; reflexivity |].
    simpl. rewrite Z.div_1_r. auto.
Qed.

Lemma round_nearest_even_bounds (m : Z) (l : location) :
  m <= round_nearest_even m l <= m + 1.
Proof.
  unfold round_nearest_even. destruct l as [| []]; try lia.
  destruct (Z.even m); lia.
Qed.

Lemma digits2_pos_upper (p : positive) (j : Z) :
  Zpos p < 2 ^ j -> Zpos (digits2_pos p) <= j.
Proof.
  intros Hp.
  destruct (Z_le_gt_dec (Zpos (digits2_pos p)) j) as [H | H]; [exact H |].
  exfalso. pose proof (digits2_pos_lower p) as Hl.
  destruct (Z_lt_le_dec j 0) as [Hj | Hj].
  - rewrite Z.pow_neg_r in Hp by lia. lia.
  - assert (2 ^ j <= 2 ^ (Zpos (digits2_pos p) - 1))
      by (apply Z.pow_le_mono_r; lia).
    lia.
Qed.

Lemma Zdigits2_upper (m j : Z) :
  0 <= m < 2 ^ j -> 0 <= j -> Zdigits2 m <= j.
Proof.
  intros [Hm Hlt] Hj. destruct m as [| p | p]; simpl; [lia | | lia].
  apply digits2_pos_upper. exact Hlt.
Qed.

(** Rounding [m / 2^j] to an integer does not pass an integer bound. *)
Lemma round_half_even_le (m j n : Z) :
  0 < j -> 0 <= m <= n * 2 ^ j -> 0 <= round_half_even m j <= n.
Proof.
  intros Hj [Hm Hn]. unfold round_half_even.
  assert (Hp : 0 < 2 ^ j) by (apply Z.pow_pos_nonneg; lia).
  assert (Hh : 0 < 2 ^ (j - 1)) by (apply Z.pow_pos_nonneg; lia).
  pose proof (Z.div_mod m (2 ^ j) ltac:(lia)) as Hdm.
  pose proof (Z.mod_pos_bound m (2 ^ j) Hp) as Hr.
  assert (Hq : 0 <= m / 2 ^ j) by (apply Z.div_pos; lia).
  assert (Hqn : m / 2 ^ j <= n) by (apply Z.div_le_upper_bound; lia).
  assert (Hup : 0 < m mod 2 ^ j -> m / 2 ^ j + 1 <= n) by nia.
  destruct (m mod 2 ^ j <? 2 ^ (j - 1)) eqn:E1; [lia |].
  apply Z.ltb_ge in E1.
  destruct (2 ^ (j - 1) <? m mod 2 ^ j) eqn:E2.
  - apply Z.ltb_lt in E2. lia.
  - destruct (Z.even (m / 2 ^ j)); lia.
Qed.

(** The product of a fraction in [0, 1] and a row count, rounded to
    binary64 and then to an integer, is between 0 and the row count. *)
Lemma round_product_le (P : positive) (E n : Z) :
  E <= 0 -> 0 < n < 2 ^ 53 -> Zpos P <= n * 2 ^ (- E) ->
  exists z,
    round (binary_round_aux prec emax false (Zpos P) E loc_Exact) = Ok z /\
    0 <= z <= n.
Proof.
  intros HE Hn HP.
  unfold binary_round_aux, shr_fexp.
  change (shr_record_of_loc (Zpos P) loc_Exact)
    with {| shr_m := Zpos P; shr_r := false; shr_s := false |}.
  set (k := fexp prec emax (Zdigits2 (Zpos P) + E) - E).
  destruct (shr_spec (Zpos P) E k ltac:(lia)) as (mrs & -> & Hm1 & Hx1).
  set (K := Z.max k 0) in *. set (e1 := E + K).
  assert (HK : 0 <= K) by (unfold K; lia).
  assert (HpK : 0 < 2 ^ K) by (apply Z.pow_pos_nonneg; lia).
  (* the exponent stays non-positive *)
  assert (Hd : Zdigits2 (Zpos P) + E <= 53).
  { assert (Zpos P < 2 ^ (53 - E)).
    { replace (53 - E) with (53 + - E) by lia.
      rewrite Z.pow_add_r by lia.
      assert (0 < 2 ^ (- E)) by (apply Z.pow_pos_nonneg; lia). nia. }
    pose proof (Zdigits2_upper (Zpos P) (53 - E)). lia. }
  assert (He1 : e1 <= 0).
  { unfold e1, K, k, fexp, emin, prec, emax. lia. }
  set (N := n * 2 ^ (- e1)).
  assert (HpN : 0 < 2 ^ (- e1)) by (apply Z.pow_pos_nonneg; lia).
  assert (HPN : Zpos P <= N * 2 ^ K).
  { unfold N. rewrite <- Z.mul_assoc, <- Z.pow_add_r by lia.
    replace (- e1 + K) with (- E) by (unfold e1; lia). exact HP. }
  set (m1 := shr_m mrs) in *.
  assert (Hm1pos : 0 <= m1) by (rewrite Hm1; apply Z.div_pos; lia).
  set (m2 := round_nearest_even m1 (loc_of_shr_record mrs)).
  assert (Hm2 : 0 <= m2 <= N).
  { pose proof (round_nearest_even_bounds m1 (loc_of_shr_record mrs)) as Hb.
    fold m2 in Hb. split; [lia |].
    pose proof (Z.div_mod (Zpos P) (2 ^ K) ltac:(lia)) as Hdm.
    pose proof (Z.mod_pos_bound (Zpos P) (2 ^ K) HpK) as Hr.
    rewrite <- Hm1 in Hdm.
    destruct (Z.eq_dec (Zpos P mod 2 ^ K) 0) as [Hz | Hnz].
    - unfold m2. rewrite (Hx1 Hz). simpl. nia.
    - assert (m1 < N) by nia. lia. }
  change (shr_record_of_loc m2 loc_Exact)
    with {| shr_m := m2; shr_r := false; shr_s := false |}.
  set (k2 := fexp prec emax (Zdigits2 m2 + e1) - e1).
  destruct (shr_spec m2 e1 k2 ltac:(lia)) as (mrs2 & -> & Hm3 & _).
  set (K2 := Z.max k2 0) in *. set (e2 := e1 + K2).
  assert (HK2 : 0 <= K2) by (unfold K2; lia).
  assert (HpK2 : 0 < 2 ^ K2) by (apply Z.pow_pos_nonneg; lia).
  assert (Hd2 : Zdigits2 m2 + e1 <= 53).
  { assert (m2 < 2 ^ (53 - e1)).
    { replace (53 - e1) with (53 + - e1) by lia.
      rewrite Z.pow_add_r by lia. unfold N in Hm2. nia. }
    pose proof (Zdigits2_upper m2 (53 - e1)). lia. }
  assert (He2 : e2 <= 0).
  { unfold e2, K2, k2, fexp, emin, prec, emax. lia. }
  assert (HpN2 : 0 < 2 ^ (- e2)) by (apply Z.pow_pos_nonneg; lia).
  assert (Hm3b : 0 <= shr_m mrs2 <= n * 2 ^ (- e2)).
  { rewrite Hm3. split; [apply Z.div_pos; lia |].
    apply Z.div_le_upper_bound; [lia |].
    rewrite Z.mul_comm, <- Z.mul_assoc, <- Z.pow_add_r by lia.
    replace (- e2 + K2) with (- e1) by (unfold e2; lia). apply Hm2. }
  cbn [fst snd]. fold e2.
  destruct (shr_m mrs2) as [| m | m] eqn:Em; [| | lia].
  - exists 0. split; [reflexivity | lia].
  - replace (e2 <=? emax - prec) with true
      by (symmetry; apply Z.leb_le; unfold emax, prec; lia).
    unfold round, cond_Zopp.
    destruct (0 <=? e2) eqn:E0.
    + apply Z.leb_le in E0. assert (e2 = 0) by lia.
      eexists. split; [reflexivity |].
      replace e2 with 0 in * by lia. simpl in Hm3b. simpl. lia.
    + apply Z.leb_gt in E0. eexists. split; [reflexivity |].
      apply round_half_even_le; lia.
Qed.

Lemma digits2_pos_bound (p : positive) : Zpos p < 2 ^ Zpos (digits2_pos p).
Proof.
  induction p as [p IH | p IH |]; simpl digits2_pos.
  - rewrite Pos2Z.inj_succ, Z.pow_succ_r by lia. lia.
  - rewrite Pos2Z.inj_succ, Z.pow_succ_r by lia. lia.
  - simpl. lia.
Qed.

(** A valid positive float that is not above 1.0 is a mantissa over a
    power of two that is at least as large. *)

Lemma le_one_mantissa (m : positive) (e : Z) :
  valid_binary prec emax (S754_finite false m e) = true ->
  ltb one (S754_finite false m e) = false ->
  e <= 0 /\ Zpos m <= 2 ^ (- e).
Proof.
  intros Hv Hlt.
  change one with (S754_finite false 4503599627370496 (-52)) in Hlt.
  unfold ltb, SFltb, SFcompare in Hlt.
  destruct (Z.compare_spec (-52) e) as [He | He | He]; try discriminate.
  - subst e. split; [lia |].
    rewrite Pos.compare_cont_spec in Hlt. cbn [Pos.switch_Eq] in Hlt.
    change (2 ^ (- -52)) with 4503599627370496.
    destruct (Pos.compare_spec 4503599627370496 m) as [Hm | Hm | Hm];
      try discriminate.
    + subst m. apply Z.le_refl.
    + apply Z.lt_le_incl. exact Hm.
  - split; [lia |].
    cbn [valid_binary] in Hv. unfold bounded, canonical_mantissa in Hv.
    apply andb_true_iff in Hv as [Hc _]. apply Z.eqb_eq in Hc.
    unfold fexp, emin, prec, emax in Hc.
    pose proof (digits2_pos_bound m) as Hb.
    assert (2 ^ Zpos (digits2_pos m) <= 2 ^ (- e))
      by (apply Z.pow_le_mono_r; lia).
    lia.
Qed.

(** A fraction between 0 and 1 times a row count, rounded: a count
    between 0 and the row count. *)
Lemma round_fraction_of_count (f : float) (n : Z) :
  unit_fraction f = true -> 0 <= n < 2 ^ 53 ->
  exists z, round (mul f (of_Z n)) = Ok z /\ 0 <= z <= n.
Proof.
  intros Hf Hn. unfold unit_fraction in Hf.
  apply andb_true_iff in Hf as [Hv Hf].
  destruct n as [| p | p]; [| | lia].
  - exists 0. split; [| lia].
    destruct f as [s | s | | [] m e]; try discriminate; reflexivity.
  - destruct (of_Z_small p) as (my & ey & Hof & Hd & Hey & Hmy); [lia |].
    rewrite Hof.
    destruct f as [s | s | | [] mx ex]; try discriminate.
    + exists 0. split; [reflexivity | lia].
    + apply negb_true_iff in Hf.
      destruct (le_one_mantissa mx ex Hv Hf) as [Hex Hmx].
      unfold mul, SFmul. cbn [xorb].
      apply round_product_le; [lia | lia |].
      rewrite Pos2Z.inj_mul, Hmy.
      replace (- (ex + ey)) with (- ex + - ey) by lia.
      rewrite Z.pow_add_r by lia.
      assert (0 < 2 ^ (- ey)) by (apply Z.pow_pos_nonneg; lia).
      assert (0 < 2 ^ (- ex)) by (apply Z.pow_pos_nonneg; lia).
      nia.
Qed.

End FloatFacts.

(** ** The random state: [permutation] permutes, [choice] draws without
    replacement *)

Section RandomFacts.

Lemma remove_at_perm (pool : list nat) (k : nat) :
  k < length pool -> Permutation pool (nth k pool 0 :: remove_at k pool).
Proof.
  revert k. induction pool as [| x t IH]; intros k Hk; simpl in Hk; [lia |].
  destruct k as [| k]; simpl.
  - reflexivity.
  - rewrite perm_swap. apply perm_skip, IH. lia.
Qed.

Lemma length_remove_at (pool : list nat) (k : nat) :
  k < length pool -> S (length (remove_at k pool)) = length pool.
Proof.
  revert k. induction pool as [| x t IH]; intros k Hk; simpl in Hk; [lia |].
  destruct k as [| k]; simpl; [reflexivity |].
  rewrite IH by lia. reflexivity.
Qed.

Lemma permute_perm (n : nat) :
  forall pool g, length pool = n -> Permutation (fst (permute n pool g)) pool.
Proof.
  induction n as [| n IH]; intros pool g Hlen.
  - destruct pool; [reflexivity | discriminate].
  - simpl.
    assert (Hk : tape g (cursor g) mod length pool < length pool)
      by (apply Nat.mod_upper_bound; lia).
    set (k := tape g (cursor g) mod length pool) in *.
    set (g1 := {| tape := tape g; cursor := S (cursor g) |}).
    specialize (IH (remove_at k pool) g1).
    destruct (permute n (remove_at k pool) g1) as [rest g2]. simpl in *.
    rewrite IH.
    + symmetry. apply remove_at_perm. exact Hk.
    + pose proof (length_remove_at pool k Hk). lia.
Qed.

Lemma permutation_perm (n : nat) (g : RandomState) :
  Permutation (fst (permutation n g)) (seq 0 n).
Proof. apply permute_perm, length_seq. Qed.

(** [choice] fails exactly when more is asked than there is; otherwise its
    result is the head of a permutation of the positions. *)
Lemma choice_spec (pop size : nat) (g : RandomState) :
  if pop <? size then choice pop size g = Raise ValueError
  else exists locs others g',
      choice pop size g = Ok (locs, g') /\
      length locs = size /\
      Permutation (locs ++ others) (seq 0 pop).
Proof.
  unfold choice. destruct (pop <? size) eqn:Hlt; [reflexivity |].
  apply Nat.ltb_ge in Hlt.
  pose proof (permutation_perm pop g) as Hp.
  destruct (permutation pop g) as [p g']. simpl in Hp.
  exists (firstn size p), (skipn size p), g'. split; [reflexivity |]. split.
  - rewrite length_firstn, (Permutation_length Hp), length_seq. lia.
  - rewrite firstn_skipn. exact Hp.
Qed.

End RandomFacts.

(** ** pandas operations *)

Section FrameFacts.

Lemma select_series_eq (c : string) (lbl : option string) (rs : list Row) :
  select rs (series_eq (map (cell c) rs) lbl) = filter (has_label c lbl) rs.
Proof.
  induction rs as [| r rs IH]; simpl; [reflexivity |].
  unfold has_label at 1. rewrite IH. reflexivity.
Qed.

Lemma take_rows_app (rs : list Row) (a b : list nat) :
  take_rows rs (a ++ b) = take_rows rs a ++ take_rows rs b.
Proof. apply flat_map_app. Qed.

Lemma take_rows_seq (pre rs : list Row) :
  take_rows (pre ++ rs) (seq (length pre) (length rs)) = rs.
Proof.
  revert pre. induction rs as [| r rs IH]; intros pre; simpl; [reflexivity |].
  rewrite nth_error_app2, Nat.sub_diag by lia. simpl. f_equal.
  specialize (IH (pre ++ [r])).
  rewrite <- app_assoc, length_app in IH. simpl in IH.
  rewrite Nat.add_1_r in IH. exact IH.
Qed.

Lemma take_rows_all (rs : list Row) :
  take_rows rs (seq 0 (length rs)) = rs.
Proof. exact (take_rows_seq [] rs). Qed.

(** Taking the head of a permutation of the positions splits the rows into
    those taken and the others. *)
Lemma take_rows_split (rs : list Row) (locs others : list nat) :
  Permutation (locs ++ others) (seq 0 (length rs)) ->
  Permutation (take_rows rs locs ++ take_rows rs others) rs.
Proof.
  intros Hp. rewrite <- take_rows_app.
  transitivity (take_rows rs (seq 0 (length rs))).
  - unfold take_rows. apply Permutation_flat_map. exact Hp.
  - rewrite take_rows_all. reflexivity.
Qed.

Lemma length_take_rows (rs : list Row) (locs : list nat) :
  Forall (fun i => i < length rs) locs ->
  length (take_rows rs locs) = length locs.
Proof.
  induction 1 as [| i locs Hi _ IH]; simpl; [reflexivity |].
  destruct (nth_error rs i) eqn:Hn.
  - simpl. rewrite IH. reflexivity.
  - apply nth_error_None in Hn. lia.
Qed.

Lemma choice_positions (locs others : list nat) (n : nat) :
  Permutation (locs ++ others) (seq 0 n) -> Forall (fun i => i < n) locs.
Proof.
  intros Hp. apply Forall_forall. intros i Hi.
  assert (In i (seq 0 n)) as Hin
    by (apply (Permutation_in i Hp), in_or_app; left; exact Hi).
  apply in_seq in Hin. lia.
Qed.

(** [sample] as its size and its drawing: it raises what [sample_size]
    raises, and otherwise returns that many rows, which together with the
    rows left out are the frame's rows; it writes nothing to stdout. *)
Lemma sample_spec (frac : Num) (df : DataFrame) (w : World) :
  match sample_size frac (length (rows df)) with
  | Raise e => sample frac df w = Raise e
  | Ok n =>
      exists s others g',
        sample frac df w =
          Ok (s, {| np_random := g'; stdout := stdout w |}) /\
        columns s = columns df /\
        length (rows s) = n /\
        Permutation (rows s ++ others) (rows df)
  end.
Proof.
  unfold sample_size, sample, bind, lift, raise, with_np_random, ret.
  destruct (num_gt_one frac); [reflexivity |].
  destruct (num_round _) as [n | e]; [| reflexivity].
  destruct (n <? 0)%Z; [reflexivity |].
  pose proof (choice_spec (length (rows df)) (Z.to_nat n) (np_random w)) as Hc.
  destruct (length (rows df) <? Z.to_nat n).
  - rewrite Hc. reflexivity.
  - destruct Hc as (locs & others & g' & -> & Hlen & Hp).
    exists (take df locs), (take_rows (rows df) others), g'.
    split; [reflexivity |]. split; [reflexivity |]. split.
    + simpl. rewrite length_take_rows; [exact Hlen |].
      eapply choice_positions; exact Hp.
    + simpl. apply take_rows_split. exact Hp.
Qed.

End FrameFacts.

(** ** The monad *)

Section MonadFacts.

Context {A B : Type}.

Lemma bind_ok {m : M A} (k : A -> M B) {w w' : World} {a : A} :
  m w = Ok (a, w') -> bind m k w = k a w'.
Proof. intros H. unfold bind. rewrite H. reflexivity. Qed.

Lemma bind_raise {m : M A} (k : A -> M B) {w : World} {e : PyError} :
  m w = Raise e -> bind m k w = Raise e.
Proof. intros H. unfold bind. rewrite H. reflexivity. Qed.

Lemma bind_lift_ok {r : Result A} (k : A -> M B) (w : World) {a : A} :
  r = Ok a -> bind (lift r) k w = k a w.
Proof. intros ->. reflexivity. Qed.

Lemma bind_lift_raise {r : Result A} (k : A -> M B) (w : World) {e : PyError} :
  r = Raise e -> bind (lift r) k w = Raise e.
Proof. intros ->. reflexivity. Qed.

(** A successful bind went through a successful first step. *)
Lemma bind_inv (m : M A) (k : A -> M B) (w w2 : World) (b : B) :
  bind m k w = Ok (b, w2) ->
  exists a w1, m w = Ok (a, w1) /\ k a w1 = Ok (b, w2).
Proof.
  unfold bind. destruct (m w) as [[a w1] | e]; [| discriminate].
  intros H. exists a, w1. split; [reflexivity | exact H].
Qed.

End MonadFacts.

(** ** Dropping the sampled rows leaves the rows not sampled *)

Section DropFacts.

Lemma mem_label_In (l : Z) (ls : list Z) : mem_label l ls = true <-> In l ls.
Proof.
  unfold mem_label. rewrite existsb_exists. split.
  - intros (x & Hx & Heq). apply Z.eqb_eq in Heq. subst. exact Hx.
  - intros H. exists l. split; [exact H | apply Z.eqb_refl].
Qed.

Lemma distinct_NoDup (l : list Z) : distinct l = true -> NoDup l.
Proof.
  induction l as [| x t IH]; simpl; intros H; constructor.
  - apply andb_true_iff in H. destruct H as [H _].
    intros Hin. apply mem_label_In in Hin. rewrite Hin in H. discriminate.
  - apply IH. apply andb_true_iff in H. tauto.
Qed.

Lemma filter_all {X : Type} (f : X -> bool) (l : list X) :
  (forall x, In x l -> f x = true) -> filter f l = l.
Proof.
  induction l as [| x t IH]; simpl; intros H; [reflexivity |].
  rewrite (H x) by (left; reflexivity). f_equal. apply IH. intros y Hy.
  apply H. right. exact Hy.
Qed.

Lemma filter_none {X : Type} (f : X -> bool) (l : list X) :
  (forall x, In x l -> f x = false) -> filter f l = [].
Proof.
  induction l as [| x t IH]; simpl; intros H; [reflexivity |].
  rewrite (H x) by (left; reflexivity). apply IH. intros y Hy.
  apply H. right. exact Hy.
Qed.

Lemma Permutation_filter {X : Type} (f : X -> bool) (l l' : list X) :
  Permutation l l' -> Permutation (filter f l) (filter f l').
Proof.
  induction 1 as [| x l l' _ IH | x y l | l l' l'' _ IH1 _ IH2]; simpl.
  - constructor.
  - destruct (f x); [apply perm_skip |]; exact IH.
  - destruct (f x), (f y); try reflexivity. apply perm_swap.
  - etransitivity; eassumption.
Qed.

Lemma drop_ok (df : DataFrame) (labels : list Z) :
  incl labels (index df) ->
  drop df labels =
    Ok {| columns := columns df;
          rows := filter (fun r => negb (mem_label (index_label r) labels))
                    (rows df) |}.
Proof.
  intros Hincl. unfold drop.
  replace (forallb _ labels) with true; [reflexivity |].
  symmetry. apply forallb_forall. intros l Hl.
  apply mem_label_In, Hincl, Hl.
Qed.

Lemma NoDup_app_disjoint {X : Type} (l1 l2 : list X) :
  NoDup (l1 ++ l2) -> forall a, In a l1 -> ~ In a l2.
Proof.
  induction l1 as [| x t IH]; simpl; intros Hnd a Ha; [contradiction |].
  inversion Hnd as [| ? ? Hnx Hnt]; subst. destruct Ha as [-> | Ha].
  - intros Hin. apply Hnx, in_or_app. right. exact Hin.
  - apply IH; assumption.
Qed.

(** With distinct index labels, dropping the labels of the rows taken
    leaves the other rows. *)
Lemma drop_taken (rs taken others : list Row) :
  NoDup (map index_label rs) ->
  Permutation (taken ++ others) rs ->
  Permutation
    (filter (fun r => negb (mem_label (index_label r) (map index_label taken)))
       rs)
    others.
Proof.
  intros Hnd Hp.
  rewrite <- (Permutation_filter _ _ _ Hp), filter_app.
  assert (Hnd' : NoDup (map index_label taken ++ map index_label others)).
  { rewrite <- map_app. eapply Permutation_NoDup; [| exact Hnd].
    apply Permutation_map. symmetry. exact Hp. }
  rewrite filter_none, filter_all; [reflexivity | |].
  - intros r Hr. apply negb_true_iff.
    destruct (mem_label (index_label r) (map index_label taken)) eqn:Hm;
      [| reflexivity].
    apply mem_label_In in Hm. exfalso.
    apply (NoDup_app_disjoint _ _ Hnd' _ Hm). apply in_map. exact Hr.
  - intros r Hr. apply negb_false_iff, mem_label_In, in_map. exact Hr.
Qed.

Lemma sampled_index_incl (taken others rs : list Row) :
  Permutation (taken ++ others) rs ->
  incl (map index_label taken) (map index_label rs).
Proof.
  intros Hp l Hl. apply in_map_iff in Hl. destruct Hl as (r & <- & Hr).
  apply in_map. apply (Permutation_in r Hp). apply in_or_app. left. exact Hr.
Qed.

Lemma NoDup_index_others (taken others rs : list Row) :
  NoDup (map index_label rs) ->
  Permutation (taken ++ others) rs ->
  NoDup (map index_label others).
Proof.
  intros Hnd Hp.
  assert (Hnd' : NoDup (map index_label (taken ++ others))).
  { eapply Permutation_NoDup; [| exact Hnd].
    apply Permutation_map. symmetry. exact Hp. }
  rewrite map_app in Hnd'. eapply NoDup_app_remove_l. exact Hnd'.
Qed.

Lemma NoDup_index_filter (f : Row -> bool) (rs : list Row) :
  NoDup (map index_label rs) -> NoDup (map index_label (filter f rs)).
Proof.
  induction rs as [| r rs IH]; simpl; intros H; [constructor |].
  inversion H as [| ? ? Hn Hr]; subst.
  destruct (f r); simpl; [constructor |]; auto.
  intros Hin. apply Hn. apply in_map_iff in Hin.
  destruct Hin as (x & Hx & Hin). apply filter_In in Hin.
  rewrite <- Hx. apply in_map. tauto.
Qed.

End DropFacts.

(** ** Labels and label groups *)

Section GroupFacts.

Lemma same_value_eq (a b : option string) : same_value a b = true <-> a = b.
Proof.
  destruct a as [x |], b as [y |]; simpl; try (split; congruence).
  rewrite String.eqb_eq. split; congruence.
Qed.

Lemma unique_In (s : list (option string)) (v : option string) :
  In v (unique s) <-> In v s.
Proof.
  induction s as [| u t IH]; simpl; [tauto |].
  rewrite filter_In, IH. split.
  - tauto.
  - intros [-> | H]; [tauto |].
    destruct (same_value u v) eqn:E.
    + apply same_value_eq in E. tauto.
    + right. split; [exact H | reflexivity].
Qed.

Lemma unique_NoDup (s : list (option string)) : NoDup (unique s).
Proof.
  induction s as [| u t IH]; simpl; constructor.
  - rewrite filter_In. intros [_ H].
    apply negb_true_iff in H.
    assert (same_value u u = true) by (apply same_value_eq; reflexivity).
    congruence.
  - apply NoDup_filter, IH.
Qed.

(** A row is in the group of one label at most. *)
Lemma has_label_functional (c : string) (l v : option string) (r : Row) :
  has_label c l r = true -> has_label c v r = true -> l = v.
Proof.
  unfold has_label, value_eqb.
  destruct (cell c r) as [x |], l as [a |], v as [b |]; try discriminate.
  rewrite !String.eqb_eq. congruence.
Qed.

Lemma has_label_cell (c : string) (r : Row) (x : string) :
  cell c r = Some x -> has_label c (Some x) r = true.
Proof. unfold has_label. intros ->. simpl. apply String.eqb_refl. Qed.

Lemma count_label_app (c : string) (v : option string) (a b : list Row) :
  count_label c v (a ++ b) = count_label c v a + count_label c v b.
Proof. unfold count_label. rewrite filter_app, length_app. reflexivity. Qed.

Lemma count_label_perm (c : string) (v : option string) (a b : list Row) :
  Permutation a b -> count_label c v a = count_label c v b.
Proof.
  intros H. unfold count_label.
  apply Permutation_length, Permutation_filter, H.
Qed.

(** Rows of the group of [l] all count for [l] and for no other label. *)
Lemma count_label_same (df : DataFrame) (c : string) (l : option string)
  (rs : list Row) :
  incl rs (group df c l) -> count_label c l rs = length rs.
Proof.
  intros H. unfold count_label. rewrite filter_all; [reflexivity |].
  intros r Hr. apply H, filter_In in Hr. tauto.
Qed.

Lemma count_label_other (df : DataFrame) (c : string) (l v : option string)
  (rs : list Row) :
  incl rs (group df c l) -> l <> v -> count_label c v rs = 0.
Proof.
  intros H Hne. unfold count_label. rewrite filter_none; [reflexivity |].
  intros r Hr. apply H, filter_In in Hr.
  destruct (has_label c v r) eqn:E; [| reflexivity].
  exfalso. apply Hne. eapply has_label_functional; [apply Hr | exact E].
Qed.

Lemma filter_orb_disjoint {X : Type} (p q : X -> bool) (l : list X) :
  (forall x, In x l -> p x = true -> q x = false) ->
  Permutation (filter (fun x => p x || q x) l) (filter p l ++ filter q l).
Proof.
  induction l as [| x t IH]; intros H; simpl; [constructor |].
  assert (IH' : Permutation (filter (fun x => p x || q x) t)
                  (filter p t ++ filter q t))
    by (apply IH; intros y Hy; apply H; right; exact Hy).
  destruct (p x) eqn:Hp; simpl.
  - rewrite (H x (or_introl eq_refl) Hp). apply perm_skip, IH'.
  - destruct (q x); [| exact IH'].
    rewrite IH'. apply Permutation_middle.
Qed.

(** The groups of distinct labels are the rows that carry one of them. *)
Lemma groups_perm (df : DataFrame) (c : string)
  (labels : list (option string)) :
  NoDup labels ->
  Permutation (flat_map (group df c) labels)
    (filter (fun r => existsb (fun l => has_label c l r) labels) (rows df)).
Proof.
  induction 1 as [| l labels Hl _ IH]; simpl.
  - rewrite filter_none; [constructor | reflexivity].
  - rewrite IH. symmetry. apply filter_orb_disjoint.
    intros r _ Hr.
    destruct (existsb (fun l0 => has_label c l0 r) labels) eqn:E;
      [| reflexivity].
    apply existsb_exists in E. destruct E as (v & Hv & Hvr).
    exfalso. apply Hl.
    rewrite (has_label_functional c l v r Hr Hvr). exact Hv.
Qed.

(** When every row carries a label, the groups of the unique labels are
    all the rows. *)
Lemma groups_cover (df : DataFrame) (c : string) :
  (forall r, In r (rows df) -> cell c r <> None) ->
  Permutation (flat_map (group df c) (unique (map (cell c) (rows df))))
    (rows df).
Proof.
  intros Hlab. rewrite groups_perm by apply unique_NoDup.
  rewrite filter_all; [reflexivity |].
  intros r Hr. apply existsb_exists.
  destruct (cell c r) as [x |] eqn:Hx; [| exfalso; exact (Hlab r Hr Hx)].
  exists (Some x). split.
  - apply unique_In. rewrite <- Hx. apply in_map. exact Hr.
  - apply has_label_cell. exact Hx.
Qed.

End GroupFacts.

(** ** One pass of the loop *)

Section SplitFacts.

Variable df : DataFrame.
Variable label_column : string.
Variable splits : Splits.
Variable verbose : bool.

Hypothesis label_column_present :
  existsb (String.eqb label_column) (columns df) = true.

Lemma getitem_present :
  getitem df label_column = Ok (map (cell label_column) (rows df)).
Proof. unfold getitem. rewrite label_column_present. reflexivity. Qed.

Lemma rows_label_frame (lbl : option string) :
  rows (getitem_mask df (series_eq (map (cell label_column) (rows df)) lbl))
  = group df label_column lbl.
Proof. apply select_series_eq. Qed.

(** One pass raises what [group_sizes] raises on the size of the label
    group; otherwise it appends to the three accumulators a train part
    drawn from the group, a test part drawn from the rest and the
    validation part left over, of the sizes [group_sizes] gives. *)
Lemma split_label_spec (acc : Frames) (lbl : option string) (w : World) :
  NoDup (index df) ->
  let g := group df label_column lbl in
  match group_sizes splits (length g) with
  | Raise e => split_label df label_column splits verbose acc lbl w = Raise e
  | Ok (n_train, n_val, n_test) =>
      exists t v e rest g',
        split_label df label_column splits verbose acc lbl w =
          Ok ((append (fst (fst acc)) t, append (snd (fst acc)) v,
               append (snd acc) e),
              {| np_random := g';
                 stdout :=
                   stdout w ++
                   pass_log verbose lbl (length g) n_train n_val n_test |}) /\
        Permutation (rows t ++ rest) g /\
        Permutation (rows e ++ rows v) rest /\
        length (rows t) = n_train /\
        length (rows v) = n_val /\
        length (rows e) = n_test /\
        columns t = columns df /\ columns v = columns df /\
        columns e = columns df
  end.
Proof.
  intros Hnd g.
  destruct splits as [[s0 s1] s2], acc as [[a1 a2] a3].
  remember (split_label df label_column (s0, s1, s2) verbose (a1, a2, a3)
              lbl w) as run eqn:Hrun.
  unfold split_label in Hrun. cbv beta iota in Hrun.
  rewrite (bind_lift_ok _ _ getitem_present) in Hrun.
  set (lbl_df := getitem_mask df _) in Hrun.
  assert (Hg : rows lbl_df = g) by apply rows_label_frame.
  assert (Hcg : columns lbl_df = columns df) by reflexivity.
  clearbody lbl_df.
  assert (Hndg : NoDup (map index_label g))
    by (apply NoDup_index_filter; exact Hnd).
  unfold group_sizes.
  (* the train sample *)
  pose proof (sample_spec (Float s0) lbl_df w) as Hs. rewrite Hg in Hs.
  destruct (sample_size (Float s0) (length g)) as [n1 | err];
    [| rewrite (bind_raise _ Hs) in Hrun; exact Hrun].
  destruct Hs as (t & rest & g1 & Hs & Hct & Hlt & Hpt).
  rewrite (bind_ok _ Hs) in Hrun.
  assert (Hit : incl (index t) (index lbl_df))
    by (unfold index; rewrite Hg; eapply sampled_index_incl; exact Hpt).
  rewrite (bind_lift_ok _ _ (drop_ok lbl_df (index t) Hit)) in Hrun.
  set (vt_df := {| columns := columns lbl_df; rows := _ |}) in Hrun.
  assert (Hvt : Permutation (rows vt_df) rest).
  { unfold vt_df, index. simpl. rewrite Hg. apply drop_taken; assumption. }
  assert (Hlen : length (rows vt_df) = length g - n1).
  { rewrite (Permutation_length Hvt).
    apply Permutation_length in Hpt. rewrite length_app in Hpt. lia. }
  (* the fraction of the test sample *)
  destruct (truediv s2 (add s1 s2)) as [frac | err]; [| exact Hrun].
  rewrite (bind_lift_ok _ _ eq_refl) in Hrun.
  (* the test sample *)
  pose proof (sample_spec (Float frac) vt_df
                {| np_random := g1; stdout := stdout w |}) as Hs2.
  rewrite Hlen in Hs2.
  destruct (sample_size (Float frac) (length g - n1)) as [n3 | err];
    [| rewrite (bind_raise _ Hs2) in Hrun; exact Hrun].
  destruct Hs2 as (e & rest2 & g2 & Hs2 & Hce & Hle & Hpe).
  rewrite (bind_ok _ Hs2) in Hrun.
  assert (Hie : incl (index e) (index vt_df))
    by (unfold index; eapply sampled_index_incl; exact Hpe).
  rewrite (bind_lift_ok _ _ (drop_ok vt_df (index e) Hie)) in Hrun.
  set (v := {| columns := columns vt_df; rows := _ |}) in Hrun.
  assert (Hv : Permutation (rows v) rest2).
  { unfold v, index. simpl. apply drop_taken; [| exact Hpe].
    eapply Permutation_NoDup.
    - apply Permutation_map. symmetry. exact Hvt.
    - eapply NoDup_index_others; eassumption. }
  assert (Hlv : length (rows v) = length g - n1 - n3).
  { rewrite (Permutation_length Hv).
    apply Permutation_length in Hpe. rewrite length_app in Hpe. lia. }
  exists t, v, e, rest, g2. simpl fst. simpl snd.
  split.
  { rewrite Hrun. unfold pass_log. rewrite Hg, Hlt, Hlv, Hle.
    destruct verbose; unfold bind, py_print, ret; simpl.
    - reflexivity.
    - rewrite app_nil_r. reflexivity. }
  split; [exact Hpt |].
  split; [rewrite Hv, <- Hvt; exact Hpe |].
  repeat split; try assumption.
  - congruence.
  - rewrite Hce. exact Hcg.
Qed.


(** The two early exits of a pass need no assumption on the index. *)
Lemma split_label_raises_early (acc : Frames) (lbl : option string)
  (w : World) :
  let g := group df label_column lbl in
  let '(s0, s1, s2) := splits in
  match sample_size (Float s0) (length g) with
  | Raise e => split_label df label_column splits verbose acc lbl w = Raise e
  | Ok _ =>
      match truediv s2 (add s1 s2) with
      | Raise e =>
          split_label df label_column splits verbose acc lbl w = Raise e
      | Ok _ => True
      end
  end.
Proof.
  intros g.
  destruct splits as [[s0 s1] s2], acc as [[a1 a2] a3].
  remember (split_label df label_column (s0, s1, s2) verbose (a1, a2, a3)
              lbl w) as run eqn:Hrun.
  unfold split_label in Hrun. cbv beta iota in Hrun.
  rewrite (bind_lift_ok _ _ getitem_present) in Hrun.
  set (lbl_df := getitem_mask df _) in Hrun.
  assert (Hg : rows lbl_df = g) by apply rows_label_frame.
  clearbody lbl_df.
  pose proof (sample_spec (Float s0) lbl_df w) as Hs. rewrite Hg in Hs.
  destruct (sample_size (Float s0) (length g)) as [n1 | err];
    [| rewrite (bind_raise _ Hs) in Hrun; exact Hrun].
  destruct Hs as (t & rest & g1 & Hs & Hct & Hlt & Hpt).
  rewrite (bind_ok _ Hs) in Hrun.
  assert (Hit : incl (index t) (index lbl_df))
    by (unfold index; rewrite Hg; eapply sampled_index_incl; exact Hpt).
  rewrite (bind_lift_ok _ _ (drop_ok lbl_df (index t) Hit)) in Hrun.
  destruct (truediv s2 (add s1 s2)) as [frac | err]; [exact I | exact Hrun].
Qed.


(** ** The loop over the labels *)

Lemma Permutation_app3 {X : Type} (a1 a2 a3 t v e : list X) :
  Permutation ((a1 ++ t) ++ (a2 ++ v) ++ (a3 ++ e))
    ((a1 ++ a2 ++ a3) ++ (t ++ v ++ e)).
Proof.
  rewrite <- !app_assoc. apply Permutation_app_head.
  rewrite Permutation_app_swap_app. apply Permutation_app_head.
  rewrite (Permutation_app_swap_app a3 t (v ++ e)).
  apply Permutation_app_head. apply Permutation_app_swap_app.
Qed.

Lemma counts_step (l x : option string) (a1 a2 a3 t v e : DataFrame) :
  incl (rows t) (group df label_column l) ->
  incl (rows v) (group df label_column l) ->
  incl (rows e) (group df label_column l) ->
  counts label_column x (append a1 t, append a2 v, append a3 e) =
    plus3 (counts label_column x (a1, a2, a3))
      (if same_value l x
       then (length (rows t), length (rows v), length (rows e))
       else (0, 0, 0)).
Proof.
  intros Ht Hv He. unfold counts, plus3. simpl.
  rewrite !count_label_app.
  destruct (same_value l x) eqn:E.
  - apply same_value_eq in E. subst x.
    rewrite (count_label_same df label_column l (rows t)),
      (count_label_same df label_column l (rows v)),
      (count_label_same df label_column l (rows e)) by assumption.
    reflexivity.
  - assert (l <> x) as Hne
      by (intros ->; rewrite (proj2 (same_value_eq x x) eq_refl) in E;
          discriminate).
    rewrite (count_label_other df label_column l x (rows t)),
      (count_label_other df label_column l x (rows v)),
      (count_label_other df label_column l x (rows e)) by assumption.
    rewrite !Nat.add_0_r. reflexivity.
Qed.

(** The loop raises what the first failing pass raises; otherwise the
    accumulators grow by the label groups, each label by the sizes of its
    pass, and nothing is printed unless [verbose]. *)
Lemma for_labels_spec (labels : list (option string)) :
  NoDup (index df) ->
  forall (acc : Frames) (w : World),
    match all_group_sizes splits
            (map (fun l => length (group df label_column l)) labels) with
    | Raise e =>
        for_labels df label_column splits verbose labels acc w = Raise e
    | Ok _ =>
        exists acc' w',
          for_labels df label_column splits verbose labels acc w =
            Ok (acc', w') /\
          Permutation (all_rows acc')
            (all_rows acc ++ flat_map (group df label_column) labels) /\
          (forall v, ~ In v labels ->
                     counts label_column v acc' = counts label_column v acc) /\
          (NoDup labels ->
           forall v, In v labels ->
             exists s,
               group_sizes splits (length (group df label_column v)) = Ok s /\
               counts label_column v acc' =
                 plus3 (counts label_column v acc) s) /\
          (verbose = false -> stdout w' = stdout w)
    end.
Proof.
  intros Hnd. induction labels as [| l labels IH]; intros acc w; simpl.
  - exists acc, w. split; [reflexivity |]. split.
    { rewrite app_nil_r. reflexivity. }
    split; [reflexivity |]. split; [intros _ v [] | reflexivity].
  - pose proof (split_label_spec acc l w Hnd) as Hb. cbv zeta in Hb.
    destruct (group_sizes splits (length (group df label_column l)))
      as [[[n1 n2] n3] | err] eqn:Hsz;
      [| rewrite (bind_raise _ Hb); reflexivity].
    destruct Hb as (t & v & e & rest & g' & Hrun & Hpt & Hpe & Hlt & Hlv
                    & Hle & _).
    rewrite (bind_ok _ Hrun).
    match type of Hrun with _ = Ok (?a, ?b) =>
      set (acc1 := a) in *; set (w1 := b) in *; specialize (IH acc1 w1)
    end.
    destruct (all_group_sizes splits _) as [ss | err]; [| exact IH].
    destruct IH as (acc' & w' & Hloop & Hperm & Hout & Hin & Hstd).
    assert (Hgrp : Permutation (rows t ++ rows v ++ rows e)
                     (group df label_column l)).
    { rewrite <- Hpt. apply Permutation_app_head.
      rewrite <- Hpe. apply Permutation_app_comm. }
    assert (Hit : incl (rows t) (group df label_column l)).
    { intros r Hr. apply (Permutation_in r Hgrp), in_or_app. tauto. }
    assert (Hiv : incl (rows v) (group df label_column l)).
    { intros r Hr. apply (Permutation_in r Hgrp), in_or_app. right.
      apply in_or_app. tauto. }
    assert (Hie : incl (rows e) (group df label_column l)).
    { intros r Hr. apply (Permutation_in r Hgrp), in_or_app. right.
      apply in_or_app. tauto. }
    assert (Hstep : forall x,
               counts label_column x acc1 =
                 plus3 (counts label_column x acc)
                   (if same_value l x then (n1, n2, n3) else (0, 0, 0))).
    { intros x. unfold acc1. destruct acc as [[a1 a2] a3]. simpl fst. simpl snd.
      rewrite (counts_step l x) by assumption. rewrite Hlt, Hlv, Hle.
      reflexivity. }
    assert (Hzero : forall p, plus3 p (0, 0, 0) = p).
    { intros [[p1 p2] p3]. unfold plus3. rewrite !Nat.add_0_r. reflexivity. }
    exists acc', w'. split; [exact Hloop |]. split.
    { rewrite Hperm. rewrite app_assoc. apply Permutation_app_tail.
      unfold acc1, all_rows. destruct acc as [[a1 a2] a3]. simpl.
      rewrite Permutation_app3. apply Permutation_app_head. exact Hgrp. }
    split.
    { intros x Hx. rewrite Hout by tauto. rewrite Hstep.
      destruct (same_value l x) eqn:E; [| apply Hzero].
      apply same_value_eq in E. tauto. }
    split.
    { intros Hndl x Hx. apply NoDup_cons_iff in Hndl as [Hnl Hndl'].
      destruct (same_value l x) eqn:E.
      - apply same_value_eq in E. subst x. exists (n1, n2, n3).
        split; [exact Hsz |]. rewrite Hout by exact Hnl. rewrite Hstep.
        rewrite (proj2 (same_value_eq l l) eq_refl). reflexivity.
      - destruct Hx as [-> | Hx].
        + rewrite (proj2 (same_value_eq x x) eq_refl) in E. discriminate.
        + destruct (Hin Hndl' x Hx) as (s & Hs & Hc). exists s.
          split; [exact Hs |]. rewrite Hc, Hstep, E, Hzero. reflexivity. }
    intros Hv. rewrite (Hstd Hv). unfold w1. simpl. rewrite Hv. simpl.
    apply app_nil_r.
Qed.

(** ** The whole function *)

Lemma sample_size_int_one (n : nat) : sample_size (Int 1) n = Ok n.
Proof.
  unfold sample_size. cbn [num_gt_one num_mul_int num_round].
  change (1 <? 1)%Z with false. cbv iota.
  rewrite Z.mul_1_l, Nat2Z.id.
  replace (Z.of_nat n <? 0)%Z with false by (symmetry; apply Z.ltb_ge; lia).
  rewrite Nat.ltb_irrefl. reflexivity.
Qed.

(** The shuffle on the way out, [sample(frac=1)], never raises and
    returns the rows in some order. *)
Lemma shuffle_spec (f : DataFrame) (w : World) :
  exists s g',
    sample (Int 1) f w = Ok (s, {| np_random := g'; stdout := stdout w |}) /\
    columns s = columns f /\
    Permutation (rows s) (rows f).
Proof.
  pose proof (sample_spec (Int 1) f w) as H.
  rewrite sample_size_int_one in H.
  destruct H as (s & others & g' & Hrun & Hc & Hl & Hp).
  exists s, g'. split; [exact Hrun |]. split; [exact Hc |].
  assert (others = []) as ->.
  { apply Permutation_length in Hp. rewrite length_app in Hp.
    destruct others; [reflexivity | simpl in Hp; lia]. }
  rewrite app_nil_r in Hp. exact Hp.
Qed.

Lemma split_spec (w : World) :
  NoDup (index df) ->
  let labels := unique (map (cell label_column) (rows df)) in
  match all_group_sizes splits
          (map (fun l => length (group df label_column l)) labels) with
  | Raise e =>
      split_to_train_val_test df label_column splits verbose w = Raise e
  | Ok _ =>
      exists out w',
        split_to_train_val_test df label_column splits verbose w =
          Ok (out, w') /\
        Permutation (all_rows out) (flat_map (group df label_column) labels) /\
        (forall v, In v labels ->
           exists s,
             group_sizes splits (length (group df label_column v)) = Ok s /\
             counts label_column v out = s) /\
        (forall v, ~ In v labels -> counts label_column v out = (0, 0, 0)) /\
        (verbose = false -> stdout w' = stdout w)
  end.
Proof.
  intros Hnd labels.
  remember (split_to_train_val_test df label_column splits verbose w)
    as run eqn:Hrun.
  unfold split_to_train_val_test in Hrun.
  rewrite (bind_lift_ok _ _ getitem_present) in Hrun. fold labels in Hrun.
  pose proof (for_labels_spec labels Hnd
                (empty_frame, empty_frame, empty_frame) w) as Hloop.
  destruct (all_group_sizes splits _) as [ss | err];
    [| rewrite (bind_raise _ Hloop) in Hrun; exact Hrun].
  destruct Hloop as ([[a1 a2] a3] & w1 & Hloop & Hperm & Hout & Hin & Hstd).
  rewrite (bind_ok _ Hloop) in Hrun.
  destruct (shuffle_spec a1 w1) as (tr & g1 & Htr & _ & Hptr).
  rewrite (bind_ok _ Htr) in Hrun.
  destruct (shuffle_spec a2 {| np_random := g1; stdout := stdout w1 |})
    as (va & g2 & Hva & _ & Hpva).
  rewrite (bind_ok _ Hva) in Hrun.
  destruct (shuffle_spec a3 {| np_random := g2; stdout := stdout w1 |})
    as (te & g3 & Hte & _ & Hpte).
  rewrite (bind_ok _ Hte) in Hrun. unfold ret in Hrun.
  assert (Hcounts : forall v, counts label_column v (tr, va, te) =
                              counts label_column v (a1, a2, a3)).
  { intros v. unfold counts. simpl.
    rewrite (count_label_perm label_column v _ _ Hptr),
      (count_label_perm label_column v _ _ Hpva),
      (count_label_perm label_column v _ _ Hpte). reflexivity. }
  exists (tr, va, te), {| np_random := g3; stdout := stdout w1 |}.
  split; [exact Hrun |]. split.
  { rewrite <- (app_nil_l (flat_map _ _)).
    change (@nil Row) with
      (all_rows (empty_frame, empty_frame, empty_frame)).
    rewrite <- Hperm. unfold all_rows. simpl.
    rewrite Hptr, Hpva, Hpte. reflexivity. }
  split.
  { intros v Hv. destruct (Hin (unique_NoDup _) v Hv) as (s & Hs & Hc).
    exists s. split; [exact Hs |]. rewrite Hcounts, Hc.
    destruct s as [[n1 n2] n3]. reflexivity. }
  split.
  { intros v Hv. rewrite Hcounts, (Hout v Hv). reflexivity. }
  exact Hstd.
Qed.

(** The exits of the first pass need no assumption on the index: the
    label of the first row is the first label of the loop. *)
Lemma split_raises_early (w : World) (r : Row) (rs : list Row) :
  rows df = r :: rs ->
  let g := group df label_column (cell label_column r) in
  let '(s0, s1, s2) := splits in
  match sample_size (Float s0) (length g) with
  | Raise e =>
      split_to_train_val_test df label_column splits verbose w = Raise e
  | Ok _ =>
      match truediv s2 (add s1 s2) with
      | Raise e =>
          split_to_train_val_test df label_column splits verbose w = Raise e
      | Ok _ => True
      end
  end.
Proof.
  intros Hrows g.
  pose proof (split_label_raises_early
                (empty_frame, empty_frame, empty_frame)
                (cell label_column r) w) as Hb.
  cbv zeta in Hb. fold g in Hb.
  assert (Hraise : forall e,
             split_label df label_column splits verbose
               (empty_frame, empty_frame, empty_frame)
               (cell label_column r) w = Raise e ->
             split_to_train_val_test df label_column splits verbose w
             = Raise e).
  { intros e He. unfold split_to_train_val_test.
    rewrite (bind_lift_ok _ _ getitem_present). rewrite Hrows. simpl.
    apply bind_raise. apply bind_raise. exact He. }
  destruct splits as [[s0 s1] s2].
  destruct (sample_size (Float s0) (length g)); [| auto].
  destruct (truediv s2 (add s1 s2)); auto.
Qed.

End SplitFacts.

(** ** Every output row is an input row *)

Section ItemsPreserved.

Lemma lift_inv {A : Type} (r : Result A) (w w' : World) (a : A) :
  lift r w = Ok (a, w') -> r = Ok a /\ w' = w.
Proof.
  unfold lift. destruct r; [| discriminate].
  intros H. injection H as -> ->. split; reflexivity.
Qed.

Lemma sample_incl (frac : Num) (f s : DataFrame) (w w' : World) :
  sample frac f w = Ok (s, w') ->
  incl (rows s) (rows f) /\ stdout w' = stdout w.
Proof.
  intros H. pose proof (sample_spec frac f w) as Hs.
  destruct (sample_size frac (length (rows f))); [| congruence].
  destruct Hs as (s0 & others & g' & Hrun & _ & _ & Hp).
  rewrite Hrun in H. injection H as <- <-. split; [| reflexivity].
  intros r Hr. apply (Permutation_in r Hp), in_or_app. left. exact Hr.
Qed.

Lemma drop_incl (f f' : DataFrame) (labels : list Z) :
  drop f labels = Ok f' -> incl (rows f') (rows f).
Proof.
  unfold drop. destruct (forallb _ labels); [| discriminate].
  intros H. injection H as <-. simpl. intros r Hr.
  apply filter_In in Hr. tauto.
Qed.

Variable df : DataFrame.
Variable label_column : string.
Variable splits : Splits.
Variable verbose : bool.

Lemma split_label_incl (acc acc' : Frames) (lbl : option string)
  (w w' : World) :
  split_label df label_column splits verbose acc lbl w = Ok (acc', w') ->
  incl (all_rows acc) (rows df) ->
  incl (all_rows acc') (rows df) /\ (verbose = false -> stdout w' = stdout w).
Proof.
  destruct splits as [[s0 s1] s2], acc as [[a1 a2] a3].
  unfold split_label. intros H Hacc.
  apply bind_inv in H as (col & w1 & Hcol & H).
  apply lift_inv in Hcol as [Hcol ->].
  assert (col = map (cell label_column) (rows df)) as ->.
  { unfold getitem in Hcol. destruct (existsb _ _); congruence. }
  apply bind_inv in H as (t & w1 & Ht & H).
  apply sample_incl in Ht as [Ht Hw1].
  apply bind_inv in H as (vt & w2 & Hvt & H).
  apply lift_inv in Hvt as [Hvt ->]. apply drop_incl in Hvt.
  apply bind_inv in H as (frac & w2 & Hfrac & H).
  apply lift_inv in Hfrac as [_ ->].
  apply bind_inv in H as (e & w2 & He & H).
  apply sample_incl in He as [He Hw2].
  apply bind_inv in H as (v & w3 & Hv & H).
  apply lift_inv in Hv as [Hv ->]. apply drop_incl in Hv.
  apply bind_inv in H as (u & w3 & Hprint & H).
  unfold ret in H. injection H as <- <-.
  assert (Hg : incl (rows (getitem_mask df
                 (series_eq (map (cell label_column) (rows df)) lbl)))
                 (rows df)).
  { simpl. rewrite select_series_eq. intros r Hr.
    apply filter_In in Hr. tauto. }
  split.
  - unfold all_rows in *. simpl in *.
    apply incl_app_inv in Hacc as [H1 Hacc].
    apply incl_app_inv in Hacc as [H2 H3].
    repeat apply incl_app; try assumption.
    + eapply incl_tran; [exact Ht | exact Hg].
    + eapply incl_tran; [exact Hv |]. eapply incl_tran; [exact Hvt | exact Hg].
    + eapply incl_tran; [exact He |]. eapply incl_tran; [exact Hvt | exact Hg].
  - intros Hq. rewrite Hq in Hprint. unfold ret in Hprint.
    injection Hprint as _ <-. congruence.
Qed.

Lemma for_labels_incl (labels : list (option string)) :
  forall (acc acc' : Frames) (w w' : World),
    for_labels df label_column splits verbose labels acc w = Ok (acc', w') ->
    incl (all_rows acc) (rows df) ->
    incl (all_rows acc') (rows df) /\
    (verbose = false -> stdout w' = stdout w).
Proof.
  induction labels as [| l labels IH]; intros acc acc' w w' H Hacc; simpl in H.
  - unfold ret in H. injection H as <- <-. split; [exact Hacc | reflexivity].
  - apply bind_inv in H as (acc1 & w1 & Hstep & H).
    destruct (split_label_incl _ _ _ _ _ Hstep Hacc) as [Hacc1 Hw1].
    destruct (IH _ _ _ _ H Hacc1) as [Hacc' Hw'].
    split; [exact Hacc' |]. intros Hq. rewrite (Hw' Hq). exact (Hw1 Hq).
Qed.

Lemma split_incl (out : Frames) (w w' : World) :
  split_to_train_val_test df label_column splits verbose w = Ok (out, w') ->
  incl (all_rows out) (rows df) /\ (verbose = false -> stdout w' = stdout w).
Proof.
  unfold split_to_train_val_test. intros H.
  apply bind_inv in H as (col & w1 & Hcol & H).
  apply lift_inv in Hcol as [_ ->].
  apply bind_inv in H as ([[a1 a2] a3] & w1 & Hloop & H).
  apply for_labels_incl in Hloop as [Hacc Hw1];
    [| intros r []].
  apply bind_inv in H as (tr & w2 & Htr & H).
  apply sample_incl in Htr as [Htr Hw2].
  apply bind_inv in H as (va & w3 & Hva & H).
  apply sample_incl in Hva as [Hva Hw3].
  apply bind_inv in H as (te & w4 & Hte & H).
  apply sample_incl in Hte as [Hte Hw4].
  unfold ret in H. injection H as <- <-.
  split.
  - unfold all_rows in *. simpl in *.
    apply incl_app_inv in Hacc as [H1 Hacc].
    apply incl_app_inv in Hacc as [H2 H3].
    repeat apply incl_app; eapply incl_tran; eassumption.
  - intros Hq. rewrite Hw4, Hw3, Hw2. exact (Hw1 Hq).
Qed.

End ItemsPreserved.

(** ** The outcome is a function of the random state *)

Section Reproducible.

Lemma reproducible_ret {A : Type} (a : A) : reproducible (ret a).
Proof. intros w1 w2 H. simpl. split; [reflexivity | exact H]. Qed.

Lemma reproducible_raise {A : Type} (e : PyError) :
  reproducible (@raise A e).
Proof. intros w1 w2 H. reflexivity. Qed.

Lemma reproducible_lift {A : Type} (r : Result A) : reproducible (lift r).
Proof.
  intros w1 w2 H. unfold lift. destruct r; simpl; [| reflexivity].
  split; [reflexivity | exact H].
Qed.

Lemma reproducible_bind {A B : Type} (m : M A) (k : A -> M B) :
  reproducible m -> (forall a, reproducible (k a)) ->
  reproducible (bind m k).
Proof.
  intros Hm Hk w1 w2 H. unfold bind. specialize (Hm w1 w2 H).
  destruct (m w1) as [[a1 w1'] | e1], (m w2) as [[a2 w2'] | e2];
    simpl in Hm; try contradiction.
  - destruct Hm as [-> Hw]. apply Hk. exact Hw.
  - exact Hm.
Qed.

Lemma reproducible_with_np_random {A : Type}
  (f : RandomState -> Result (A * RandomState)) :
  reproducible (with_np_random f).
Proof.
  intros w1 w2 H. unfold with_np_random. rewrite H.
  destruct (f (np_random w2)) as [[a g] |]; simpl; [| reflexivity].
  split; reflexivity.
Qed.

Lemma reproducible_print (l : LogLine) : reproducible (py_print l).
Proof. intros w1 w2 H. simpl. split; [reflexivity | exact H]. Qed.

Lemma reproducible_sample (frac : Num) (f : DataFrame) :
  reproducible (sample frac f).
Proof.
  unfold sample. destruct (num_gt_one frac); [apply reproducible_raise |].
  apply reproducible_bind; [apply reproducible_lift |]. intros n.
  destruct (n <? 0)%Z; [apply reproducible_raise |].
  apply reproducible_bind; [apply reproducible_with_np_random |].
  intros locs. apply reproducible_ret.
Qed.

Lemma reproducible_split_label (df : DataFrame) (c : string)
  (splits : Splits) (verbose : bool) (acc : Frames) (lbl : option string) :
  reproducible (split_label df c splits verbose acc lbl).
Proof.
  destruct splits as [[s0 s1] s2], acc as [[a1 a2] a3]. unfold split_label.
  apply reproducible_bind; [apply reproducible_lift |]. intros col.
  apply reproducible_bind; [apply reproducible_sample |]. intros t.
  apply reproducible_bind; [apply reproducible_lift |]. intros vt.
  apply reproducible_bind; [apply reproducible_lift |]. intros frac.
  apply reproducible_bind; [apply reproducible_sample |]. intros e.
  apply reproducible_bind; [apply reproducible_lift |]. intros v.
  apply reproducible_bind.
  - destruct verbose; [apply reproducible_print | apply reproducible_ret].
  - intros _. apply reproducible_ret.
Qed.

Lemma reproducible_for_labels (df : DataFrame) (c : string)
  (splits : Splits) (verbose : bool) (labels : list (option string)) :
  forall acc, reproducible (for_labels df c splits verbose labels acc).
Proof.
  induction labels as [| l labels IH]; intros acc; simpl.
  - apply reproducible_ret.
  - apply reproducible_bind; [apply reproducible_split_label | exact IH].
Qed.

Lemma reproducible_split (df : DataFrame) (c : string) (splits : Splits)
  (verbose : bool) :
  reproducible (split_to_train_val_test df c splits verbose).
Proof.
  unfold split_to_train_val_test.
  apply reproducible_bind; [apply reproducible_lift |]. intros col.
  apply reproducible_bind; [apply reproducible_for_labels |].
  intros [[a1 a2] a3].
  apply reproducible_bind; [apply reproducible_sample |]. intros tr.
  apply reproducible_bind; [apply reproducible_sample |]. intros va.
  apply reproducible_bind; [apply reproducible_sample |]. intros te.
  apply reproducible_ret.
Qed.

End Reproducible.

(** ** Sizes, missing column, empty frame *)

Section OutcomeFacts.

Lemma labelled_spec (c : string) (df : DataFrame) :
  labelled c df = true -> forall r, In r (rows df) -> cell c r <> None.
Proof.
  unfold labelled. intros H r Hr. rewrite forallb_forall in H.
  specialize (H r Hr). destruct (cell c r); [discriminate | discriminate].
Qed.

Lemma sample_size_le (frac : Num) (len n : nat) :
  sample_size frac len = Ok n -> n <= len.
Proof.
  unfold sample_size. destruct (num_gt_one frac); [discriminate |].
  destruct (num_round _) as [z |]; [| discriminate].
  destruct (z <? 0)%Z; [discriminate |].
  destruct (len <? Z.to_nat z) eqn:E; [discriminate |].
  intros H. injection H as <-. apply Nat.ltb_ge. exact E.
Qed.

Lemma group_sizes_sum (splits : Splits) (n a b c : nat) :
  group_sizes splits n = Ok (a, b, c) -> a + b + c = n.
Proof.
  destruct splits as [[s0 s1] s2]. unfold group_sizes.
  destruct (sample_size (Float s0) n) as [n1 |] eqn:E1; [| discriminate].
  destruct (truediv s2 (add s1 s2)) as [frac |]; [| discriminate].
  destruct (sample_size (Float frac) (n - n1)) as [n3 |] eqn:E3;
    [| discriminate].
  intros H. injection H as <- <- <-.
  apply sample_size_le in E1, E3. lia.
Qed.

Lemma round_raises (x : float) (e : PyError) :
  round x = Raise e -> e = ValueError \/ e = OverflowError.
Proof. destruct x; simpl; intros H; inversion H; auto. Qed.

Lemma sample_size_raises (frac : Num) (len : nat) (e : PyError) :
  sample_size frac len = Raise e -> e = ValueError \/ e = OverflowError.
Proof.
  unfold sample_size. destruct (num_gt_one frac).
  { intros H. inversion H. auto. }
  destruct (num_round _) as [z | e'] eqn:E.
  - destruct (z <? 0)%Z; [intros H; inversion H; auto |].
    destruct (len <? Z.to_nat z); intros H; inversion H; auto.
  - intros H. injection H as <-.
    destruct frac; simpl in E; [discriminate |].
    eapply round_raises. exact E.
Qed.

Lemma group_sizes_raises (splits : Splits) (n : nat) (e : PyError) :
  group_sizes splits n = Raise e ->
  e = ValueError \/ e = ZeroDivisionError \/ e = OverflowError.
Proof.
  destruct splits as [[s0 s1] s2]. unfold group_sizes.
  destruct (sample_size (Float s0) n) as [n1 | e1] eqn:E1.
  - unfold truediv. destruct (is_zero (add s1 s2)).
    + intros H. inversion H. auto.
    + destruct (sample_size (Float (div s2 (add s1 s2))) (n - n1))
        as [n3 | e3] eqn:E3; [discriminate |].
      intros H. injection H as <-.
      apply sample_size_raises in E3. tauto.
  - intros H. injection H as <-. apply sample_size_raises in E1. tauto.
Qed.

Lemma all_group_sizes_raises (splits : Splits) (ns : list nat)
  (e : PyError) :
  all_group_sizes splits ns = Raise e ->
  e = ValueError \/ e = ZeroDivisionError \/ e = OverflowError.
Proof.
  induction ns as [| n ns IH]; simpl; [discriminate |].
  destruct (group_sizes splits n) as [s | e1] eqn:E1.
  - destruct (all_group_sizes splits ns); [discriminate |].
    intros H. injection H as <-. apply IH. reflexivity.
  - intros H. injection H as <-. eapply group_sizes_raises. exact E1.
Qed.

(** Taking all of a group with the float 1.0 is exact for any frame that
    fits in memory. *)
Lemma sample_size_float_one (n : nat) :
  (Z.of_nat n < 2 ^ 53)%Z -> sample_size (Float one) n = Ok n.
Proof.
  intros Hn. unfold sample_size. cbn [num_gt_one num_mul_int num_round].
  change (ltb one one) with false. cbv iota.
  rewrite round_mul_one_of_Z by lia. rewrite Nat2Z.id.
  replace (Z.of_nat n <? 0)%Z with false by (symmetry; apply Z.ltb_ge; lia).
  rewrite Nat.ltb_irrefl. reflexivity.
Qed.

Lemma split_missing_column (df : DataFrame) (c : string) (splits : Splits)
  (verbose : bool) (w : World) :
  existsb (String.eqb c) (columns df) = false ->
  split_to_train_val_test df c splits verbose w = Raise KeyError.
Proof.
  intros H. unfold split_to_train_val_test, bind, lift, getitem.
  rewrite H. reflexivity.
Qed.

Lemma split_label_missing_column (df : DataFrame) (c : string)
  (splits : Splits) (verbose : bool) (acc : Frames) (lbl : option string)
  (w : World) :
  existsb (String.eqb c) (columns df) = false ->
  split_label df c splits verbose acc lbl w = Raise KeyError.
Proof.
  intros H. destruct splits as [[s0 s1] s2], acc as [[a1 a2] a3].
  unfold split_label, bind, lift, getitem. rewrite H. reflexivity.
Qed.

(** With no row there is no label: the loop makes no pass, and shuffling
    the three empty frames draws nothing. *)
Lemma no_rows_run (df : DataFrame) (c : string) (splits : Splits)
  (verbose : bool) (w : World) :
  existsb (String.eqb c) (columns df) = true ->
  rows df = [] ->
  split_to_train_val_test df c splits verbose w =
    Ok ((empty_frame, empty_frame, empty_frame), w).
Proof.
  intros Hc Hr. unfold split_to_train_val_test, bind, lift, getitem.
  rewrite Hc, Hr. destruct w as [g out]. reflexivity.
Qed.

(** Two different labels share no row. *)
Lemma count_two_le (c : string) (a b : option string) (rs : list Row) :
  a <> b -> count_label c a rs + count_label c b rs <= length rs.
Proof.
  intros Hne. unfold count_label.
  induction rs as [| r rs IH]; simpl; [lia |].
  destruct (has_label c a r) eqn:Ea, (has_label c b r) eqn:Eb; simpl; try lia.
  exfalso. apply Hne. eapply has_label_functional; eassumption.
Qed.

End OutcomeFacts.

(** ** Ratios in range: the call returns *)

Section InRange.

Lemma unit_fraction_not_above_one (f : float) :
  unit_fraction f = true -> ltb one f = false.
Proof.
  unfold unit_fraction. intros H. apply andb_true_iff in H as [_ H].
  destruct f as [s | s | | [] m e]; try discriminate.
  - reflexivity.
  - apply negb_true_iff. exact H.
Qed.

Lemma sample_size_unit_fraction (f : float) (n : nat) :
  unit_fraction f = true -> (Z.of_nat n < 2 ^ 53)%Z ->
  exists k, sample_size (Float f) n = Ok k.
Proof.
  intros Hf Hn. unfold sample_size. cbn [num_gt_one num_mul_int num_round].
  rewrite (unit_fraction_not_above_one f Hf).
  destruct (round_fraction_of_count f (Z.of_nat n) Hf) as (z & -> & Hz);
    [lia |].
  replace (z <? 0)%Z with false by (symmetry; apply Z.ltb_ge; lia).
  replace (n <? Z.to_nat z) with false by (symmetry; apply Nat.ltb_ge; lia).
  eexists. reflexivity.
Qed.

Lemma group_sizes_in_range (splits : Splits) (n : nat) :
  fractions_in_range splits = true -> (Z.of_nat n < 2 ^ 53)%Z ->
  exists s, group_sizes splits n = Ok s.
Proof.
  destruct splits as [[s0 s1] s2]. unfold fractions_in_range, group_sizes.
  intros H Hn. apply andb_true_iff in H as [H0 H].
  destruct (sample_size_unit_fraction s0 n H0 Hn) as (n1 & ->).
  destruct (truediv s2 (add s1 s2)) as [frac |]; [| discriminate].
  destruct (sample_size_unit_fraction frac (n - n1) H) as (n3 & ->); [lia |].
  eexists. reflexivity.
Qed.

Lemma all_group_sizes_in_range (splits : Splits) (ns : list nat) :
  fractions_in_range splits = true ->
  Forall (fun n => (Z.of_nat n < 2 ^ 53)%Z) ns ->
  exists ss, all_group_sizes splits ns = Ok ss.
Proof.
  intros Hr. induction 1 as [| n ns Hn _ [ss IH]]; simpl.
  - eexists. reflexivity.
  - destruct (group_sizes_in_range splits n Hr Hn) as (s & ->).
    rewrite IH. eexists. reflexivity.
Qed.

(** With the label column, distinct index labels, fractions in range and
    a frame that fits in memory, the call returns. *)
Lemma split_returns (df : DataFrame) (c : string) (splits : Splits)
  (verbose : bool) (w : World) :
  existsb (String.eqb c) (columns df) = true ->
  NoDup (index df) ->
  fractions_in_range splits = true ->
  (Z.of_nat (length (rows df)) < 2 ^ 53)%Z ->
  exists out w', split_to_train_val_test df c splits verbose w = Ok (out, w').
Proof.
  intros Hc Hnd Hr Hlen.
  pose proof (split_spec df c splits verbose Hc w Hnd) as Hs. cbv zeta in Hs.
  destruct (all_group_sizes_in_range splits
              (map (fun l => length (group df c l))
                 (unique (map (cell c) (rows df)))) Hr) as (ss & Hss).
  - apply Forall_forall. intros n Hin. apply in_map_iff in Hin.
    destruct Hin as (l & <- & _).
    assert (length (group df c l) <= length (rows df))%nat
      by apply filter_length_le.
    lia.
  - rewrite Hss in Hs. destruct Hs as (out & w' & Hrun & _).
    exists out, w'. exact Hrun.
Qed.

End InRange.

Open Scope string_scope.

(** * The properties of the split *)

(** ** Partition *)

(** C1. On a dataset whose items have distinct identifiers (index labels)
    and all carry a label, the three frames a call returns partition the
    input: their rows together are the rows of the input, and by
    identifier, the identifiers of train, validation and test together are
    those of the input, each input identifier is in exactly one of the
    three, and no identifier is in two of them. This holds for every ratio
    triple with which the call returns, and the call does return when the
    label column is present and the two sampling fractions are in range. *)
Theorem split_partition (df : DataFrame) (label_column : string)
  (splits : Splits) (verbose : bool) (w : World) :
  NoDup (index df) ->
  (forall r, In r (rows df) -> cell label_column r <> None) ->
  (forall tr va te w',
      split_to_train_val_test df label_column splits verbose w =
        Ok ((tr, va, te), w') ->
      Permutation (rows tr ++ rows va ++ rows te) (rows df) /\
      Permutation (index tr ++ index va ++ index te) (index df) /\
      (forall i, In i (index df) <->
                 In i (index tr) \/ In i (index va) \/ In i (index te)) /\
      (forall i, In i (index df) ->
                 count_occ Z.eq_dec (index tr) i
                 + count_occ Z.eq_dec (index va) i
                 + count_occ Z.eq_dec (index te) i = 1) /\
      (forall i, ~ (In i (index tr) /\ In i (index va)) /\
                 ~ (In i (index tr) /\ In i (index te)) /\
                 ~ (In i (index va) /\ In i (index te)))) /\
  (existsb (String.eqb label_column) (columns df) = true ->
   fractions_in_range splits = true ->
   (Z.of_nat (length (rows df)) < 2 ^ 53)%Z ->
   exists tr va te w',
     split_to_train_val_test df label_column splits verbose w =
       Ok ((tr, va, te), w')).
Proof.
  intros Hnd Hlab. split.
  - intros tr va te w' Hrun.
    destruct (existsb (String.eqb label_column) (columns df)) eqn:Hc;
      [| rewrite split_missing_column in Hrun by exact Hc; discriminate].
    pose proof (split_spec df label_column splits verbose Hc w Hnd) as Hs.
    cbv zeta in Hs. destruct (all_group_sizes splits _); [| congruence].
    destruct Hs as (out & w1 & Hrun' & Hperm & _).
    rewrite Hrun in Hrun'. injection Hrun' as <- <-.
    rewrite (groups_cover df label_column Hlab) in Hperm.
    assert (Hp : Permutation (index tr ++ index va ++ index te) (index df)).
    { unfold index. rewrite <- !map_app. apply Permutation_map. exact Hperm. }
    assert (Hcount : forall i, In i (index df) ->
               count_occ Z.eq_dec (index tr) i
               + count_occ Z.eq_dec (index va) i
               + count_occ Z.eq_dec (index te) i = 1).
    { intros i Hi.
      pose proof (proj1 (Permutation_count_occ Z.eq_dec _ _) Hp i) as Hco.
      rewrite !count_occ_app in Hco.
      rewrite (proj1 (NoDup_count_occ' Z.eq_dec (index df)) Hnd i Hi) in Hco.
      lia. }
    assert (Hmem : forall i, In i (index df) <->
               In i (index tr) \/ In i (index va) \/ In i (index te)).
    { intros i. rewrite <- !in_app_iff. split; intros Hi.
      - apply (Permutation_in i (Permutation_sym Hp)). exact Hi.
      - apply (Permutation_in i Hp). exact Hi. }
    split; [exact Hperm |].
    split; [exact Hp |]. split; [exact Hmem |]. split; [exact Hcount |].
    intros i.
    assert (Hone : In i (index tr) \/ In i (index va) \/ In i (index te) ->
                   count_occ Z.eq_dec (index tr) i
                   + count_occ Z.eq_dec (index va) i
                   + count_occ Z.eq_dec (index te) i = 1)
      by (intros Hi; apply Hcount, Hmem, Hi).
    repeat split; intros [H1 H2];
      pose proof (Hone ltac:(tauto)) as Hsum;
      apply (count_occ_In Z.eq_dec) in H1, H2; lia.
  - intros Hc Hr Hlen.
    destruct (split_returns df label_column splits verbose w Hc Hnd Hr Hlen)
      as ([[tr va] te] & w' & Hrun).
    exists tr, va, te, w'. exact Hrun.
Qed.

Lemma split_partition_witness :
  exists tr va te w',
    split_to_train_val_test df_ab "class_id" SPLIT_RATIOS false w0 =
      Ok ((tr, va, te), w') /\
    Permutation (rows tr ++ rows va ++ rows te) (rows df_ab) /\
    Permutation (index tr ++ index va ++ index te) (index df_ab) /\
    (forall i, In i (index df_ab) <->
               In i (index tr) \/ In i (index va) \/ In i (index te)) /\
    (forall i, In i (index df_ab) ->
               count_occ Z.eq_dec (index tr) i
               + count_occ Z.eq_dec (index va) i
               + count_occ Z.eq_dec (index te) i = 1) /\
    (forall i, ~ (In i (index tr) /\ In i (index va)) /\
               ~ (In i (index tr) /\ In i (index te)) /\
               ~ (In i (index va) /\ In i (index te))).
Proof.
  destruct (split_partition df_ab "class_id" SPLIT_RATIOS false w0)
    as [Hpart Hret].
  - apply distinct_NoDup. vm_compute. reflexivity.
  - apply labelled_spec. vm_compute. reflexivity.
  - destruct Hret as (tr & va & te & w' & Hrun).
    + reflexivity.
    + vm_compute. reflexivity.
    + vm_compute. reflexivity.
    + exists tr, va, te, w'. split; [exact Hrun |].
      exact (Hpart tr va te w' Hrun).
Defined.

(** ** Class representation *)

(** Three items of one class with ratios (0.7, 0.2, 0.1), all positive:
    the call returns and the test frame holds no item of the class. *)
Lemma small_class_misses_test :
  exists tr va te w',
    split_to_train_val_test df_aaa "class_id" SPLIT_RATIOS false w0 =
      Ok ((tr, va, te), w') /\
    count_label "class_id" (Some "A") (rows df_aaa) = 3 /\
    ltb zero (fst (fst SPLIT_RATIOS)) = true /\
    ltb zero (snd (fst SPLIT_RATIOS)) = true /\
    ltb zero (snd SPLIT_RATIOS) = true /\
    count_label "class_id" (Some "A") (rows te) = 0.
Proof.
  destruct (split_to_train_val_test df_aaa "class_id" SPLIT_RATIOS false w0)
    as [[[[tr va] te] w'] | e] eqn:Hrun; [| vm_compute in Hrun; discriminate].
  exists tr, va, te, w'. split; [reflexivity |].
  vm_compute in Hrun. injection Hrun as <- <- <- <-.
  vm_compute. repeat split; reflexivity.
Qed.

(** C2, as the code has it. On a dataset with distinct index labels, a
    returning call gives each of the three frames, for a class of [n >= 3]
    items, exactly the sizes of the two rounded draws: round(train_ratio *
    n) items in train, round(test_ratio / (val_ratio + test_ratio) * (n -
    train)) in test and the remaining ones in validation, which add up to
    [n]. A frame holds an item of the class exactly when its size is
    positive. *)
Theorem split_class_counts (df : DataFrame) (label_column : string)
  (splits : Splits) (verbose : bool) (w w' : World)
  (tr va te : DataFrame) (cls : string) :
  NoDup (index df) ->
  3 <= count_label label_column (Some cls) (rows df) ->
  split_to_train_val_test df label_column splits verbose w =
    Ok ((tr, va, te), w') ->
  exists n_train n_val n_test,
    group_sizes splits (count_label label_column (Some cls) (rows df)) =
      Ok (n_train, n_val, n_test) /\
    count_label label_column (Some cls) (rows tr) = n_train /\
    count_label label_column (Some cls) (rows va) = n_val /\
    count_label label_column (Some cls) (rows te) = n_test /\
    n_train + n_val + n_test = count_label label_column (Some cls) (rows df) /\
    (0 < n_train <->
     exists r, In r (rows tr) /\ cell label_column r = Some cls) /\
    (0 < n_val <->
     exists r, In r (rows va) /\ cell label_column r = Some cls) /\
    (0 < n_test <->
     exists r, In r (rows te) /\ cell label_column r = Some cls).
Proof.
  intros Hnd Hn Hrun.
  destruct (existsb (String.eqb label_column) (columns df)) eqn:Hc;
    [| rewrite split_missing_column in Hrun by exact Hc; discriminate].
  pose proof (split_spec df label_column splits verbose Hc w Hnd) as Hs.
  cbv zeta in Hs. destruct (all_group_sizes splits _); [| congruence].
  destruct Hs as (out & w1 & Hrun' & _ & Hin & _).
  rewrite Hrun in Hrun'. injection Hrun' as <- <-.
  assert (Hpos : forall rs, 0 < count_label label_column (Some cls) rs <->
            exists r, In r rs /\ cell label_column r = Some cls).
  { intros rs. unfold count_label. split.
    - intros Hlen.
      destruct (filter (has_label label_column (Some cls)) rs) as [| r t]
        eqn:E; [simpl in Hlen; lia |].
      assert (Hr : In r (filter (has_label label_column (Some cls)) rs))
        by (rewrite E; left; reflexivity).
      apply filter_In in Hr as [Hr Hl]. exists r. split; [exact Hr |].
      unfold has_label, value_eqb in Hl.
      destruct (cell label_column r) as [x |]; [| discriminate].
      apply String.eqb_eq in Hl. congruence.
    - intros (r & Hr & Hl).
      assert (Hf : In r (filter (has_label label_column (Some cls)) rs))
        by (apply filter_In; split;
            [exact Hr | apply has_label_cell; exact Hl]).
      destruct (filter _ rs); [contradiction | simpl; lia]. }
  assert (Hlbl : In (Some cls) (unique (map (cell label_column) (rows df)))).
  { apply unique_In.
    destruct (proj1 (Hpos (rows df))) as (r & Hr & <-); [lia |].
    apply in_map. exact Hr. }
  destruct (Hin _ Hlbl) as ([[n1 n2] n3] & Hsz & Hcnt).
  unfold counts in Hcnt. simpl in Hcnt. injection Hcnt as H1 H2 H3.
  exists n1, n2, n3. split; [exact Hsz |].
  split; [exact H1 |]. split; [exact H2 |]. split; [exact H3 |].
  split; [eapply group_sizes_sum; exact Hsz |].
  rewrite <- H1, <- H2, <- H3. repeat split; apply Hpos.
Qed.

Lemma split_class_counts_witness :
  exists tr va te w',
    split_to_train_val_test df_aaa "class_id" SPLIT_RATIOS false w0 =
      Ok ((tr, va, te), w') /\
    exists n_train n_val n_test,
      group_sizes SPLIT_RATIOS
        (count_label "class_id" (Some "A") (rows df_aaa)) =
        Ok (n_train, n_val, n_test) /\
      count_label "class_id" (Some "A") (rows tr) = n_train /\
      count_label "class_id" (Some "A") (rows va) = n_val /\
      count_label "class_id" (Some "A") (rows te) = n_test /\
      n_train + n_val + n_test =
        count_label "class_id" (Some "A") (rows df_aaa) /\
      (0 < n_train <->
       exists r, In r (rows tr) /\ cell "class_id" r = Some "A") /\
      (0 < n_val <->
       exists r, In r (rows va) /\ cell "class_id" r = Some "A") /\
      (0 < n_test <->
       exists r, In r (rows te) /\ cell "class_id" r = Some "A").
Proof.
  destruct (split_to_train_val_test df_aaa "class_id" SPLIT_RATIOS false w0)
    as [[[[tr va] te] w'] | e] eqn:Hrun; [| vm_compute in Hrun; discriminate].
  exists tr, va, te, w'. split; [reflexivity |].
  apply (split_class_counts df_aaa "class_id" SPLIT_RATIOS false w0 w'
           tr va te "A").
  - apply distinct_NoDup. vm_compute. reflexivity.
  - vm_compute. lia.
  - exact Hrun.
Defined.

(** ** The draws of every label group *)




(** ** Ratios and empty input: what raises *)

(** Ratios (0.65, 0.2, 0.1) sum to less than 0.99, and the call on the
    twenty items returns three frames. *)
Lemma ratios_095_accepted :
  ltb (add (add (fst (fst ratios_095)) (snd (fst ratios_095)))
         (snd ratios_095)) (decimal 99 2) = true /\
  exists out w',
    split_to_train_val_test df_ab "class_id" ratios_095 false w0 =
      Ok (out, w').
Proof.
  split; [vm_compute; reflexivity |].
  destruct (split_to_train_val_test df_ab "class_id" ratios_095 false w0)
    as [[out w'] | e] eqn:Hrun; [| vm_compute in Hrun; discriminate].
  exists out, w'. reflexivity.
Qed.

(** C4, as the code has it. The ratios are not validated. On a dataset
    with the label column and distinct index labels, the call returns
    whenever the sampling arithmetic of every label group succeeds, whatever
    the ratios add up to; otherwise it raises the exception of the first
    group whose arithmetic fails, a [ValueError], [ZeroDivisionError] or
    [OverflowError], and then returns no frame. *)
Theorem split_outcome_by_sampling (df : DataFrame) (label_column : string)
  (splits : Splits) (verbose : bool) (w : World) :
  NoDup (index df) ->
  existsb (String.eqb label_column) (columns df) = true ->
  match all_group_sizes splits
          (map (fun l => length (group df label_column l))
             (unique (map (cell label_column) (rows df)))) with
  | Ok _ =>
      exists out w',
        split_to_train_val_test df label_column splits verbose w =
          Ok (out, w')
  | Raise e =>
      split_to_train_val_test df label_column splits verbose w = Raise e /\
      (e = ValueError \/ e = ZeroDivisionError \/ e = OverflowError)
  end.
Proof.
  intros Hnd Hc.
  pose proof (split_spec df label_column splits verbose Hc w Hnd) as Hs.
  cbv zeta in Hs.
  destruct (all_group_sizes splits _) as [ss | e] eqn:E.
  - destruct Hs as (out & w' & Hrun & _). exists out, w'. exact Hrun.
  - split; [exact Hs |]. eapply all_group_sizes_raises. exact E.
Qed.

Lemma split_outcome_by_sampling_witness :
  exists out w',
    split_to_train_val_test df_ab "class_id" ratios_095 false w0 =
      Ok (out, w').
Proof.
  exact (split_outcome_by_sampling df_ab "class_id" ratios_095 false w0
           (distinct_NoDup (index df_ab) eq_refl) eq_refl).
Defined.

(** A frame with the label column and no row: the call returns. *)
Lemma no_rows_returns :
  rows df_no_rows = [] /\
  split_to_train_val_test df_no_rows "class_id" SPLIT_RATIOS false w0 =
    Ok ((empty_frame, empty_frame, empty_frame), w0).
Proof. split; reflexivity. Qed.

(** C5, as the code has it. A dataset with no item is not refused: with
    the label column present the call returns three frames without rows;
    only a frame that lacks the label column, such as [pd.DataFrame()],
    raises, and what it raises is [KeyError]. *)
Theorem split_empty_dataset (df : DataFrame) (label_column : string)
  (splits : Splits) (verbose : bool) (w : World) :
  rows df = [] ->
  if existsb (String.eqb label_column) (columns df)
  then exists tr va te w',
      split_to_train_val_test df label_column splits verbose w =
        Ok ((tr, va, te), w') /\
      rows tr = [] /\ rows va = [] /\ rows te = []
  else split_to_train_val_test df label_column splits verbose w =
       Raise KeyError.
Proof.
  intros Hr.
  destruct (existsb (String.eqb label_column) (columns df)) eqn:Hc.
  - exists empty_frame, empty_frame, empty_frame, w.
    split; [apply no_rows_run; assumption |]. repeat split.
  - apply split_missing_column. exact Hc.
Qed.

Lemma split_empty_dataset_witness :
  exists tr va te w',
    split_to_train_val_test df_no_rows "class_id" SPLIT_RATIOS false w0 =
      Ok ((tr, va, te), w') /\
    rows tr = [] /\ rows va = [] /\ rows te = [].
Proof.
  exact (split_empty_dataset df_no_rows "class_id" SPLIT_RATIOS false w0
           eq_refl).
Defined.

(** C10. A frame that has the label column and no row: [unique] yields no
    label, the loop makes no pass, and the call returns three empty
    frames, for any ratios, leaving the random state and stdout as they
    were. *)
Theorem split_no_rows_returns_empty (df : DataFrame) (label_column : string)
  (splits : Splits) (verbose : bool) (w : World) :
  existsb (String.eqb label_column) (columns df) = true ->
  rows df = [] ->
  unique (map (cell label_column) (rows df)) = [] /\
  split_to_train_val_test df label_column splits verbose w =
    Ok ((empty_frame, empty_frame, empty_frame), w).
Proof.
  intros Hc Hr. split.
  - rewrite Hr. reflexivity.
  - apply no_rows_run; assumption.
Qed.

Lemma split_no_rows_returns_empty_witness :
  unique (map (cell "class_id") (rows df_no_rows)) = [] /\
  split_to_train_val_test df_no_rows "class_id" ratios_095 true w0 =
    Ok ((empty_frame, empty_frame, empty_frame), w0).
Proof.
  exact (split_no_rows_returns_empty df_no_rows "class_id" ratios_095 true w0
           eq_refl eq_refl).
Defined.

(** C9. With ratios (1.0, 0.0, 0.0) on any dataset that has the label
    column and at least one row, the first pass of the loop takes its whole
    group for training and then divides 0.0 by 0.0 + 0.0: the call raises
    [ZeroDivisionError]. (Row counts are below 2^53, where [float(n)] is
    exact.) *)
Theorem all_train_ratios_divide_by_zero (df : DataFrame)
  (label_column : string) (verbose : bool) (w : World) :
  existsb (String.eqb label_column) (columns df) = true ->
  rows df <> [] ->
  (Z.of_nat (length (rows df)) < 2 ^ 53)%Z ->
  split_to_train_val_test df label_column ratios_all_train verbose w =
    Raise ZeroDivisionError.
Proof.
  intros Hc Hne Hlen.
  destruct (rows df) as [| r rs] eqn:Hrows; [contradiction |].
  pose proof (split_raises_early df label_column ratios_all_train verbose
                Hc w r rs Hrows) as H.
  cbv zeta in H. unfold ratios_all_train in H. cbv iota beta in H.
  rewrite sample_size_float_one in H; [exact H |].
  assert (length (group df label_column (cell label_column r))
          <= length (rows df)) by apply filter_length_le.
  rewrite Hrows in *. lia.
Qed.

Lemma all_train_ratios_divide_by_zero_witness :
  split_to_train_val_test df_ab "class_id" ratios_all_train false w0 =
    Raise ZeroDivisionError.
Proof.
  apply (all_train_ratios_divide_by_zero df_ab "class_id" false w0).
  - reflexivity.
  - discriminate.
  - vm_compute. reflexivity.
Defined.

(** ** The example of the notebook's ratios *)

(** A class of 100 items splits 70 / 20 / 10 with the notebook's ratios. *)
Example group_sizes_100 : group_sizes SPLIT_RATIOS 100 = Ok (70, 20, 10).
Proof. vm_compute. reflexivity. Qed.

(** C6. Ten items of label "A" and ten of label "B" with ratios
    (0.7, 0.2, 0.1): whatever the random state, the call returns a train
    frame of 14 items, 7 of each label, a validation frame of 4 items, 2 of
    each label, and a test frame of 2 items, 1 of each label. *)
Theorem split_example_ab (verbose : bool) (w : World) :
  exists tr va te w',
    split_to_train_val_test df_ab "class_id" SPLIT_RATIOS verbose w =
      Ok ((tr, va, te), w') /\
    length (rows tr) = 14 /\
    count_label "class_id" (Some "A") (rows tr) = 7 /\
    count_label "class_id" (Some "B") (rows tr) = 7 /\
    length (rows va) = 4 /\
    count_label "class_id" (Some "A") (rows va) = 2 /\
    count_label "class_id" (Some "B") (rows va) = 2 /\
    length (rows te) = 2 /\
    count_label "class_id" (Some "A") (rows te) = 1 /\
    count_label "class_id" (Some "B") (rows te) = 1.
Proof.
  pose proof (split_spec df_ab "class_id" SPLIT_RATIOS verbose eq_refl w
                (distinct_NoDup (index df_ab) eq_refl)) as Hs.
  cbv zeta in Hs.
  change (unique (map (cell "class_id") (rows df_ab)))
    with [Some "A"; Some "B"] in Hs.
  change (map (fun l => length (group df_ab "class_id" l))
            [Some "A"; Some "B"]) with [10; 10] in Hs.
  change (all_group_sizes SPLIT_RATIOS [10; 10])
    with (Ok [(7, 2, 1); (7, 2, 1)]) in Hs.
  destruct Hs as ([[tr va] te] & w' & Hrun & Hperm & Hin & _).
  destruct (Hin (Some "A")) as (sa & Hsa & Hca); [simpl; tauto |].
  destruct (Hin (Some "B")) as (sb & Hsb & Hcb); [simpl; tauto |].
  change (group_sizes SPLIT_RATIOS
            (length (group df_ab "class_id" (Some "A"))))
    with (Ok (7, 2, 1)) in Hsa.
  change (group_sizes SPLIT_RATIOS
            (length (group df_ab "class_id" (Some "B"))))
    with (Ok (7, 2, 1)) in Hsb.
  injection Hsa as <-. injection Hsb as <-.
  unfold counts in Hca, Hcb. simpl in Hca, Hcb.
  injection Hca as Ha1 Ha2 Ha3. injection Hcb as Hb1 Hb2 Hb3.
  apply Permutation_length in Hperm. unfold all_rows in Hperm.
  simpl fst in Hperm. simpl snd in Hperm. rewrite !length_app in Hperm.
  change (length (flat_map (group df_ab "class_id") [Some "A"; Some "B"]))
    with 20 in Hperm.
  assert (Hne : Some "A" <> Some "B") by discriminate.
  pose proof (count_two_le "class_id" _ _ (rows tr) Hne) as Ltr.
  pose proof (count_two_le "class_id" _ _ (rows va) Hne) as Lva.
  pose proof (count_two_le "class_id" _ _ (rows te) Hne) as Lte.
  exists tr, va, te, w'. split; [exact Hrun |].
  repeat split; try assumption; lia.
Qed.

(** ** Randomness *)

(** The function has no seed or generator argument: two calls in a row
    with the same dataset, label column and ratios draw from the global
    random state one after the other, and here item 6 is in the train frame
    of the first call and not in that of the second. *)
Lemma second_call_differs :
  exists tr1 va1 te1 w1 tr2 va2 te2 w2,
    split_to_train_val_test df_ab "class_id" SPLIT_RATIOS false w0 =
      Ok ((tr1, va1, te1), w1) /\
    split_to_train_val_test df_ab "class_id" SPLIT_RATIOS false w1 =
      Ok ((tr2, va2, te2), w2) /\
    In 6%Z (index tr1) /\ ~ In 6%Z (index tr2).
Proof.
  destruct (split_to_train_val_test df_ab "class_id" SPLIT_RATIOS false w0)
    as [[[[tr1 va1] te1] w1] | e] eqn:Hrun1;
    [| vm_compute in Hrun1; discriminate].
  destruct (split_to_train_val_test df_ab "class_id" SPLIT_RATIOS false w1)
    as [[[[tr2 va2] te2] w2] | e] eqn:Hrun2.
  - exists tr1, va1, te1, w1, tr2, va2, te2, w2.
    split; [reflexivity |]. split; [exact Hrun2 |].
    vm_compute in Hrun1. injection Hrun1 as <- <- <- <-.
    vm_compute in Hrun2. injection Hrun2 as <- <- <- <-.
    split.
    + apply mem_label_In. vm_compute. reflexivity.
    + intros H. apply mem_label_In in H. vm_compute in H. discriminate.
  - exfalso. vm_compute in Hrun1. injection Hrun1 as <- <- <- <-.
    vm_compute in Hrun2. discriminate.
Qed.

(** C7, as the code has it. The function takes no seed: its randomness is
    the global NumPy random state. Two calls with the same dataset, label
    column and ratios that start from the same random state (whatever was
    printed before) raise the same exception or return the same three
    frames, and leave the same random state. *)
Theorem split_same_state_same_outcome (df : DataFrame)
  (label_column : string) (splits : Splits) (verbose : bool)
  (w1 w2 : World) :
  np_random w1 = np_random w2 ->
  match split_to_train_val_test df label_column splits verbose w1,
        split_to_train_val_test df label_column splits verbose w2 with
  | Ok (out1, w1'), Ok (out2, w2') =>
      out1 = out2 /\ np_random w1' = np_random w2'
  | Raise e1, Raise e2 => e1 = e2
  | _, _ => False
  end.
Proof.
  intros H. exact (reproducible_split df label_column splits verbose w1 w2 H).
Qed.

Lemma split_same_state_same_outcome_witness :
  match split_to_train_val_test df_ab "class_id" SPLIT_RATIOS true w0,
        split_to_train_val_test df_ab "class_id" SPLIT_RATIOS true
          {| np_random := g0;
             stdout := [{| log_label := None; log_total := 0; log_train := 0;
                           log_val := 0; log_test := 0 |}] |} with
  | Ok (out1, w1'), Ok (out2, w2') =>
      out1 = out2 /\ np_random w1' = np_random w2'
  | Raise e1, Raise e2 => e1 = e2
  | _, _ => False
  end.
Proof.
  apply (split_same_state_same_outcome df_ab "class_id" SPLIT_RATIOS true).
  reflexivity.
Defined.

(** ** The input is only read *)

Section ObjectFacts.

Lemma extends_refl (s : Objects.Store) : Objects.extends s s.
Proof. exists []. symmetry. apply app_nil_r. Qed.

Lemma extends_trans (s1 s2 s3 : Objects.Store) :
  Objects.extends s1 s2 -> Objects.extends s2 s3 -> Objects.extends s1 s3.
Proof.
  intros [a Ha] [b Hb]. exists (a ++ b)%list.
  rewrite Hb, Ha, app_assoc. reflexivity.
Qed.

Lemma points_extends (s s' : Objects.Store) (r : Objects.Ref) (f : DataFrame) :
  Objects.extends s s' -> Objects.points s r f -> Objects.points s' r f.
Proof.
  intros [news H] Hp. unfold Objects.points in *. rewrite H.
  rewrite nth_error_app1; [exact Hp |].
  apply nth_error_Some. congruence.
Qed.

Lemma points_nth (s : Objects.Store) (r : Objects.Ref) (f : DataFrame) :
  Objects.points s r f -> nth r (Objects.heap s) empty_frame = f.
Proof. intros H. apply nth_error_nth. exact H. Qed.

Lemma points_bound (s : Objects.Store) (r : Objects.Ref) (f : DataFrame) :
  Objects.points s r f -> (r < length (Objects.heap s))%nat.
Proof. intros H. apply nth_error_Some. unfold Objects.points in H. congruence. Qed.


Lemma alloc_extends (s : Objects.Store) (f : DataFrame) (w : World) :
  Objects.extends s {| Objects.heap := Objects.heap s ++ [f]; Objects.interpreter := w |}.
Proof. exists [f]. reflexivity. Qed.

Lemma alloc_points (s : Objects.Store) (f : DataFrame) (w : World) :
  Objects.points {| Objects.heap := Objects.heap s ++ [f]; Objects.interpreter := w |} (length (Objects.heap s)) f.
Proof.
  unfold Objects.points. simpl. rewrite nth_error_app2 by lia.
  rewrite Nat.sub_diag. reflexivity.
Qed.

Lemma frame_sample_makes (frac : Num) (r : Objects.Ref) (f : DataFrame) (s : Objects.Store) :
  Objects.points s r f ->
  Objects.makes s (Objects.frame_sample frac r s) (sample frac f (Objects.interpreter s)).
Proof.
  intros H. unfold Objects.frame_sample, Objects.pbind, Objects.read, Objects.interp, Objects.alloc, Objects.makes.
  rewrite (points_nth _ _ _ H).
  destruct (sample frac f (Objects.interpreter s)) as [[g w] |]; reflexivity.
Qed.

Lemma frame_drop_makes (r : Objects.Ref) (labels : list Z) (f : DataFrame)
  (s : Objects.Store) :
  Objects.points s r f ->
  Objects.makes s (Objects.frame_drop r labels s) (lift (drop f labels) (Objects.interpreter s)).
Proof.
  intros H. unfold Objects.frame_drop, Objects.pbind, Objects.read, Objects.interp, Objects.alloc, Objects.makes, lift.
  rewrite (points_nth _ _ _ H).
  destruct (drop f labels); [destruct s |]; reflexivity.
Qed.

Lemma frame_append_makes (a b : Objects.Ref) (fa fb : DataFrame) (s : Objects.Store) :
  Objects.points s a fa -> Objects.points s b fb ->
  Objects.frame_append a b s =
    (Ok (length (Objects.heap s)),
     {| Objects.heap := Objects.heap s ++ [append fa fb]; Objects.interpreter := Objects.interpreter s |}).
Proof.
  intros Ha Hb. unfold Objects.frame_append, Objects.pbind, Objects.read, Objects.alloc.
  rewrite (points_nth _ _ _ Ha), (points_nth _ _ _ Hb). reflexivity.
Qed.

Lemma frame_getitem_mask_makes (r : Objects.Ref) (mask : list bool) (f : DataFrame)
  (s : Objects.Store) :
  Objects.points s r f ->
  Objects.frame_getitem_mask r mask s =
    (Ok (length (Objects.heap s)),
     {| Objects.heap := Objects.heap s ++ [getitem_mask f mask];
        Objects.interpreter := Objects.interpreter s |}).
Proof.
  intros H. unfold Objects.frame_getitem_mask, Objects.pbind, Objects.read, Objects.alloc.
  rewrite (points_nth _ _ _ H). reflexivity.
Qed.

Lemma frame_getitem_reads (r : Objects.Ref) (c : string) (f : DataFrame) (s : Objects.Store) :
  Objects.points s r f ->
  Objects.frame_getitem r c s =
    match getitem f c with
    | Ok col => (Ok col, s)
    | Raise e => (Raise e, s)
    end.
Proof.
  intros H. unfold Objects.frame_getitem, Objects.pbind, Objects.read, Objects.interp, lift.
  rewrite (points_nth _ _ _ H).
  destruct (getitem f c); [destruct s |]; reflexivity.
Qed.

Lemma frame_index_reads (r : Objects.Ref) (f : DataFrame) (s : Objects.Store) :
  Objects.points s r f -> Objects.frame_index r s = (Ok (index f), s).
Proof.
  intros H. unfold Objects.frame_index, Objects.pbind, Objects.read, Objects.pret.
  rewrite (points_nth _ _ _ H). reflexivity.
Qed.

Lemma frame_len_reads (r : Objects.Ref) (f : DataFrame) (s : Objects.Store) :
  Objects.points s r f -> Objects.frame_len r s = (Ok (length (rows f)), s).
Proof.
  intros H. unfold Objects.frame_len, Objects.pbind, Objects.read, Objects.pret.
  rewrite (points_nth _ _ _ H). reflexivity.
Qed.


Lemma pbind_ok {A B : Type} (m : Objects.P A) (k : A -> Objects.P B) (s s' : Objects.Store) (a : A) :
  m s = (Ok a, s') -> Objects.pbind m k s = k a s'.
Proof. intros H. unfold Objects.pbind. rewrite H. reflexivity. Qed.

Lemma pbind_raise {A B : Type} (m : Objects.P A) (k : A -> Objects.P B) (s s' : Objects.Store)
  (e : PyError) :
  m s = (Raise e, s') -> Objects.pbind m k s = (Raise e, s').
Proof. intros H. unfold Objects.pbind. rewrite H. reflexivity. Qed.

Lemma Objects_pbind_alloc {B : Type} (f : DataFrame)
  (k : Objects.Ref -> Objects.P B) (s : Objects.Store) :
  Objects.pbind (Objects.alloc f) k s =
  k (length (Objects.heap s))
    {| Objects.heap := Objects.heap s ++ [f];
       Objects.interpreter := Objects.interpreter s |}.
Proof. reflexivity. Qed.

Lemma follows_raise (s s' : Objects.Store) (e : PyError) :
  Objects.extends s s' -> Objects.follows s (Raise e, s') (Raise e).
Proof. intros H. split; [exact H | reflexivity]. Qed.

(** One pass of the loop. *)
Lemma split_label_follows (df : Objects.Ref) (f : DataFrame) (label_column : string)
  (splits : Splits) (verbose : bool) (t1 t2 t3 : Objects.Ref)
  (a1 a2 a3 : DataFrame) (lbl : option string) (s : Objects.Store) :
  Objects.points s df f -> Objects.points s t1 a1 -> Objects.points s t2 a2 -> Objects.points s t3 a3 ->
  Objects.follows s
    (Objects.split_label df label_column splits verbose (t1, t2, t3) lbl s)
    (split_label f label_column splits verbose (a1, a2, a3) lbl
       (Objects.interpreter s)).
Proof.
  intros Hdf H1 H2 H3. destruct splits as [[s0 s1] s2].
  unfold Objects.split_label, split_label.
  (* col = df[label_column] *)
  pose proof (frame_getitem_reads df label_column f s Hdf) as Hcol.
  destruct (getitem f label_column) as [col | e] eqn:Ecol.
  2: { rewrite (pbind_raise _ _ _ _ _ Hcol), (bind_lift_raise _ _ eq_refl).
       apply follows_raise, extends_refl. }
  rewrite (pbind_ok _ _ _ _ _ Hcol), (bind_lift_ok _ _ eq_refl).
  (* lbl_df = df[col == lbl] *)
  set (lbl_f := getitem_mask f (series_eq col lbl)).
  rewrite (pbind_ok _ _ _ _ _
             (frame_getitem_mask_makes df (series_eq col lbl) f s Hdf)).
  fold lbl_f.
  set (sa := {| Objects.heap := Objects.heap s ++ [lbl_f]; Objects.interpreter := Objects.interpreter s |}).
  assert (Ea : Objects.extends s sa) by apply alloc_extends.
  assert (Pl : Objects.points sa (length (Objects.heap s)) lbl_f) by apply alloc_points.
  (* lbl_train_df = lbl_df.sample(frac=splits[0]) *)
  pose proof (frame_sample_makes (Float s0) _ _ sa Pl) as Htr.
  change (Objects.interpreter sa) with (Objects.interpreter s) in Htr.
  destruct (sample (Float s0) lbl_f (Objects.interpreter s)) as [[tf wt] | e] eqn:Etr;
    unfold Objects.makes in Htr.
  2: { rewrite (pbind_raise _ _ _ _ _ Htr), (bind_raise _ Etr).
       apply follows_raise, Ea. }
  rewrite (pbind_ok _ _ _ _ _ Htr), (bind_ok _ Etr).
  set (sb := {| Objects.heap := Objects.heap sa ++ [tf]; Objects.interpreter := wt |}).
  assert (Eb : Objects.extends sa sb) by apply alloc_extends.
  assert (Pt : Objects.points sb (length (Objects.heap sa)) tf) by apply alloc_points.
  pose proof (points_extends _ _ _ _ Eb Pl) as Pl_b.
  rewrite (pbind_ok _ _ _ _ _ (frame_index_reads _ _ sb Pt)).
  (* lbl_val_and_test_df = lbl_df.drop(lbl_train_df.index) *)
  pose proof (frame_drop_makes _ (index tf) _ sb Pl_b) as Hdr.
  change (Objects.interpreter sb) with wt in Hdr. unfold lift in Hdr at 1.
  destruct (drop lbl_f (index tf)) as [rest |e] eqn:Edr; unfold Objects.makes in Hdr.
  2: { rewrite (pbind_raise _ _ _ _ _ Hdr), (bind_lift_raise _ _ eq_refl).
       apply follows_raise. eapply extends_trans; eassumption. }
  rewrite (pbind_ok _ _ _ _ _ Hdr), (bind_lift_ok _ _ eq_refl).
  set (sc := {| Objects.heap := Objects.heap sb ++ [rest]; Objects.interpreter := wt |}).
  assert (Ec : Objects.extends sb sc) by apply alloc_extends.
  assert (Pr : Objects.points sc (length (Objects.heap sb)) rest) by apply alloc_points.
  (* the fraction of the test draw *)
  destruct (truediv s2 (add s1 s2)) as [frac | e] eqn:Efr.
  2: { rewrite (bind_lift_raise _ _ eq_refl).
       rewrite (pbind_raise _ _ sc sc e) by reflexivity.
       apply follows_raise.
       eapply extends_trans; [| exact Ec].
       eapply extends_trans; eassumption. }
  rewrite (bind_lift_ok _ _ eq_refl).
  rewrite (pbind_ok _ _ sc sc frac) by reflexivity.
  (* lbl_test_df = lbl_val_and_test_df.sample(frac=...) *)
  pose proof (frame_sample_makes (Float frac) _ _ sc Pr) as Hte.
  change (Objects.interpreter sc) with wt in Hte.
  destruct (sample (Float frac) rest wt) as [[ef we] | e] eqn:Ete;
    unfold Objects.makes in Hte.
  2: { rewrite (pbind_raise _ _ _ _ _ Hte), (bind_raise _ Ete).
       apply follows_raise.
       eapply extends_trans; [| exact Ec].
       eapply extends_trans; eassumption. }
  rewrite (pbind_ok _ _ _ _ _ Hte), (bind_ok _ Ete).
  set (sd := {| Objects.heap := Objects.heap sc ++ [ef]; Objects.interpreter := we |}).
  assert (Ed : Objects.extends sc sd) by apply alloc_extends.
  assert (Pe : Objects.points sd (length (Objects.heap sc)) ef) by apply alloc_points.
  pose proof (points_extends _ _ _ _ Ed Pr) as Pr_d.
  rewrite (pbind_ok _ _ _ _ _ (frame_index_reads _ _ sd Pe)).
  (* lbl_val_df = lbl_val_and_test_df.drop(lbl_test_df.index) *)
  pose proof (frame_drop_makes _ (index ef) _ sd Pr_d) as Hva.
  change (Objects.interpreter sd) with we in Hva. unfold lift in Hva at 1.
  destruct (drop rest (index ef)) as [vf | e] eqn:Eva; unfold Objects.makes in Hva.
  2: { rewrite (pbind_raise _ _ _ _ _ Hva), (bind_lift_raise _ _ eq_refl).
       apply follows_raise.
       eapply extends_trans; [| exact Ed].
       eapply extends_trans; [| exact Ec].
       eapply extends_trans; eassumption. }
  rewrite (pbind_ok _ _ _ _ _ Hva), (bind_lift_ok _ _ eq_refl).
  set (se := {| Objects.heap := Objects.heap sd ++ [vf]; Objects.interpreter := we |}).
  assert (Ee : Objects.extends sd se) by apply alloc_extends.
  assert (Pv : Objects.points se (length (Objects.heap sd)) vf) by apply alloc_points.
  assert (Es : Objects.extends s se).
  { eapply extends_trans; [| exact Ee].
    eapply extends_trans; [| exact Ed].
    eapply extends_trans; [| exact Ec].
    eapply extends_trans; eassumption. }
  assert (Pl_e : Objects.points se (length (Objects.heap s)) lbl_f).
  { eapply points_extends; [| exact Pl].
    eapply extends_trans; [| exact Ee].
    eapply extends_trans; [| exact Ed].
    eapply extends_trans; eassumption. }
  assert (Pt_e : Objects.points se (length (Objects.heap sa)) tf).
  { eapply points_extends; [| exact Pt].
    eapply extends_trans; [| exact Ee].
    eapply extends_trans; eassumption. }
  assert (Pe_e : Objects.points se (length (Objects.heap sc)) ef)
    by exact (points_extends _ _ _ _ Ee Pe).
  (* the report *)
  set (line := {| log_label := lbl;
                  log_total := length (rows lbl_f);
                  log_train := length (rows tf);
                  log_val := length (rows vf);
                  log_test := length (rows ef) |}).
  set (wp := if verbose
             then {| np_random := np_random we;
                     stdout := stdout we ++ [line] |}
             else we).
  set (sf := {| Objects.heap := Objects.heap se; Objects.interpreter := wp |}).
  assert (Ef : Objects.extends se sf) by (exists []; symmetry; apply app_nil_r).
  match goal with
  | |- Objects.follows _ (Objects.pbind ?m ?k se) (bind ?pm ?pk we) =>
      assert (Hpr : m se = (Ok tt, sf));
      [| assert (Hpp : pm we = Ok (tt, wp))]
  end.
  { unfold sf, wp. destruct verbose.
    - rewrite (pbind_ok _ _ _ _ _ (frame_len_reads _ _ se Pl_e)).
      rewrite (pbind_ok _ _ _ _ _ (frame_len_reads _ _ se Pt_e)).
      rewrite (pbind_ok _ _ _ _ _ (frame_len_reads _ _ se Pv)).
      rewrite (pbind_ok _ _ _ _ _ (frame_len_reads _ _ se Pe_e)).
      reflexivity.
    - unfold Objects.pret, se. reflexivity. }
  { unfold wp. destruct verbose; [reflexivity |].
    unfold ret. reflexivity. }
  rewrite (pbind_ok _ _ _ _ _ Hpr), (bind_ok _ Hpp).
  (* the three appends *)
  assert (Q1 : Objects.points sf t1 a1).
  { eapply points_extends; [| exact H1].
    eapply extends_trans; eassumption. }
  assert (Q2 : Objects.points sf t2 a2).
  { eapply points_extends; [| exact H2].
    eapply extends_trans; eassumption. }
  assert (Q3 : Objects.points sf t3 a3).
  { eapply points_extends; [| exact H3].
    eapply extends_trans; eassumption. }
  pose proof (points_extends _ _ _ _ Ef Pt_e) as Pt_f.
  pose proof (points_extends _ _ _ _ Ef Pv) as Pv_f.
  pose proof (points_extends _ _ _ _ Ef Pe_e) as Pe_f.
  rewrite (pbind_ok _ _ _ _ _ (frame_append_makes _ _ _ _ sf Q1 Pt_f)).
  set (sg := {| Objects.heap := Objects.heap sf ++ [append a1 tf];
                Objects.interpreter := Objects.interpreter sf |}).
  assert (Eg : Objects.extends sf sg) by apply alloc_extends.
  assert (R1 : Objects.points sg (length (Objects.heap sf)) (append a1 tf))
    by apply alloc_points.
  rewrite (pbind_ok _ _ _ _ _
             (frame_append_makes _ _ _ _ sg
                (points_extends _ _ _ _ Eg Q2)
                (points_extends _ _ _ _ Eg Pv_f))).
  set (sh := {| Objects.heap := Objects.heap sg ++ [append a2 vf];
                Objects.interpreter := Objects.interpreter sg |}).
  assert (Eh : Objects.extends sg sh) by apply alloc_extends.
  assert (R2 : Objects.points sh (length (Objects.heap sg)) (append a2 vf))
    by apply alloc_points.
  assert (Egh : Objects.extends sf sh) by (eapply extends_trans; eassumption).
  rewrite (pbind_ok _ _ _ _ _
             (frame_append_makes _ _ _ _ sh
                (points_extends _ _ _ _ Egh Q3)
                (points_extends _ _ _ _ Egh Pe_f))).
  set (si := {| Objects.heap := Objects.heap sh ++ [append a3 ef];
                Objects.interpreter := Objects.interpreter sh |}).
  assert (Ei : Objects.extends sh si) by apply alloc_extends.
  assert (R3 : Objects.points si (length (Objects.heap sh)) (append a3 ef))
    by apply alloc_points.
  unfold Objects.pret, ret. split.
  - cbn [snd]. eapply extends_trans; [exact Es |].
    eapply extends_trans; [exact Ef |].
    eapply extends_trans; [exact Egh |]. exact Ei.
  - exists (length (Objects.heap sf)), (length (Objects.heap sg)), (length (Objects.heap sh)).
    cbn [fst snd]. split; [reflexivity |]. split; [reflexivity |].
    split; [| split].
    + eapply points_extends; [| exact R1].
      eapply extends_trans; eassumption.
    + eapply points_extends; eassumption.
    + exact R3.
Qed.

Lemma follows_extends (s s1 : Objects.Store)
  (run : Result Objects.Refs * Objects.Store)
  (pure : Result (Frames * World)) :
  Objects.extends s s1 -> Objects.follows s1 run pure ->
  Objects.follows s run pure.
Proof.
  intros E [E1 H]. split; [| exact H]. eapply extends_trans; eassumption.
Qed.

Lemma extends_length (s s' : Objects.Store) :
  Objects.extends s s' ->
  (length (Objects.heap s) <= length (Objects.heap s'))%nat.
Proof. intros [news H]. rewrite H, length_app. lia. Qed.

(** The loop. *)
Lemma for_labels_follows (df : Objects.Ref) (f : DataFrame)
  (label_column : string) (splits : Splits) (verbose : bool)
  (labels : list (option string)) :
  forall (t1 t2 t3 : Objects.Ref) (a1 a2 a3 : DataFrame) (s : Objects.Store),
    Objects.points s df f ->
    Objects.points s t1 a1 -> Objects.points s t2 a2 ->
    Objects.points s t3 a3 ->
    Objects.follows s
      (Objects.for_labels df label_column splits verbose labels
         (t1, t2, t3) s)
      (for_labels f label_column splits verbose labels (a1, a2, a3)
         (Objects.interpreter s)).
Proof.
  induction labels as [| lbl rest IH]; intros t1 t2 t3 a1 a2 a3 s Hdf H1 H2 H3.
  - split; [apply extends_refl |]. exists t1, t2, t3. auto.
  - cbn [Objects.for_labels for_labels].
    pose proof (split_label_follows df f label_column splits verbose
                  t1 t2 t3 a1 a2 a3 lbl s Hdf H1 H2 H3) as [E Hstep].
    unfold Objects.pbind, bind.
    destruct (Objects.split_label df label_column splits verbose
                (t1, t2, t3) lbl s) as [res s1].
    cbn [fst snd] in E, Hstep.
    destruct (split_label f label_column splits verbose (a1, a2, a3) lbl
                (Objects.interpreter s)) as [[[[b1 b2] b3] w1] | e].
    + destruct Hstep as (r1 & r2 & r3 & -> & <- & P1 & P2 & P3).
      apply (follows_extends _ _ _ _ E).
      apply IH; [eapply points_extends; eassumption | assumption ..].
    + rewrite Hstep. apply follows_raise, E.
Qed.

(** The whole function: a call over the store follows the call over
    values, and the frames it returns are new objects. *)
Lemma split_follows (df : Objects.Ref) (f : DataFrame)
  (label_column : string) (splits : Splits) (verbose : bool)
  (s : Objects.Store) :
  Objects.points s df f ->
  let run :=
    Objects.split_to_train_val_test df label_column splits verbose s in
  (Objects.follows s run
     (split_to_train_val_test f label_column splits verbose
        (Objects.interpreter s))) /\
  (forall r1 r2 r3,
     fst run = Ok (r1, r2, r3) ->
     (length (Objects.heap s) <= r1)%nat /\
     (length (Objects.heap s) <= r2)%nat /\
     (length (Objects.heap s) <= r3)%nat).
Proof.
  intros Hdf run. subst run.
  remember (Objects.split_to_train_val_test df label_column splits verbose s)
    as run eqn:Hrun.
  unfold Objects.split_to_train_val_test, Objects.new_frame in Hrun.
  unfold split_to_train_val_test.
  (* the three empty frames *)
  set (s1 := {| Objects.heap := Objects.heap s ++ [empty_frame];
                Objects.interpreter := Objects.interpreter s |}).
  rewrite (Objects_pbind_alloc _ _ s) in Hrun. fold s1 in Hrun.
  set (s2 := {| Objects.heap := Objects.heap s1 ++ [empty_frame];
                Objects.interpreter := Objects.interpreter s1 |}).
  rewrite (Objects_pbind_alloc _ _ s1) in Hrun. fold s2 in Hrun.
  set (s3 := {| Objects.heap := Objects.heap s2 ++ [empty_frame];
                Objects.interpreter := Objects.interpreter s2 |}).
  rewrite (Objects_pbind_alloc _ _ s2) in Hrun. fold s3 in Hrun.
  assert (E1 : Objects.extends s s1) by apply alloc_extends.
  assert (E2 : Objects.extends s1 s2) by apply alloc_extends.
  assert (E3 : Objects.extends s2 s3) by apply alloc_extends.
  assert (E03 : Objects.extends s s3)
    by (eapply extends_trans; [eapply extends_trans |]; eassumption).
  assert (P1 : Objects.points s3 (length (Objects.heap s)) empty_frame).
  { eapply points_extends; [| apply alloc_points].
    eapply extends_trans; eassumption. }
  assert (P2 : Objects.points s3 (length (Objects.heap s1)) empty_frame)
    by (eapply points_extends; [exact E3 | apply alloc_points]).
  assert (P3 : Objects.points s3 (length (Objects.heap s2)) empty_frame)
    by apply alloc_points.
  pose proof (points_extends _ _ _ _ E03 Hdf) as Hdf3.
  (* labels = df[label_column].unique() *)
  pose proof (frame_getitem_reads df label_column f s3 Hdf3) as Hcol.
  change (Objects.interpreter s) with (Objects.interpreter s3).
  destruct (getitem f label_column) as [col | e].
  2: { rewrite (pbind_raise _ _ _ _ _ Hcol) in Hrun.
       rewrite (bind_lift_raise _ _ eq_refl). subst run.
       split; [apply follows_raise, E03 | discriminate]. }
  rewrite (pbind_ok _ _ _ _ _ Hcol) in Hrun.
  rewrite (bind_lift_ok _ _ eq_refl).
  (* the loop *)
  pose proof (for_labels_follows df f label_column splits verbose
                (unique col) _ _ _ _ _ _ s3 Hdf3 P1 P2 P3) as [EL HL].
  destruct (Objects.for_labels df label_column splits verbose (unique col)
              _ s3) as [res s4] eqn:EFL.
  cbn [fst snd] in EL, HL.
  destruct (for_labels f label_column splits verbose (unique col) _
              (Objects.interpreter s3)) as [[[[b1 b2] b3] w4] | e] eqn:EPL.
  2: { subst res. rewrite (pbind_raise _ _ _ _ _ EFL) in Hrun.
       rewrite (bind_raise _ EPL). subst run.
       split; [| discriminate].
       apply follows_raise. eapply extends_trans; eassumption. }
  destruct HL as (r1 & r2 & r3 & -> & <- & Q1 & Q2 & Q3).
  rewrite (pbind_ok _ _ _ _ _ EFL) in Hrun. rewrite (bind_ok _ EPL).
  assert (E04 : Objects.extends s s4) by (eapply extends_trans; eassumption).
  (* the three shuffles *)
  pose proof (frame_sample_makes (Int 1) _ _ s4 Q1) as Htr.
  destruct (sample (Int 1) b1 (Objects.interpreter s4)) as [[o1 w5] | e]
    eqn:Etr; unfold Objects.makes in Htr.
  2: { rewrite (pbind_raise _ _ _ _ _ Htr) in Hrun.
       rewrite (bind_raise _ Etr). subst run.
       split; [apply follows_raise, E04 | discriminate]. }
  rewrite (pbind_ok _ _ _ _ _ Htr) in Hrun. rewrite (bind_ok _ Etr).
  set (s5 := {| Objects.heap := Objects.heap s4 ++ [o1];
                Objects.interpreter := w5 |}) in *.
  assert (E5 : Objects.extends s4 s5) by apply alloc_extends.
  assert (O1 : Objects.points s5 (length (Objects.heap s4)) o1)
    by apply alloc_points.
  pose proof (frame_sample_makes (Int 1) _ _ s5
                (points_extends _ _ _ _ E5 Q2)) as Hva.
  change (Objects.interpreter s5) with w5 in Hva.
  destruct (sample (Int 1) b2 w5) as [[o2 w6] | e] eqn:Eva;
    unfold Objects.makes in Hva.
  2: { rewrite (pbind_raise _ _ _ _ _ Hva) in Hrun.
       rewrite (bind_raise _ Eva). subst run.
       split; [| discriminate].
       apply follows_raise. eapply extends_trans; eassumption. }
  rewrite (pbind_ok _ _ _ _ _ Hva) in Hrun. rewrite (bind_ok _ Eva).
  set (s6 := {| Objects.heap := Objects.heap s5 ++ [o2];
                Objects.interpreter := w6 |}) in *.
  assert (E6 : Objects.extends s5 s6) by apply alloc_extends.
  assert (O2 : Objects.points s6 (length (Objects.heap s5)) o2)
    by apply alloc_points.
  assert (E46 : Objects.extends s4 s6)
    by (eapply extends_trans; eassumption).
  pose proof (frame_sample_makes (Int 1) _ _ s6
                (points_extends _ _ _ _ E46 Q3)) as Hte.
  change (Objects.interpreter s6) with w6 in Hte.
  destruct (sample (Int 1) b3 w6) as [[o3 w7] | e] eqn:Ete;
    unfold Objects.makes in Hte.
  2: { rewrite (pbind_raise _ _ _ _ _ Hte) in Hrun.
       rewrite (bind_raise _ Ete). subst run.
       split; [| discriminate].
       apply follows_raise.
       eapply extends_trans; [exact E04 | exact E46]. }
  rewrite (pbind_ok _ _ _ _ _ Hte) in Hrun. rewrite (bind_ok _ Ete).
  set (s7 := {| Objects.heap := Objects.heap s6 ++ [o3];
                Objects.interpreter := w7 |}) in *.
  assert (E7 : Objects.extends s6 s7) by apply alloc_extends.
  assert (O3 : Objects.points s7 (length (Objects.heap s6)) o3)
    by apply alloc_points.
  assert (E07 : Objects.extends s s7).
  { eapply extends_trans; [exact E04 |].
    eapply extends_trans; [exact E46 | exact E7]. }
  unfold Objects.pret in Hrun. unfold ret. subst run. cbn [fst snd]. split.
  - split; [exact E07 |].
    exists (length (Objects.heap s4)), (length (Objects.heap s5)),
      (length (Objects.heap s6)).
    cbn [fst snd]. split; [reflexivity |]. split; [reflexivity |].
    split; [| split].
    + exact (points_extends _ _ _ _ E7 (points_extends _ _ _ _ E6 O1)).
    + exact (points_extends _ _ _ _ E7 O2).
    + exact O3.
  - intros r1' r2' r3' H. injection H as <- <- <-.
    pose proof (extends_length _ _ E04).
    pose proof (extends_length _ _ E5).
    pose proof (extends_length _ _ E6).
    unfold s6, s5 in *. cbn [Objects.heap] in *.
    rewrite !length_app in *. cbn [length] in *. lia.
Qed.

(** The store can change an object: reindexing in place replaces the
    frame of the reference it is called on, and of no other. *)
Lemma store_at_same (r : Objects.Ref) (f g : DataFrame)
  (objects : list DataFrame) :
  nth_error objects r = Some g ->
  nth_error (Objects.store_at r f objects) r = Some f.
Proof.
  revert r. induction objects as [| o rest IH]; intros [| r] H;
    try discriminate; simpl in *; [reflexivity | apply IH, H].
Qed.

Lemma store_at_other (r r' : Objects.Ref) (f : DataFrame)
  (objects : list DataFrame) :
  r' <> r ->
  nth_error (Objects.store_at r f objects) r' = nth_error objects r'.
Proof.
  revert r r'. induction objects as [| o rest IH]; intros [| r] [| r'] H;
    simpl; try reflexivity; [contradiction | apply IH; congruence].
Qed.

Lemma frame_reset_index_inplace_writes (s : Objects.Store)
  (r : Objects.Ref) (f : DataFrame) :
  Objects.points s r f ->
  let s' := snd (Objects.frame_reset_index_inplace r s) in
  Objects.points s' r (frame_reset_index f) /\
  (forall r' g, r' <> r -> Objects.points s r' g -> Objects.points s' r' g).
Proof.
  intros H s'. unfold s', Objects.frame_reset_index_inplace, Objects.pbind,
    Objects.read, Objects.write, Objects.points in *. simpl.
  rewrite (points_nth s r f H). split.
  - exact (store_at_same r _ f _ H).
  - intros r' g Hne Hg. rewrite store_at_other by exact Hne. exact Hg.
Qed.

End ObjectFacts.

(** C8. The call has no effect on its input. Over a store of objects,
    where the input is an object [df] others may refer to: after the
    call, whether it returns or raises, [df] still points to the frame it
    pointed to (same columns, same rows, same order), and so does every
    other object that existed before. When the call returns, the three
    frames returned are new objects, so that none is the input and a
    later change of one of them cannot reach it; they are the frames
    that the function computes from the value of the input, every row in
    them is a row of the input, with the index label and all the cells it
    has there, and without [verbose] nothing is printed. *)
Theorem split_no_side_effects (s : Objects.Store) (df : Objects.Ref)
  (f : DataFrame) (label_column : string) (splits : Splits)
  (verbose : bool) :
  Objects.points s df f ->
  let run :=
    Objects.split_to_train_val_test df label_column splits verbose s in
  let s' := snd run in
  Objects.points s' df f /\
  (forall r g, Objects.points s r g -> Objects.points s' r g) /\
  match fst run with
  | Ok (tr, va, te) =>
      exists ftr fva fte,
        Objects.points s' tr ftr /\ Objects.points s' va fva /\
        Objects.points s' te fte /\
        (length (Objects.heap s) <= tr)%nat /\
        (length (Objects.heap s) <= va)%nat /\
        (length (Objects.heap s) <= te)%nat /\
        tr <> df /\ va <> df /\ te <> df /\
        split_to_train_val_test f label_column splits verbose
          (Objects.interpreter s) =
          Ok ((ftr, fva, fte), Objects.interpreter s') /\
        (forall r, In r (rows ftr) \/ In r (rows fva) \/ In r (rows fte) ->
                   In r (rows f)) /\
        (verbose = false ->
         stdout (Objects.interpreter s') = stdout (Objects.interpreter s))
  | Raise e =>
      split_to_train_val_test f label_column splits verbose
        (Objects.interpreter s) = Raise e
  end.
Proof.
  intros Hdf run s'.
  destruct (split_follows df f label_column splits verbose s Hdf)
    as [[Hext Hrun] Hnew].
  fold run in Hext, Hrun, Hnew. fold s' in Hext, Hrun.
  split; [exact (points_extends _ _ _ _ Hext Hdf) |].
  split; [intros r g Hr; exact (points_extends _ _ _ _ Hext Hr) |].
  destruct (split_to_train_val_test f label_column splits verbose
              (Objects.interpreter s)) as [[[[ftr fva] fte] w'] | e] eqn:Hpure.
  - destruct Hrun as (tr & va & te & Hres & Hw & Ptr & Pva & Pte).
    rewrite Hres. exists ftr, fva, fte.
    destruct (Hnew tr va te Hres) as (Ntr & Nva & Nte).
    pose proof (points_bound _ _ _ Hdf) as Hb.
    destruct (split_incl f label_column splits verbose _ _ _ Hpure)
      as [Hincl Hout].
    repeat (split; [first [assumption | lia] |]).
    split; [rewrite Hw; reflexivity |].
    split; [| rewrite Hw; exact Hout].
    intros r Hr. apply Hincl. unfold all_rows. simpl.
    rewrite !in_app_iff. exact Hr.
  - rewrite Hrun. reflexivity.
Qed.

Lemma split_no_side_effects_witness :
  Objects.points store_ab 0 df_ab /\
  let run :=
    Objects.split_to_train_val_test 0 "class_id" SPLIT_RATIOS false
      store_ab in
  let s' := snd run in
  Objects.points s' 0 df_ab /\
  (forall r g, Objects.points store_ab r g -> Objects.points s' r g) /\
  match fst run with
  | Ok (tr, va, te) =>
      exists ftr fva fte,
        Objects.points s' tr ftr /\ Objects.points s' va fva /\
        Objects.points s' te fte /\
        (length (Objects.heap store_ab) <= tr)%nat /\
        (length (Objects.heap store_ab) <= va)%nat /\
        (length (Objects.heap store_ab) <= te)%nat /\
        tr <> 0 /\ va <> 0 /\ te <> 0 /\
        split_to_train_val_test df_ab "class_id" SPLIT_RATIOS false
          (Objects.interpreter store_ab) =
          Ok ((ftr, fva, fte), Objects.interpreter s') /\
        (forall r, In r (rows ftr) \/ In r (rows fva) \/ In r (rows fte) ->
                   In r (rows df_ab)) /\
        (false = false ->
         stdout (Objects.interpreter s') =
         stdout (Objects.interpreter store_ab))
  | Raise e =>
      split_to_train_val_test df_ab "class_id" SPLIT_RATIOS false
        (Objects.interpreter store_ab) = Raise e
  end.
Proof.
  assert (H : Objects.points store_ab 0 df_ab) by reflexivity.
  split; [exact H |].
  exact (split_no_side_effects store_ab 0 df_ab "class_id" SPLIT_RATIOS
           false H).
Defined.

(** * Around the split: facts *)

(** ** The verbose flag only prints *)
Section VerboseFacts.

Lemma same_outcome_refl {A : Type} (m : M A) :
  reproducible m -> same_outcome m m.
Proof. intros H. exact H. Qed.

Lemma same_outcome_bind {A B : Type} (m1 m2 : M A) (k1 k2 : A -> M B) :
  same_outcome m1 m2 -> (forall a, same_outcome (k1 a) (k2 a)) ->
  same_outcome (bind m1 k1) (bind m2 k2).
Proof.
  intros Hm Hk w1 w2 H. unfold bind. specialize (Hm w1 w2 H).
  destruct (m1 w1) as [[a1 w1'] | e1], (m2 w2) as [[a2 w2'] | e2];
    simpl in Hm; try contradiction.
  - destruct Hm as [-> Hw]. apply Hk. exact Hw.
  - exact Hm.
Qed.

Lemma same_outcome_print_or_not (l : LogLine) (a b : bool) :
  same_outcome (if a then py_print l else ret tt)
               (if b then py_print l else ret tt).
Proof.
  intros w1 w2 H. destruct a, b; simpl; (split; [reflexivity | exact H]).
Qed.

Lemma same_outcome_split_label (df : DataFrame) (c : string)
  (splits : Splits) (v1 v2 : bool) (acc : Frames) (lbl : option string) :
  same_outcome (split_label df c splits v1 acc lbl)
               (split_label df c splits v2 acc lbl).
Proof.
  destruct splits as [[s0 s1] s2], acc as [[a1 a2] a3]. unfold split_label.
  apply same_outcome_bind; [apply reproducible_lift |]. intros col.
  apply same_outcome_bind; [apply reproducible_sample |]. intros t.
  apply same_outcome_bind; [apply reproducible_lift |]. intros vt.
  apply same_outcome_bind; [apply reproducible_lift |]. intros frac.
  apply same_outcome_bind; [apply reproducible_sample |]. intros e.
  apply same_outcome_bind; [apply reproducible_lift |]. intros v.
  apply same_outcome_bind; [apply same_outcome_print_or_not |].
  intros _. apply reproducible_ret.
Qed.

Lemma same_outcome_for_labels (df : DataFrame) (c : string)
  (splits : Splits) (v1 v2 : bool) (labels : list (option string)) :
  forall acc,
    same_outcome (for_labels df c splits v1 labels acc)
                 (for_labels df c splits v2 labels acc).
Proof.
  induction labels as [| l labels IH]; intros acc; simpl.
  - apply reproducible_ret.
  - apply same_outcome_bind; [apply same_outcome_split_label | exact IH].
Qed.

Lemma same_outcome_split (df : DataFrame) (c : string) (splits : Splits)
  (v1 v2 : bool) :
  same_outcome (split_to_train_val_test df c splits v1)
               (split_to_train_val_test df c splits v2).
Proof.
  unfold split_to_train_val_test.
  apply same_outcome_bind; [apply reproducible_lift |]. intros col.
  apply same_outcome_bind; [apply same_outcome_for_labels |].
  intros [[a1 a2] a3].
  apply same_outcome_bind; [apply reproducible_sample |]. intros tr.
  apply same_outcome_bind; [apply reproducible_sample |]. intros va.
  apply same_outcome_bind; [apply reproducible_sample |]. intros te.
  apply reproducible_ret.
Qed.

End VerboseFacts.

(** ** What the verbose report says, which rows are returned, columns *)

Section ReportFacts.

Variable df : DataFrame.
Variable label_column : string.
Variable splits : Splits.

Hypothesis label_column_present :
  existsb (String.eqb label_column) (columns df) = true.
Hypothesis index_distinct : NoDup (index df).

Lemma for_labels_stdout (labels : list (option string)) :
  forall (acc acc' : Frames) (w w' : World),
    for_labels df label_column splits true labels acc w = Ok (acc', w') ->
    stdout w' =
      (stdout w ++ flat_map (label_report df label_column splits) labels)%list.
Proof.
  induction labels as [| l labels IH]; intros acc acc' w w' H; simpl in H.
  - unfold ret in H. injection H as <- <-. simpl. rewrite app_nil_r.
    reflexivity.
  - apply bind_inv in H as (acc1 & w1 & Hstep & H).
    pose proof (split_label_spec df label_column splits true
                  label_column_present acc l w index_distinct) as Hb.
    cbv zeta in Hb. simpl. unfold label_report at 1.
    destruct (group_sizes splits (length (group df label_column l)))
      as [[[n1 n2] n3] | err]; [| congruence].
    destruct Hb as (t & v & e & rest & g' & Hrun & _).
    rewrite Hstep in Hrun. injection Hrun as -> ->.
    rewrite (IH _ _ _ _ H). simpl. rewrite <- app_assoc. reflexivity.
Qed.

Lemma label_report_label (l : option string) :
  forall line, In line (label_report df label_column splits l) ->
    log_label line = l /\
    log_total line = count_label label_column l (rows df) /\
    log_train line + log_val line + log_test line = log_total line /\
    group_sizes splits (count_label label_column l (rows df)) =
      Ok (log_train line, log_val line, log_test line).
Proof.
  intros line. unfold label_report.
  change (length (group df label_column l))
    with (count_label label_column l (rows df)).
  destruct (group_sizes splits (count_label label_column l (rows df)))
    as [[[n1 n2] n3] | err] eqn:E; [| intros []].
  intros [<- | []]. simpl. repeat split.
  - eapply group_sizes_sum. exact E.
Qed.

Lemma has_some_label (r : Row) :
  In r (rows df) ->
  existsb (fun l => has_label label_column l r)
    (unique (map (cell label_column) (rows df)))
  = has_cell label_column r.
Proof.
  intros Hr. unfold has_cell.
  destruct (cell label_column r) as [x |] eqn:Hx.
  - apply existsb_exists. exists (Some x). split.
    + apply unique_In. rewrite <- Hx. apply in_map. exact Hr.
    + apply has_label_cell. exact Hx.
  - destruct (existsb (fun l => has_label label_column l r) _) eqn:E;
      [| reflexivity].
    apply existsb_exists in E. destruct E as (l & _ & Hl).
    unfold has_label in Hl. rewrite Hx in Hl. discriminate.
Qed.

Lemma filter_ext_in' {X : Type} (f g : X -> bool) (l : list X) :
  (forall x, In x l -> f x = g x) -> filter f l = filter g l.
Proof.
  induction l as [| x t IH]; simpl; intros H; [reflexivity |].
  rewrite (H x) by (left; reflexivity).
  rewrite IH by (intros y Hy; apply H; right; exact Hy). reflexivity.
Qed.

(** The groups of the unique labels are the rows that have a label. *)
Lemma groups_are_labelled_rows :
  Permutation
    (flat_map (group df label_column)
       (unique (map (cell label_column) (rows df))))
    (filter (has_cell label_column) (rows df)).
Proof.
  rewrite groups_perm by apply unique_NoDup.
  rewrite (filter_ext_in' _ (has_cell label_column)); [reflexivity |].
  intros r Hr. apply has_some_label. exact Hr.
Qed.

End ReportFacts.

Section ColumnFacts.

Lemma sample_columns (frac : Num) (f s : DataFrame) (w w' : World) :
  sample frac f w = Ok (s, w') -> columns s = columns f.
Proof.
  intros H. pose proof (sample_spec frac f w) as Hs.
  destruct (sample_size frac (length (rows f))); [| congruence].
  destruct Hs as (s0 & others & g' & Hrun & Hc & _).
  rewrite Hrun in H. injection H as <- <-. exact Hc.
Qed.

Lemma drop_columns (f f' : DataFrame) (labels : list Z) :
  drop f labels = Ok f' -> columns f' = columns f.
Proof.
  unfold drop. destruct (forallb _ labels); [| discriminate].
  intros H. injection H as <-. reflexivity.
Qed.

Lemma append_columns_empty (t : DataFrame) :
  columns (append empty_frame t) = columns t.
Proof. simpl. apply filter_all. intros c _. reflexivity. Qed.

Lemma append_columns_same (a t : DataFrame) :
  columns t = columns a -> columns (append a t) = columns a.
Proof.
  intros H. simpl. rewrite H, filter_none; [apply app_nil_r |].
  intros c Hc. apply negb_false_iff, existsb_exists.
  exists c. split; [exact Hc | apply String.eqb_refl].
Qed.

Lemma append_columns_ok (cols : list string) (a t : DataFrame) :
  columns_ok cols a -> columns t = cols -> columns (append a t) = cols.
Proof.
  intros [-> | Ha] Ht.
  - rewrite append_columns_empty. exact Ht.
  - rewrite append_columns_same; congruence.
Qed.

Variable df : DataFrame.
Variable label_column : string.
Variable splits : Splits.
Variable verbose : bool.

Lemma split_label_columns (acc acc' : Frames) (lbl : option string)
  (w w' : World) :
  split_label df label_column splits verbose acc lbl w = Ok (acc', w') ->
  columns_ok (columns df) (fst (fst acc)) ->
  columns_ok (columns df) (snd (fst acc)) ->
  columns_ok (columns df) (snd acc) ->
  columns (fst (fst acc')) = columns df /\
  columns (snd (fst acc')) = columns df /\
  columns (snd acc') = columns df.
Proof.
  destruct splits as [[s0 s1] s2], acc as [[a1 a2] a3].
  unfold split_label. intros H H1 H2 H3. simpl in H1, H2, H3.
  apply bind_inv in H as (col & w1 & Hcol & H).
  apply lift_inv in Hcol as [_ ->].
  apply bind_inv in H as (t & w1 & Ht & H). apply sample_columns in Ht.
  apply bind_inv in H as (vt & w2 & Hvt & H).
  apply lift_inv in Hvt as [Hvt ->]. apply drop_columns in Hvt.
  apply bind_inv in H as (frac & w2 & Hfrac & H).
  apply lift_inv in Hfrac as [_ ->].
  apply bind_inv in H as (e & w2 & He & H). apply sample_columns in He.
  apply bind_inv in H as (v & w3 & Hv & H).
  apply lift_inv in Hv as [Hv ->]. apply drop_columns in Hv.
  apply bind_inv in H as (u & w3 & _ & H).
  unfold ret in H. injection H as <- <-. simpl fst. simpl snd.
  simpl in Ht, Hvt.
  repeat split; apply append_columns_ok; try assumption; congruence.
Qed.

Lemma for_labels_columns (labels : list (option string)) :
  forall (acc acc' : Frames) (w w' : World),
    for_labels df label_column splits verbose labels acc w = Ok (acc', w') ->
    labels <> [] ->
    columns_ok (columns df) (fst (fst acc)) ->
    columns_ok (columns df) (snd (fst acc)) ->
    columns_ok (columns df) (snd acc) ->
    columns (fst (fst acc')) = columns df /\
    columns (snd (fst acc')) = columns df /\
    columns (snd acc') = columns df.
Proof.
  induction labels as [| l labels IH]; intros acc acc' w w' H Hne H1 H2 H3;
    [contradiction |].
  simpl in H. apply bind_inv in H as (acc1 & w1 & Hstep & H).
  destruct (split_label_columns _ _ _ _ _ Hstep H1 H2 H3) as (C1 & C2 & C3).
  destruct labels as [| l' labels'].
  - simpl in H. unfold ret in H. injection H as <- <-. auto.
  - apply (IH _ _ _ _ H); [discriminate | right | right | right]; assumption.
Qed.

End ColumnFacts.

(** The frames of a returning call have the columns of a frame with
    rows. *)
Lemma split_columns (df : DataFrame) (label_column : string)
  (splits : Splits) (verbose : bool) (w w' : World)
  (tr va te : DataFrame) :
  rows df <> [] ->
  split_to_train_val_test df label_column splits verbose w =
    Ok ((tr, va, te), w') ->
  columns tr = columns df /\ columns va = columns df /\
  columns te = columns df.
Proof.
  intros Hne Hrun. unfold split_to_train_val_test in Hrun.
  apply bind_inv in Hrun as (col & w1 & Hcol & Hrun).
  apply lift_inv in Hcol as [Hcol ->].
  assert (col = map (cell label_column) (rows df)) as ->.
  { unfold getitem in Hcol. destruct (existsb _ _); congruence. }
  apply bind_inv in Hrun as ([[a1 a2] a3] & w1 & Hloop & Hrun).
  apply for_labels_columns in Hloop as (C1 & C2 & C3);
    try (left; reflexivity).
  - apply bind_inv in Hrun as (tr' & w2 & Htr & Hrun).
    apply sample_columns in Htr.
    apply bind_inv in Hrun as (va' & w3 & Hva & Hrun).
    apply sample_columns in Hva.
    apply bind_inv in Hrun as (te' & w4 & Hte & Hrun).
    apply sample_columns in Hte.
    unfold ret in Hrun. injection Hrun as <- <- <- _.
    simpl in C1, C2, C3. repeat split; congruence.
  - destruct (rows df); [contradiction | discriminate].
Qed.


(** ** Splitting a path at "/" *)

Section SplitOnFacts.

Variable sep : Ascii.ascii.

Lemma split_on_nonempty (s : string) : split_on sep s <> [].
Proof.
  destruct s as [| c s]; simpl; [discriminate |].
  destruct (Ascii.eqb c sep); [discriminate |].
  destruct (split_on sep s); discriminate.
Qed.

Lemma split_on_lacks (s : string) :
  Forall (fun p => lacks sep p = true) (split_on sep s).
Proof.
  induction s as [| c s IH]; simpl.
  - repeat constructor.
  - destruct (Ascii.eqb c sep) eqn:E.
    + constructor; [reflexivity | exact IH].
    + destruct (split_on sep s) as [| p rest].
      * repeat constructor. simpl. rewrite E. reflexivity.
      * inversion IH as [| ? ? Hp Hrest]; subst.
        constructor; [| exact Hrest]. simpl. rewrite E, Hp. reflexivity.
Qed.

Lemma join_split_on (s : string) : join sep (split_on sep s) = s.
Proof.
  induction s as [| c s IH]; [reflexivity |].
  simpl. destruct (Ascii.eqb c sep) eqn:E.
  - apply Ascii.eqb_eq in E. subst c.
    pose proof (split_on_nonempty s) as Hne.
    destruct (split_on sep s) as [| p rest]; [contradiction |].
    simpl in *. rewrite IH. reflexivity.
  - pose proof (split_on_nonempty s) as Hne.
    destruct (split_on sep s) as [| p rest]; [contradiction |].
    destruct rest as [| q rest]; simpl in *; rewrite <- IH; reflexivity.
Qed.

Lemma join_cons (p : string) (rest : list string) :
  rest <> [] ->
  join sep (p :: rest) = (p ++ String sep (join sep rest))%string.
Proof. destruct rest; [contradiction | reflexivity]. Qed.

Lemma string_app_assoc (a b c : string) :
  ((a ++ b) ++ c = a ++ (b ++ c))%string.
Proof. induction a as [| x a IH]; simpl; [reflexivity | rewrite IH; reflexivity]. Qed.

(** A joined list is a directory part, empty or ending in the separator,
    followed by the last piece. *)
Lemma join_last (pieces : list string) :
  pieces <> [] ->
  exists dir,
    join sep pieces = (dir ++ last pieces EmptyString)%string /\
    (dir = EmptyString \/
     exists d, dir = (d ++ String sep EmptyString)%string).
Proof.
  induction pieces as [| p rest IH]; [contradiction |]. intros _.
  destruct rest as [| q rest].
  - exists EmptyString. split; [reflexivity | left; reflexivity].
  - destruct IH as (dir & Hjoin & Hdir); [discriminate |].
    rewrite join_cons by discriminate. rewrite Hjoin.
    change (last (p :: q :: rest) EmptyString)
      with (last (q :: rest) EmptyString).
    exists (p ++ String sep dir)%string. split.
    + rewrite string_app_assoc. reflexivity.
    + right. destruct Hdir as [-> | (d & ->)].
      * exists p. reflexivity.
      * exists (p ++ String sep d)%string.
        rewrite string_app_assoc. reflexivity.
Qed.

Lemma list_getitem_first {A : Type} (a : A) (l : list A) :
  list_getitem (a :: l) 0 = Return a.
Proof.
  unfold list_getitem. cbn [length]. rewrite Nat2Z.inj_succ.
  change (0 <? 0)%Z with false. cbv iota.
  replace ((0 <=? 0) && (0 <? Z.succ (Z.of_nat (length l))))%Z with true;
    [reflexivity |].
  symmetry. apply andb_true_iff. split; [reflexivity |].
  apply Z.ltb_lt. lia.
Qed.

Lemma list_getitem_last {A : Type} (l : list A) (d : A) :
  l <> [] -> list_getitem l (-1) = Return (last l d).
Proof.
  intros Hne. unfold list_getitem.
  change (-1 <? 0)%Z with true. cbv iota.
  assert (Hlen : (0 < length l)%nat)
    by (destruct l; [contradiction | simpl; lia]).
  replace ((0 <=? -1 + Z.of_nat (length l))
           && (-1 + Z.of_nat (length l) <? Z.of_nat (length l)))%Z
    with true
    by (symmetry; apply andb_true_iff; split;
        [apply Z.leb_le | apply Z.ltb_lt]; lia).
  replace (Z.to_nat (-1 + Z.of_nat (length l))) with (length l - 1)%nat
    by lia.
  destruct (@exists_last _ l Hne) as (init & x & ->).
  rewrite last_last, length_app. simpl.
  rewrite nth_error_app2 by lia.
  replace (length init + 1 - 1 - length init)%nat with 0%nat by lia.
  reflexivity.
Qed.

End SplitOnFacts.


(** ** Typed frames *)

Section TableFacts.

Lemma length_range_index (n : nat) : length (range_index n) = n.
Proof. unfold range_index. rewrite length_map, length_seq. reflexivity. Qed.

Lemma NoDup_range_index (n : nat) : NoDup (range_index n).
Proof.
  unfold range_index. apply Finite.Injective_map_NoDup; [| apply seq_NoDup].
  intros a b H. apply Nat2Z.inj. exact H.
Qed.

Lemma snd_combine {A B : Type} (a : list A) (b : list B) :
  length a = length b -> map snd (combine a b) = b.
Proof.
  revert b. induction a as [| x a IH]; intros [| y b] H; simpl in *;
    try discriminate; [reflexivity |].
  rewrite IH by lia. reflexivity.
Qed.

Lemma fst_combine {A B : Type} (a : list A) (b : list B) :
  length a = length b -> map fst (combine a b) = a.
Proof.
  revert b. induction a as [| x a IH]; intros [| y b] H; simpl in *;
    try discriminate; [reflexivity |].
  rewrite IH by lia. reflexivity.
Qed.

Lemma snd_range_indexed {A : Type} (l : list A) :
  map snd (range_indexed l) = l.
Proof.
  unfold range_indexed. apply snd_combine, length_range_index.
Qed.

Lemma fst_range_indexed {A : Type} (l : list A) :
  map fst (range_indexed l) = range_index (length l).
Proof.
  unfold range_indexed. apply fst_combine, length_range_index.
Qed.

Lemma length_range_indexed {A : Type} (l : list A) :
  length (range_indexed l) = length l.
Proof. rewrite <- (length_map snd), snd_range_indexed. reflexivity. Qed.

Lemma snd_mask_rows {A : Type} (keep : A -> bool) (t : Table A) :
  map snd (mask_rows keep t) = filter keep (map snd t).
Proof.
  unfold mask_rows. induction t as [| [i a] t IH]; simpl; [reflexivity |].
  destruct (keep a); simpl; rewrite IH; reflexivity.
Qed.

Lemma drop_duplicates_In (s : list Z) (v : Z) :
  In v (drop_duplicates s) <-> In v s.
Proof.
  induction s as [| u t IH]; simpl; [tauto |].
  rewrite filter_In, IH. split; [tauto |].
  intros [-> | H]; [tauto |].
  destruct (Z.eqb u v) eqn:E.
  - apply Z.eqb_eq in E. tauto.
  - right. split; [exact H | reflexivity].
Qed.

Lemma drop_duplicates_NoDup (s : list Z) : NoDup (drop_duplicates s).
Proof.
  induction s as [| u t IH]; simpl; constructor.
  - rewrite filter_In, Z.eqb_refl. intros [_ H]. discriminate.
  - apply NoDup_filter, IH.
Qed.

Lemma flat_map_flat_map {A B C : Type} (f : A -> list B) (g : B -> list C)
  (l : list A) :
  flat_map g (flat_map f l) = flat_map (fun a => flat_map g (f a)) l.
Proof.
  induction l as [| a l IH]; simpl; [reflexivity |].
  rewrite flat_map_app, IH. reflexivity.
Qed.

(** Grouping a list by the distinct values of a key rearranges it. *)
Lemma grouped_by_keys {A : Type} (key : A -> Z) (l : list A) (ks : list Z) :
  NoDup ks ->
  Permutation (flat_map (fun k => filter (fun a => Z.eqb (key a) k) l) ks)
    (filter (fun a => existsb (Z.eqb (key a)) ks) l).
Proof.
  induction 1 as [| k ks Hk _ IH]; simpl.
  - rewrite filter_none; [constructor | reflexivity].
  - rewrite IH. symmetry. apply filter_orb_disjoint.
    intros a _ Ha. apply Z.eqb_eq in Ha.
    destruct (existsb (Z.eqb (key a)) ks) eqn:E; [| reflexivity].
    apply existsb_exists in E. destruct E as (v & Hv & Hva).
    apply Z.eqb_eq in Hva. exfalso. apply Hk. congruence.
Qed.

Lemma grouped_by_all_keys {A : Type} (key : A -> Z) (l : list A) :
  Permutation
    (flat_map (fun k => filter (fun a => Z.eqb (key a) k) l)
       (drop_duplicates (map key l)))
    l.
Proof.
  rewrite grouped_by_keys by apply drop_duplicates_NoDup.
  rewrite filter_all; [reflexivity |].
  intros a Ha. apply existsb_exists. exists (key a). split.
  - apply drop_duplicates_In, in_map, Ha.
  - apply Z.eqb_refl.
Qed.

(** An inner join holds the matching pairs, in some order. *)
Lemma merge_pairs (left : Table ImageLine) (right : Table LabelLine) :
  Permutation (map snd (merge left right))
    (matching_pairs (map snd left) (map snd right)).
Proof.
  unfold merge, matching_pairs. rewrite snd_range_indexed.
  set (L := map snd left). set (R := map snd right).
  rewrite <- (Permutation_flat_map _ (grouped_by_all_keys image_pretty_name L))
    at 1.
  rewrite flat_map_flat_map.
  match goal with
  | |- Permutation ?a ?b => replace a with b; [reflexivity |]
  end.
  apply flat_map_ext. intros k.
  induction L as [| l L IH]; simpl; [reflexivity |].
  destruct (Z.eqb (image_pretty_name l) k) eqn:E; [| exact IH].
  apply Z.eqb_eq in E. subst k. simpl. rewrite IH. reflexivity.
Qed.

Lemma flat_map_length_le {A B : Type} (f : A -> list B) (l : list A)
  (n : nat) :
  (forall a, length (f a) <= n) -> length (flat_map f l) <= length l * n.
Proof.
  intros H. induction l as [| a l IH]; simpl; [lia |].
  rewrite length_app. specialize (H a). lia.
Qed.

Lemma matching_pairs_length (images : list ImageLine)
  (labels : list LabelLine) :
  length (matching_pairs images labels) <= length images * length labels.
Proof.
  apply flat_map_length_le. intros l. rewrite length_map.
  apply filter_length_le.
Qed.

Lemma matching_pairs_In (images : list ImageLine) (labels : list LabelLine)
  (m : MergedLine) :
  In m (matching_pairs images labels) <->
  In (image m) images /\
  exists r, In r labels /\
            labelled_pretty_name r = image_pretty_name (image m) /\
            orig_class_id r = merged_class_id m.
Proof.
  unfold matching_pairs. rewrite in_flat_map. split.
  - intros (l & Hl & Hm). apply in_map_iff in Hm as (r & <- & Hr).
    apply filter_In in Hr as [Hr Hk]. apply Z.eqb_eq in Hk. simpl.
    split; [exact Hl |]. exists r. auto.
  - intros (Hl & r & Hr & Hk & Hc). exists (image m). split; [exact Hl |].
    apply in_map_iff. exists r. split.
    + destruct m as [l c]. simpl in *. subst c. reflexivity.
    + apply filter_In. split; [exact Hr |]. apply Z.eqb_eq. exact Hk.
Qed.

Lemma matching_pairs_filter (keep : ImageLine -> bool)
  (images : list ImageLine) (labels : list LabelLine) :
  matching_pairs (filter keep images) labels =
  filter (fun m => keep (image m)) (matching_pairs images labels).
Proof.
  unfold matching_pairs. induction images as [| l images IH]; simpl;
    [reflexivity |].
  rewrite filter_app.
  destruct (keep l) eqn:E; simpl; rewrite IH.
  - f_equal. symmetry. apply filter_all. intros m Hm.
    apply in_map_iff in Hm as (r & <- & _). exact E.
  - match goal with
    | |- _ = (filter ?p ?a ++ _)%list => assert (Hnone : filter p a = [])
    end.
    { apply filter_none. intros m Hm.
      apply in_map_iff in Hm as (r & <- & _). exact E. }
    rewrite Hnone. reflexivity.
Qed.

Lemma filter_filter {A : Type} (p q : A -> bool) (l : list A) :
  filter p (filter q l) = filter (fun a => q a && p a) l.
Proof.
  induction l as [| a l IH]; simpl; [reflexivity |].
  destruct (q a); simpl; [destruct (p a) |]; rewrite IH; reflexivity.
Qed.

(** The rows of [full_df] are the wanted rows, in some order. *)
Lemma selected_wanted (SAMPLE_ONLY : bool) (CLASSES : list Z)
  (EXCLUDE : list string) (images : list ImageLine)
  (labels : list LabelLine) :
  Permutation (selected SAMPLE_ONLY CLASSES EXCLUDE images labels)
    (wanted SAMPLE_ONLY CLASSES EXCLUDE images labels).
Proof.
  unfold selected, wanted, wanted_line.
  pose proof (merge_pairs
                (range_indexed
                   (filter (fun l => negb (isin String.eqb (image_file_name l)
                                             EXCLUDE)) images))
                (range_indexed labels)) as H.
  rewrite !snd_range_indexed, matching_pairs_filter in H.
  destruct SAMPLE_ONLY.
  - rewrite (Permutation_filter _ _ _ H), filter_filter. reflexivity.
  - rewrite H. apply Permutation_refl'. apply filter_ext. intros m.
    rewrite andb_true_r. reflexivity.
Qed.

End TableFacts.


(** ** Class ids: sorting and numbering the classes *)

Section ClassIdFacts.

Lemma insert_sorted_perm (x : Z) (l : list Z) :
  Permutation (insert_sorted x l) (x :: l).
Proof.
  induction l as [| y t IH]; simpl; [reflexivity |].
  destruct (x <=? y)%Z; [reflexivity |].
  rewrite IH. apply perm_swap.
Qed.

Lemma sorted_perm (l : list Z) : Permutation (sorted l) l.
Proof.
  induction l as [| x t IH]; simpl; [constructor |].
  rewrite insert_sorted_perm, IH. reflexivity.
Qed.

Lemma insert_sorted_sorted (x : Z) (l : list Z) :
  StronglySorted Z.le l -> StronglySorted Z.le (insert_sorted x l).
Proof.
  induction 1 as [| y t Ht IH Hy]; simpl.
  - repeat constructor.
  - destruct (x <=? y)%Z eqn:E.
    + apply Z.leb_le in E. constructor.
      * constructor; assumption.
      * constructor; [exact E |].
        rewrite Forall_forall in *. intros z Hz. specialize (Hy z Hz). lia.
    + apply Z.leb_gt in E. constructor; [exact IH |].
      rewrite Forall_forall in *. intros z Hz.
      apply (Permutation_in z (insert_sorted_perm x t)) in Hz.
      destruct Hz as [<- | Hz]; [lia | apply Hy, Hz].
Qed.

Lemma sorted_sorted (l : list Z) : StronglySorted Z.le (sorted l).
Proof.
  induction l as [| x t IH]; simpl; [constructor |].
  apply insert_sorted_sorted, IH.
Qed.

Lemma dict_get_set (d : Dict) (k k' : Z) (v : string) :
  dict_get (dict_set d k v) k' =
  if Z.eqb k' k then Some v else dict_get d k'.
Proof.
  induction d as [| [k0 v0] d IH]; simpl.
  - reflexivity.
  - destruct (Z.eqb k k0) eqn:E; simpl.
    + apply Z.eqb_eq in E. subst k0. destruct (Z.eqb k' k); reflexivity.
    + rewrite IH. destruct (Z.eqb k' k0) eqn:E0; [| reflexivity].
      apply Z.eqb_eq in E0. subst k0.
      rewrite Z.eqb_sym, E. reflexivity.
Qed.

Lemma number_classes_other (cs : list Z) (i : Z) (d : Dict) (c : Z) :
  ~ In c cs -> dict_get (number_classes cs i d) c = dict_get d c.
Proof.
  revert i d. induction cs as [| a cs IH]; intros i d H; simpl;
    [reflexivity |].
  rewrite IH by (intros Hc; apply H; right; exact Hc).
  rewrite dict_get_set.
  destruct (Z.eqb c a) eqn:E; [| reflexivity].
  apply Z.eqb_eq in E. exfalso. apply H. left. congruence.
Qed.

(** In a sorted list of distinct classes each class is numbered, from
    [i] on, by how many classes are smaller. *)
Lemma number_classes_rank (cs : list Z) :
  StronglySorted Z.le cs -> NoDup cs ->
  forall (i : Z) (d : Dict) (c : Z),
    In c cs ->
    dict_get (number_classes cs i d) c =
    Some (str_int (i + Z.of_nat (class_rank cs c))).
Proof.
  induction 1 as [| a cs Hs IH Ha]; intros Hnd i d c Hc; [destruct Hc |].
  apply NoDup_cons_iff in Hnd as [Hna Hnd].
  rewrite Forall_forall in Ha. simpl. unfold class_rank. simpl.
  destruct Hc as [-> | Hc].
  - rewrite number_classes_other by exact Hna.
    rewrite dict_get_set, Z.eqb_refl, Z.ltb_irrefl.
    rewrite filter_none.
    + simpl. rewrite Z.add_0_r. reflexivity.
    + intros x Hx. apply Z.ltb_ge. apply Ha, Hx.
  - rewrite (IH Hnd (i + 1)%Z _ c Hc).
    assert (a < c)%Z.
    { specialize (Ha c Hc).
      assert (a <> c) by (intros ->; contradiction). lia. }
    replace (a <? c)%Z with true by (symmetry; apply Z.ltb_lt; assumption).
    unfold class_rank. simpl length. do 2 f_equal. lia.
Qed.

Lemma class_rank_perm (a b : list Z) (c : Z) :
  Permutation a b -> class_rank a c = class_rank b c.
Proof.
  intros H. unfold class_rank. apply Permutation_length, Permutation_filter, H.
Qed.

Lemma class_rank_lt (cs : list Z) (c : Z) :
  In c cs -> class_rank cs c < length cs.
Proof.
  unfold class_rank. induction cs as [| a cs IH]; intros Hc; [destruct Hc |].
  simpl. destruct Hc as [-> | Hc].
  - rewrite Z.ltb_irrefl.
    pose proof (filter_length_le (fun x => (x <? c)%Z) cs). lia.
  - specialize (IH Hc). destruct (a <? c)%Z; simpl; lia.
Qed.

(** The dict of the function: a class maps to [str] of one more than the
    number of smaller classes. *)
Lemma id_to_one_based_get (classes : list Z) (c : Z) :
  NoDup classes -> In c classes ->
  dict_get (number_classes (sorted classes) 1 []) c =
  Some (str_nat (1 + class_rank classes c)).
Proof.
  intros Hnd Hc.
  rewrite (number_classes_rank (sorted classes) (sorted_sorted classes)).
  - rewrite (class_rank_perm _ _ c (sorted_perm classes)).
    unfold str_nat. do 2 f_equal. lia.
  - apply (Permutation_NoDup (Permutation_sym (sorted_perm classes))), Hnd.
  - apply (Permutation_in c (Permutation_sym (sorted_perm classes))), Hc.
Qed.

Lemma get_class_name_directory (fn : string) :
  get_class_name fn = Return (directory_of fn).
Proof.
  unfold get_class_name, directory_of.
  pose proof (split_on_nonempty slash fn) as Hne.
  destruct (split_on slash fn) as [| name rest]; [contradiction |].
  apply list_getitem_first.
Qed.

Lemma apply_series_total {A B : Type} (f : A -> Outcome B) (g : A -> B)
  (s : list A) :
  (forall a, f a = Return (g a)) -> apply_series f s = Return (map g s).
Proof.
  intros H. induction s as [| a s IH]; simpl; [reflexivity |].
  rewrite H, IH. reflexivity.
Qed.

Lemma full_rows_map (t : Table MergedLine) (f : MergedLine -> option string)
  (g : MergedLine -> string) :
  full_rows t (map f (map snd t)) (map g (map snd t)) =
  map (fun p => full_row p (f (snd p)) (g (snd p))) t.
Proof.
  induction t as [| p t IH]; simpl; [reflexivity |].
  rewrite IH. reflexivity.
Qed.

End ClassIdFacts.

(** ** The frame that reaches the split *)

Section FullFrame.

Variable SAMPLE_ONLY : bool.
Variable CLASSES : list Z.
Variable EXCLUDE_IMAGE_LIST : list string.
Variable images : list ImageLine.
Variable image_class_labels : list LabelLine.

(** [full_df] as the split receives it. *)
Lemma build_full_df_spec (s : Session) :
  build_full_df SAMPLE_ONLY CLASSES EXCLUDE_IMAGE_LIST images
    image_class_labels s =
  Return
    (full_frame SAMPLE_ONLY CLASSES EXCLUDE_IMAGE_LIST images
       image_class_labels,
     {| random_state := random_state s;
        printed :=
          printed s ++
          subset_report SAMPLE_ONLY
            (length (selected SAMPLE_ONLY CLASSES EXCLUDE_IMAGE_LIST images
                       image_class_labels)) |}).
Proof.
  unfold full_frame.
  set (sel := selected SAMPLE_ONLY CLASSES EXCLUDE_IMAGE_LIST images
                image_class_labels).
  assert (Hrows : forall (t : Table MergedLine) (s1 : Session),
    map snd t = sel ->
    (let unique_classes :=
       drop_duplicates (map (fun p => merged_class_id (snd p)) t) in
     let id_to_one_based := number_classes (sorted unique_classes) 1 [] in
     let class_id :=
       map (fun p => dict_get id_to_one_based (merged_class_id (snd p))) t in
     let full_df := range_indexed (map snd t) in
     run_bind
       (run_lift
          (apply_series get_class_name
             (map (fun p => image_file_name (image (snd p))) full_df)))
       (fun class_name =>
          run_ret {| columns := full_columns;
                     rows := full_rows full_df class_id class_name |})) s1 =
    Return
      ({| columns := full_columns;
          rows := map (fun p => {| index_label := fst p;
                                   cells := expected_cells (classes_of sel)
                                              (snd p) |})
                    (range_indexed sel) |}, s1)).
  { intros t s1 Ht. cbv zeta. rewrite Ht.
    rewrite (apply_series_total _ directory_of)
      by apply get_class_name_directory.
    unfold run_bind, run_lift, run_ret. do 2 f_equal.
    rewrite <- (map_map snd (fun m => image_file_name (image m))).
    rewrite snd_range_indexed.
    rewrite <- (map_map snd merged_class_id), Ht. fold (classes_of sel).
    rewrite <- (map_map snd
                  (fun m => dict_get
                              (number_classes (sorted (classes_of sel)) 1 [])
                              (merged_class_id m))), Ht.
    rewrite (map_map (fun m => image_file_name (image m)) directory_of).
    rewrite <- (snd_range_indexed sel) at 2 3.
    rewrite (full_rows_map (range_indexed sel)
               (fun m => dict_get
                           (number_classes (sorted (classes_of sel)) 1 [])
                           (merged_class_id m))
               (fun m => directory_of (image_file_name (image m)))).
    f_equal. apply map_ext_in. intros [i m] Hp. unfold full_row. simpl.
    rewrite id_to_one_based_get.
    - reflexivity.
    - apply drop_duplicates_NoDup.
    - apply drop_duplicates_In, in_map.
      rewrite <- (snd_range_indexed sel).
      apply (in_map snd) in Hp. exact Hp. }
  unfold build_full_df, read_csv, reset_index.
  rewrite snd_mask_rows, snd_range_indexed.
  unfold sel at 3, subset_report. destruct SAMPLE_ONLY.
  - unfold run_bind at 1. unfold run_bind at 1. unfold print_text, run_ret.
    rewrite Hrows.
    + do 3 f_equal.
      rewrite <- (length_map snd), snd_mask_rows. reflexivity.
    + rewrite snd_mask_rows. reflexivity.
  - unfold run_bind at 1. unfold run_ret at 1.
    rewrite Hrows by reflexivity.
    rewrite app_nil_r. destruct s. reflexivity.
Qed.

End FullFrame.


(** ** [int(str(z))] *)

Section IntFacts.

Import Decimal Ascii.

Let su := DecimalString.NilEmpty.string_of_uint.

Lemma lstrip_digits (d : uint) : lstrip (su d) = su d.
Proof. destruct d; reflexivity. Qed.

Lemma rstrip_digits (d : uint) : rstrip (su d) = su d.
Proof.
  induction d as [| d IH | d IH | d IH | d IH | d IH | d IH | d IH | d IH
                  | d IH | d IH]; [reflexivity | ..];
    unfold su in *; simpl; rewrite IH;
    destruct (DecimalString.NilEmpty.string_of_uint d); reflexivity.
Qed.

Lemma digits_value_acc (d : uint) (acc : positive) (after_digit : bool) :
  after_digit = true \/ d <> Nil ->
  digits_value (Z.pos acc) after_digit (su d) =
  Some (Z.pos (Pos.of_uint_acc d acc)).
Proof.
  revert acc after_digit.
  induction d as [| d IH | d IH | d IH | d IH | d IH | d IH | d IH | d IH
                  | d IH | d IH]; intros acc b H;
    [destruct H as [-> | H]; [reflexivity | contradiction] | ..];
    match goal with
    | |- digits_value _ _ (su (?D d)) = Some (Z.pos ?r) =>
        let r' := eval cbn [Pos.of_uint_acc] in r in
        match r' with
        | Pos.of_uint_acc d ?acc' =>
            transitivity (digits_value (Z.pos acc') true (su d));
            [| exact (IH acc' true (or_introl eq_refl))]
        end
    end.
  - reflexivity.
  - change (digits_value (10 * Z.pos acc + 1) true (su d) =
            digits_value (Z.pos (1 + 10 * acc)) true (su d)).
    f_equal; lia.
  - change (digits_value (10 * Z.pos acc + 2) true (su d) =
            digits_value (Z.pos (2 + 10 * acc)) true (su d)).
    f_equal; lia.
  - change (digits_value (10 * Z.pos acc + 3) true (su d) =
            digits_value (Z.pos (3 + 10 * acc)) true (su d)).
    f_equal; lia.
  - change (digits_value (10 * Z.pos acc + 4) true (su d) =
            digits_value (Z.pos (4 + 10 * acc)) true (su d)).
    f_equal; lia.
  - change (digits_value (10 * Z.pos acc + 5) true (su d) =
            digits_value (Z.pos (5 + 10 * acc)) true (su d)).
    f_equal; lia.
  - change (digits_value (10 * Z.pos acc + 6) true (su d) =
            digits_value (Z.pos (6 + 10 * acc)) true (su d)).
    f_equal; lia.
  - change (digits_value (10 * Z.pos acc + 7) true (su d) =
            digits_value (Z.pos (7 + 10 * acc)) true (su d)).
    f_equal; lia.
  - change (digits_value (10 * Z.pos acc + 8) true (su d) =
            digits_value (Z.pos (8 + 10 * acc)) true (su d)).
    f_equal; lia.
  - change (digits_value (10 * Z.pos acc + 9) true (su d) =
            digits_value (Z.pos (9 + 10 * acc)) true (su d)).
    f_equal; lia.
Qed.

Lemma digits_value_zero (d : uint) (after_digit : bool) :
  after_digit = true \/ d <> Nil ->
  digits_value 0 after_digit (su d) = Some (Z.of_N (Pos.of_uint d)).
Proof.
  revert after_digit.
  induction d as [| d IH | d | d | d | d | d | d | d | d | d]; intros b H.
  - destruct H as [-> | H]; [reflexivity | contradiction].
  - exact (IH true (or_introl eq_refl)).
  - exact (digits_value_acc d 1 true (or_introl eq_refl)).
  - exact (digits_value_acc d 2 true (or_introl eq_refl)).
  - exact (digits_value_acc d 3 true (or_introl eq_refl)).
  - exact (digits_value_acc d 4 true (or_introl eq_refl)).
  - exact (digits_value_acc d 5 true (or_introl eq_refl)).
  - exact (digits_value_acc d 6 true (or_introl eq_refl)).
  - exact (digits_value_acc d 7 true (or_introl eq_refl)).
  - exact (digits_value_acc d 8 true (or_introl eq_refl)).
  - exact (digits_value_acc d 9 true (or_introl eq_refl)).
Qed.

Lemma digits_of_positive (p : positive) :
  digits_value 0 false (su (Pos.to_uint p)) = Some (Z.pos p).
Proof.
  rewrite digits_value_zero
    by (right; apply DecimalPos.Unsigned.to_uint_nonnil).
  rewrite DecimalPos.Unsigned.of_to. reflexivity.
Qed.

(** [int] reads back what [str] writes. *)
Lemma py_int_str_int (z : Z) : py_int (str_int z) = Return z.
Proof.
  unfold str_int, py_int. destruct z as [| p | p]; [reflexivity | |].
  - cbn [Z.to_int DecimalString.NilZero.string_of_int].
    pose proof (DecimalPos.Unsigned.to_uint_nonnil p) as Hnil.
    pose proof (digits_of_positive p) as Hd.
    assert (Hsu : DecimalString.NilZero.string_of_uint (Pos.to_uint p) =
                  su (Pos.to_uint p))
      by (destruct (Pos.to_uint p); [contradiction | reflexivity ..]).
    rewrite Hsu, lstrip_digits, rstrip_digits.
    destruct (Pos.to_uint p); [contradiction | ..];
      unfold su in *; cbn [DecimalString.NilEmpty.string_of_uint] in *;
      rewrite Hd; reflexivity.
  - cbn [Z.to_int DecimalString.NilZero.string_of_int].
    pose proof (DecimalPos.Unsigned.to_uint_nonnil p) as Hnil.
    pose proof (digits_of_positive p) as Hd.
    assert (Hsu : DecimalString.NilZero.string_of_uint (Pos.to_uint p) =
                  su (Pos.to_uint p))
      by (destruct (Pos.to_uint p); [contradiction | reflexivity ..]).
    rewrite Hsu.
    assert (Hstrip : rstrip (lstrip (String "-"%char (su (Pos.to_uint p)))) =
                     String "-"%char (su (Pos.to_uint p))).
    { change (lstrip (String "-"%char (su (Pos.to_uint p))))
        with (String "-"%char (su (Pos.to_uint p))).
      cbn [rstrip]. rewrite rstrip_digits.
      destruct (Pos.to_uint p); [contradiction | reflexivity ..]. }
    rewrite Hstrip. rewrite Hd. reflexivity.
Qed.

Lemma str_int_injective (a b : Z) : str_int a = str_int b -> a = b.
Proof.
  intros H. pose proof (py_int_str_int a) as Ha. rewrite H in Ha.
  rewrite py_int_str_int in Ha. congruence.
Qed.

End IntFacts.


(** ** The caller of the split *)

Section ResetFacts.

Lemma frame_reset_index_cells (df : DataFrame) :
  map cells (rows (frame_reset_index df)) = map cells (rows df).
Proof.
  unfold frame_reset_index. simpl. rewrite map_map. simpl.
  rewrite <- (map_map snd cells), snd_range_indexed. reflexivity.
Qed.

Lemma frame_reset_index_length (df : DataFrame) :
  length (rows (frame_reset_index df)) = length (rows df).
Proof.
  rewrite <- (length_map cells), frame_reset_index_cells, length_map.
  reflexivity.
Qed.

Lemma frame_reset_index_index (df : DataFrame) :
  index (frame_reset_index df) =
  range_index (length (rows (frame_reset_index df))).
Proof.
  rewrite frame_reset_index_length.
  unfold index, frame_reset_index. simpl. rewrite map_map. simpl.
  apply fst_range_indexed.
Qed.

Lemma count_label_by_cells (c : string) (v : option string) (rs : list Row) :
  count_label c v rs =
  length (filter (fun cs => value_eqb (assoc c cs) v) (map cells rs)).
Proof.
  unfold count_label. induction rs as [| r rs IH]; simpl; [reflexivity |].
  unfold has_label at 1, cell.
  destruct (value_eqb (assoc c (cells r)) v); simpl; rewrite IH;
    reflexivity.
Qed.

Lemma count_label_cells (c : string) (v : option string) (a b : list Row) :
  map cells a = map cells b -> count_label c v a = count_label c v b.
Proof. intros E. rewrite !count_label_by_cells, E. reflexivity. Qed.

Lemma classes_of_perm (a b : list MergedLine) :
  Permutation a b -> Permutation (classes_of a) (classes_of b).
Proof.
  intros H. unfold classes_of.
  apply NoDup_Permutation; try apply drop_duplicates_NoDup.
  intros c. rewrite !drop_duplicates_In.
  split; apply Permutation_in; [| symmetry]; apply Permutation_map, H.
Qed.

Lemma expected_cells_perm (a b : list MergedLine) (m : MergedLine) :
  Permutation a b ->
  expected_cells (classes_of a) m = expected_cells (classes_of b) m.
Proof.
  intros H. unfold expected_cells.
  rewrite (class_rank_perm _ _ (merged_class_id m) (classes_of_perm a b H)).
  reflexivity.
Qed.

Lemma class_rank_mono (cs : list Z) (x y : Z) :
  (x <= y)%Z -> class_rank cs x <= class_rank cs y.
Proof.
  intros Hxy. unfold class_rank.
  induction cs as [| c cs IH]; simpl; [lia |].
  destruct (c <? x)%Z eqn:E1, (c <? y)%Z eqn:E2; simpl; lia.
Qed.

Lemma class_rank_strict (cs : list Z) (x y : Z) :
  In x cs -> (x < y)%Z -> class_rank cs x < class_rank cs y.
Proof.
  intros Hx Hxy. induction cs as [| c cs IH]; [destruct Hx |].
  assert (Hle : class_rank cs x <= class_rank cs y)
    by (apply class_rank_mono; lia).
  unfold class_rank in *. simpl.
  destruct Hx as [-> | Hx].
  - rewrite Z.ltb_irrefl.
    replace (x <? y)%Z with true by (symmetry; apply Z.ltb_lt; exact Hxy).
    simpl. lia.
  - specialize (IH Hx).
    destruct (c <? x)%Z eqn:E1, (c <? y)%Z eqn:E2; simpl; lia.
Qed.

(** Two of the classes with as many smaller classes are the same. *)
Lemma class_rank_injective (cs : list Z) (a b : Z) :
  In a cs -> In b cs -> class_rank cs a = class_rank cs b -> a = b.
Proof.
  intros Ha Hb E.
  destruct (Z.lt_trichotomy a b) as [Hlt | [Heq | Hgt]]; [| exact Heq |].
  - pose proof (class_rank_strict cs a b Ha Hlt). lia.
  - pose proof (class_rank_strict cs b a Hb Hgt). lia.
Qed.

End ResetFacts.

Section CallerFacts.

Variable SAMPLE_ONLY : bool.
Variable CLASSES : list Z.
Variable EXCLUDE_IMAGE_LIST : list string.
Variable images : list ImageLine.
Variable image_class_labels : list LabelLine.

Let sel : list MergedLine :=
  selected SAMPLE_ONLY CLASSES EXCLUDE_IMAGE_LIST images image_class_labels.

Let full : DataFrame :=
  full_frame SAMPLE_ONLY CLASSES EXCLUDE_IMAGE_LIST images
    image_class_labels.

Lemma full_frame_cells :
  map cells (rows full) = map (expected_cells (classes_of sel)) sel.
Proof.
  unfold full, full_frame. fold sel. simpl. rewrite map_map. simpl.
  rewrite <- (map_map snd (expected_cells (classes_of sel))).
  rewrite snd_range_indexed. reflexivity.
Qed.

Lemma full_frame_length : length (rows full) = length sel.
Proof.
  rewrite <- (length_map cells), full_frame_cells, length_map. reflexivity.
Qed.

Lemma full_frame_index : NoDup (index full).
Proof.
  unfold index, full, full_frame. fold sel. simpl. rewrite map_map. simpl.
  rewrite fst_range_indexed. apply NoDup_range_index.
Qed.

Lemma full_frame_row (r : Row) :
  In r (rows full) ->
  exists m, In m sel /\ cells r = expected_cells (classes_of sel) m.
Proof.
  intros Hr. apply (in_map cells) in Hr. rewrite full_frame_cells in Hr.
  apply in_map_iff in Hr as (m & Hm & Hin). exists m. auto.
Qed.

Lemma full_frame_labelled (r : Row) :
  In r (rows full) -> cell "class_id" r <> None.
Proof.
  intros Hr. destruct (full_frame_row r Hr) as (m & _ & Hc).
  unfold cell. rewrite Hc. discriminate.
Qed.

Lemma selected_length :
  length sel <= length images * length image_class_labels.
Proof.
  unfold sel. rewrite (Permutation_length (selected_wanted _ _ _ _ _)).
  unfold wanted.
  pose proof (filter_length_le
                (wanted_line SAMPLE_ONLY CLASSES EXCLUDE_IMAGE_LIST)
                (matching_pairs images image_class_labels)).
  pose proof (matching_pairs_length images image_class_labels). lia.
Qed.

Lemma split_ratios_in_range : fractions_in_range SPLIT_RATIOS = true.
Proof. vm_compute. reflexivity. Qed.

(** The function returns what the split makes of [full_df], each frame
    under a fresh index, and prints its reports around a silent split. *)
Lemma get_train_val_dataframes_spec (s : Session) :
  (Z.of_nat (length sel) < 2 ^ 53)%Z ->
  exists tr va te g',
    split_to_train_val_test full "class_id" SPLIT_RATIOS false
      {| np_random := random_state s; stdout := [] |} =
      Ok ((tr, va, te), {| np_random := g'; stdout := [] |}) /\
    get_train_val_dataframes SAMPLE_ONLY CLASSES EXCLUDE_IMAGE_LIST images
      image_class_labels s =
      Return
        ((frame_reset_index tr, frame_reset_index va, frame_reset_index te),
         {| random_state := g';
            printed :=
              printed s ++ subset_report SAMPLE_ONLY (length sel) ++
              size_report (length images)
                (frame_reset_index tr, frame_reset_index va,
                 frame_reset_index te) |}).
Proof.
  intros Hlen.
  destruct (split_returns full "class_id" SPLIT_RATIOS false
              {| np_random := random_state s; stdout := [] |})
    as ([[tr va] te] & [g' out'] & Hrun).
  - reflexivity.
  - apply full_frame_index.
  - apply split_ratios_in_range.
  - rewrite full_frame_length. exact Hlen.
  - pose proof (split_incl _ _ _ _ _ _ _ Hrun) as [_ Hout].
    specialize (Hout eq_refl). simpl in Hout. subst out'.
    exists tr, va, te, g'. split; [exact Hrun |].
    unfold get_train_val_dataframes.
    unfold run_bind at 1. rewrite build_full_df_spec. fold sel full.
    unfold run_bind at 1. unfold call. cbn [random_state printed].
    rewrite Hrun. cbn [np_random stdout map].
    unfold run_bind, print_text, run_ret, size_report.
    cbn [random_state printed].
    rewrite app_nil_r, <- !app_assoc. reflexivity.
Qed.

End CallerFacts.


Section CallerRuns.

Variable SAMPLE_ONLY : bool.
Variable CLASSES : list Z.
Variable EXCLUDE_IMAGE_LIST : list string.
Variable images : list ImageLine.
Variable image_class_labels : list LabelLine.

Let sel : list MergedLine :=
  selected SAMPLE_ONLY CLASSES EXCLUDE_IMAGE_LIST images image_class_labels.

Let full : DataFrame :=
  full_frame SAMPLE_ONLY CLASSES EXCLUDE_IMAGE_LIST images
    image_class_labels.

(** A run that returns is a run of the split on [full_df] that
    returns. *)
Lemma get_train_val_dataframes_inv (s s' : Session) (out : Frames) :
  get_train_val_dataframes SAMPLE_ONLY CLASSES EXCLUDE_IMAGE_LIST images
    image_class_labels s = Return (out, s') ->
  exists tr va te g',
    split_to_train_val_test full "class_id" SPLIT_RATIOS false
      {| np_random := random_state s; stdout := [] |} =
      Ok ((tr, va, te), {| np_random := g'; stdout := [] |}) /\
    out =
      (frame_reset_index tr, frame_reset_index va, frame_reset_index te) /\
    s' = {| random_state := g';
            printed :=
              printed s ++ subset_report SAMPLE_ONLY (length sel) ++
              size_report (length images) out |}.
Proof.
  unfold get_train_val_dataframes.
  unfold run_bind at 1. rewrite build_full_df_spec. fold sel full.
  unfold run_bind at 1. unfold call. cbn [random_state printed].
  destruct (split_to_train_val_test full "class_id" SPLIT_RATIOS false _)
    as [[[[tr va] te] [g' out']] | e] eqn:Hrun; [| discriminate].
  pose proof (split_incl _ _ _ _ _ _ _ Hrun) as [_ Hout].
  specialize (Hout eq_refl). simpl in Hout. subst out'.
  cbn [np_random stdout map].
  unfold run_bind, print_text, run_ret. cbn [random_state printed].
  intros H. injection H as <- <-.
  exists tr, va, te, g'. split; [reflexivity |]. split; [reflexivity |].
  unfold size_report. rewrite app_nil_r, <- !app_assoc. reflexivity.
Qed.

(** The split hands out every row of [full_df] once. *)
Lemma split_full_frame_rows (w w' : World) (tr va te : DataFrame) :
  split_to_train_val_test full "class_id" SPLIT_RATIOS false w =
    Ok ((tr, va, te), w') ->
  Permutation (rows tr ++ rows va ++ rows te) (rows full).
Proof.
  intros Hrun.
  pose proof (split_spec full "class_id" SPLIT_RATIOS false eq_refl w
                (full_frame_index _ _ _ _ _)) as Hs.
  cbv zeta in Hs. destruct (all_group_sizes SPLIT_RATIOS _); [| congruence].
  destruct Hs as (out & w1 & Hrun' & Hperm & _).
  rewrite Hrun in Hrun'. injection Hrun' as <- <-.
  rewrite groups_cover in Hperm by apply full_frame_labelled.
  exact Hperm.
Qed.

Lemma returned_cells (w w' : World) (tr va te : DataFrame) :
  split_to_train_val_test full "class_id" SPLIT_RATIOS false w =
    Ok ((tr, va, te), w') ->
  Permutation
    (map cells (rows (frame_reset_index tr) ++ rows (frame_reset_index va)
                ++ rows (frame_reset_index te)))
    (map (expected_cells (classes_of sel)) sel).
Proof.
  intros Hrun. rewrite !map_app, !frame_reset_index_cells, <- !map_app.
  rewrite (Permutation_map cells (split_full_frame_rows _ _ _ _ _ Hrun)).
  unfold full, sel. rewrite full_frame_cells. reflexivity.
Qed.

Lemma returned_cells_wanted (w w' : World) (tr va te : DataFrame) :
  split_to_train_val_test full "class_id" SPLIT_RATIOS false w =
    Ok ((tr, va, te), w') ->
  let rows_wanted :=
    wanted SAMPLE_ONLY CLASSES EXCLUDE_IMAGE_LIST images
      image_class_labels in
  Permutation
    (map cells (rows (frame_reset_index tr) ++ rows (frame_reset_index va)
                ++ rows (frame_reset_index te)))
    (map (expected_cells (classes_of rows_wanted)) rows_wanted).
Proof.
  intros Hrun W. rewrite (returned_cells _ _ _ _ _ Hrun).
  pose proof (selected_wanted SAMPLE_ONLY CLASSES EXCLUDE_IMAGE_LIST images
                image_class_labels) as Hsel. fold W sel in Hsel.
  rewrite (Permutation_map _ Hsel).
  apply Permutation_refl'. apply map_ext. intros m.
  apply expected_cells_perm, Hsel.
Qed.

(** In a row of [full_df], the class id tells the class. *)
Lemma class_id_test (m : MergedLine) (c : Z) :
  In m sel -> In c (classes_of sel) ->
  value_eqb (assoc "class_id" (expected_cells (classes_of sel) m))
    (Some (str_nat (1 + class_rank (classes_of sel) c))) =
  Z.eqb (merged_class_id m) c.
Proof.
  intros Hm Hc. unfold expected_cells. cbn [assoc String.eqb Ascii.eqb
    Bool.eqb andb value_eqb].
  destruct (Z.eqb_spec (merged_class_id m) c) as [-> | Hne].
  - apply String.eqb_refl.
  - apply String.eqb_neq. intros E. apply Hne.
    apply str_int_injective in E.
    apply (class_rank_injective (classes_of sel)).
    + apply drop_duplicates_In, in_map, Hm.
    + exact Hc.
    + lia.
Qed.

Lemma orig_class_id_test (m : MergedLine) (c : Z) :
  value_eqb (assoc "orig_class_id" (expected_cells (classes_of sel) m))
    (Some (str_int c)) =
  Z.eqb (merged_class_id m) c.
Proof.
  unfold expected_cells. cbn [assoc String.eqb Ascii.eqb Bool.eqb andb
    value_eqb].
  destruct (Z.eqb_spec (merged_class_id m) c) as [-> | Hne].
  - apply String.eqb_refl.
  - apply String.eqb_neq. intros E. apply Hne.
    apply str_int_injective in E. exact E.
Qed.

Lemma count_by_cells (c : string) (v : option string) (rs : list Row)
  (ms : list MergedLine) (cls : list Z) (p : MergedLine -> bool) :
  Permutation (map cells rs) (map (expected_cells cls) ms) ->
  (forall m, In m ms ->
     value_eqb (assoc c (expected_cells cls m)) v = p m) ->
  count_label c v rs = length (filter p ms).
Proof.
  intros Hperm Hp.
  rewrite count_label_by_cells,
    (Permutation_length (Permutation_filter _ _ _ Hperm)).
  clear Hperm. induction ms as [| m ms IH]; cbn [map filter];
    [reflexivity |].
  rewrite (Hp m) by (left; reflexivity).
  destruct (p m); cbn [length]; rewrite IH; try reflexivity;
    intros x Hx; apply Hp; right; exact Hx.
Qed.

(** The split of [full_df] applies the sizes of [group_sizes] to the
    rows of each class. *)
Lemma class_counts_of_split (w w' : World) (tr va te : DataFrame) (c : Z) :
  split_to_train_val_test full "class_id" SPLIT_RATIOS false w =
    Ok ((tr, va, te), w') ->
  let rows_wanted :=
    wanted SAMPLE_ONLY CLASSES EXCLUDE_IMAGE_LIST images
      image_class_labels in
  In c (classes_of rows_wanted) ->
  group_sizes SPLIT_RATIOS
    (length (filter (fun m => Z.eqb (merged_class_id m) c) rows_wanted)) =
  Ok (rows_with "orig_class_id" (str_int c) (rows (frame_reset_index tr)),
      rows_with "orig_class_id" (str_int c) (rows (frame_reset_index va)),
      rows_with "orig_class_id" (str_int c) (rows (frame_reset_index te))).
Proof.
  intros Hrun W Hc.
  pose proof (selected_wanted SAMPLE_ONLY CLASSES EXCLUDE_IMAGE_LIST images
                image_class_labels) as Hsel. fold W sel in Hsel.
  assert (Hc' : In c (classes_of sel))
    by (apply (Permutation_in c (Permutation_sym (classes_of_perm _ _ Hsel)));
        exact Hc).
  set (v := Some (str_nat (1 + class_rank (classes_of sel) c))).
  (* the rows of full_df with the class id of [c] are those of class [c] *)
  assert (Hfull : forall r, In r (rows full) ->
            has_label "class_id" v r =
            has_label "orig_class_id" (Some (str_int c)) r).
  { intros r Hr. destruct (full_frame_row _ _ _ _ _ r Hr) as (m & Hm & Hcells).
    unfold has_label, cell. rewrite Hcells. fold sel.
    unfold v. rewrite (class_id_test m c Hm Hc'), orig_class_id_test.
    reflexivity. }
  assert (Hgroup : length (group full "class_id" v) =
                   length (filter (fun m => Z.eqb (merged_class_id m) c) W)).
  { change (length (group full "class_id" v))
      with (count_label "class_id" v (rows full)).
    rewrite (count_by_cells "class_id" v (rows full) sel (classes_of sel)
               (fun m => Z.eqb (merged_class_id m) c)).
    - apply Permutation_length, Permutation_filter, Hsel.
    - unfold full, sel. rewrite full_frame_cells. reflexivity.
    - intros m Hm. apply class_id_test; assumption. }
  pose proof (split_spec full "class_id" SPLIT_RATIOS false eq_refl w
                (full_frame_index _ _ _ _ _)) as Hs.
  cbv zeta in Hs. destruct (all_group_sizes SPLIT_RATIOS _); [| congruence].
  destruct Hs as (out & w1 & Hrun' & _ & Hcounts & _).
  rewrite Hrun in Hrun'. injection Hrun' as <- <-.
  destruct (Hcounts v) as (sizes & Hsizes & Hcount).
  { unfold classes_of in Hc'. rewrite drop_duplicates_In in Hc'.
    apply in_map_iff in Hc' as (m & Hmc & Hm).
    apply unique_In.
    assert (Hcell : In (expected_cells (classes_of sel) m)
                      (map cells (rows full)))
      by (unfold full, sel; rewrite full_frame_cells; apply in_map, Hm).
    apply in_map_iff in Hcell as (r & Hcells & Hr).
    apply in_map_iff. exists r. split; [| exact Hr].
    unfold cell. rewrite Hcells. unfold v. rewrite <- Hmc. reflexivity. }
  rewrite <- Hgroup, Hsizes, <- Hcount. unfold counts, rows_with. simpl.
  pose proof (split_incl _ _ _ _ _ _ _ Hrun) as [Hincl _].
  unfold all_rows in Hincl. simpl in Hincl.
  assert (Hsame : forall f, incl (rows f) (rows full) ->
            count_label "class_id" v (rows f) =
            count_label "orig_class_id" (Some (str_int c))
              (rows (frame_reset_index f))).
  { intros f Hf.
    rewrite (count_label_cells "orig_class_id" _ _ (rows f)
               (frame_reset_index_cells f)).
    unfold count_label. f_equal. apply filter_ext_in'.
    intros r Hr. apply Hfull, Hf, Hr. }
  rewrite !Hsame; [reflexivity | ..];
    intros r Hr; apply Hincl; rewrite !in_app_iff; tauto.
Qed.

End CallerRuns.


(** ** Reading the frames *)

Section LocFacts.

Lemma loc_rows_from (rs : list Row) (k i : nat) :
  map index_label rs = map Z.of_nat (seq k (length rs)) ->
  filter (fun r => Z.eqb (index_label r) (Z.of_nat (k + i))) rs =
  match nth_error rs i with
  | Some r => [r]
  | None => []
  end.
Proof.
  revert k i. induction rs as [| r rs IH]; intros k i H.
  - destruct i; reflexivity.
  - simpl in H. injection H as Hr Hrs. cbn [filter].
    destruct i as [| i]; cbn [nth_error].
    + rewrite Nat.add_0_r, Hr, Z.eqb_refl. f_equal.
      apply filter_none. intros x Hx. apply Z.eqb_neq.
      apply (in_map index_label) in Hx. rewrite Hrs in Hx.
      apply in_map_iff in Hx as (j & <- & Hj). apply in_seq in Hj. lia.
    + replace (index_label r =? Z.of_nat (k + S i))%Z with false
        by (symmetry; apply Z.eqb_neq; lia).
      replace (k + S i) with (S k + i) by lia.
      apply IH. exact Hrs.
Qed.

(** In a frame indexed 0, 1, 2, ... a label selects the row at its
    position, and no row when it is out of range. *)
Lemma loc_rows_range (df : DataFrame) (label : Z) :
  index df = range_index (length (rows df)) ->
  loc_rows df label =
  if ((0 <=? label) && (label <? Z.of_nat (length (rows df))))%Z
  then match nth_error (rows df) (Z.to_nat label) with
       | Some r => [r]
       | None => []
       end
  else [].
Proof.
  intros H. unfold loc_rows.
  destruct ((0 <=? label) && (label <? Z.of_nat (length (rows df))))%Z
    eqn:E.
  - apply andb_true_iff in E as [E1 E2].
    apply Z.leb_le in E1.
    rewrite <- (loc_rows_from (rows df) 0 (Z.to_nat label) H).
    simpl. rewrite Z2Nat.id by exact E1. reflexivity.
  - apply filter_none. intros x Hx. apply Z.eqb_neq.
    apply (in_map index_label) in Hx. fold (index df) in Hx.
    rewrite H in Hx. apply in_map_iff in Hx as (j & <- & Hj).
    apply in_seq in Hj. apply andb_false_iff in E as [E | E].
    + apply Z.leb_gt in E. lia.
    + apply Z.ltb_ge in E. lia.
Qed.

Lemma frame_reset_index_columns (df : DataFrame) :
  columns (frame_reset_index df) = columns df.
Proof. reflexivity. Qed.


End LocFacts.

Section ReturnedFrames.

Variable SAMPLE_ONLY : bool.
Variable CLASSES : list Z.
Variable EXCLUDE_IMAGE_LIST : list string.
Variable images : list ImageLine.
Variable image_class_labels : list LabelLine.

Lemma returned_frames (s s' : Session) (tr va te f : DataFrame) :
  get_train_val_dataframes SAMPLE_ONLY CLASSES EXCLUDE_IMAGE_LIST images
    image_class_labels s = Return ((tr, va, te), s') ->
  In f [tr; va; te] ->
  returned_frame_like SAMPLE_ONLY CLASSES EXCLUDE_IMAGE_LIST images
    image_class_labels f.
Proof.
  intros Hrun Hf.
  apply get_train_val_dataframes_inv in Hrun
    as (tr0 & va0 & te0 & g' & Hsplit & Hout & _).
  injection Hout as -> -> ->.
  pose proof (returned_cells_wanted _ _ _ _ _ _ _ _ _ _ Hsplit) as Hp.
  cbv zeta in Hp.
  pose proof (split_full_frame_rows _ _ _ _ _ _ _ _ _ _ Hsplit) as Hrows.
  assert (Hcols : forall f0, In f0 [tr0; va0; te0] -> rows f0 <> [] ->
                             columns f0 = full_columns).
  { intros f0 Hf0 Hne.
    assert (Hfull : rows (full_frame SAMPLE_ONLY CLASSES EXCLUDE_IMAGE_LIST
                            images image_class_labels) <> []).
    { intros E. rewrite E in Hrows. apply Permutation_sym, Permutation_nil in Hrows.
      apply Hne. simpl in Hf0.
      destruct Hf0 as [<- | [<- | [<- | []]]];
        repeat (apply app_eq_nil in Hrows as [? Hrows]); assumption. }
    destruct (split_columns _ _ _ _ _ _ _ _ _ Hfull Hsplit) as (C1 & C2 & C3).
    simpl in Hf0. destruct Hf0 as [<- | [<- | [<- | []]]]; assumption. }
  assert (Hall : exists f0, In f0 [tr0; va0; te0] /\ f = frame_reset_index f0).
  { simpl in Hf. destruct Hf as [<- | [<- | [<- | []]]]; eexists;
      (split; [| reflexivity]); simpl; auto. }
  destruct Hall as (f0 & Hf0 & ->).
  split; [apply frame_reset_index_index |]. split.
  - intros Hne. rewrite frame_reset_index_columns. apply Hcols; [exact Hf0 |].
    intros E. apply Hne. apply length_zero_iff_nil.
    rewrite frame_reset_index_length, E. reflexivity.
  - intros r Hr. apply (in_map cells) in Hr.
    assert (Hin : In (cells r)
                    (map cells (rows (frame_reset_index tr0) ++
                                rows (frame_reset_index va0) ++
                                rows (frame_reset_index te0)))).
    { rewrite !map_app, !in_app_iff. simpl in Hf0.
      destruct Hf0 as [<- | [<- | [<- | []]]]; auto. }
    apply (Permutation_in _ Hp) in Hin.
    apply in_map_iff in Hin as (m & Hm & Hin). exists m. auto.
Qed.

End ReturnedFrames.


Section ReadFacts.

Local Open Scope list_scope.

Variable Image : Type.
Variable Confidence : Type.
Variable IMAGES_DIR : string.
Variable Image_open : string -> Outcome Image.
Variable convert_RGB : Image -> Outcome Image.
Variable predict_image : Image -> Outcome (Z * Confidence).
Variable class_name_list : list string.





Section Returned.

Variable SAMPLE_ONLY : bool.
Variable CLASSES : list Z.
Variable EXCLUDE_IMAGE_LIST : list string.
Variable images : list ImageLine.
Variable image_class_labels : list LabelLine.
Variable f : DataFrame.

Hypothesis f_returned :
  returned_frame_like SAMPLE_ONLY CLASSES EXCLUDE_IMAGE_LIST images
    image_class_labels f.

Let classes : list Z :=
  classes_of (wanted SAMPLE_ONLY CLASSES EXCLUDE_IMAGE_LIST images
                image_class_labels).

(** A row of a returned frame reads as a file name and a class number
    below the number of classes. *)
Lemma returned_row_reads (row : Row) :
  In row (rows f) ->
  exists name rank,
    row_getitem f row "image_file_name" = Return (Some name) /\
    cell "image_file_name" row = Some name /\
    (exists class_id,
       row_getitem f row "class_id" = Return (Some class_id) /\
       py_int class_id = Return (Z.of_nat rank + 1)%Z) /\
    zero_based_label row = Return (Z.of_nat rank) /\
    rank < length classes.
Proof.
  intros Hr. destruct f_returned as (_ & Hcols & Hcells).
  destruct (Hcells row Hr) as (m & Hm & Hc).
  assert (Hne : rows f <> []) by (intros E; rewrite E in Hr; destruct Hr).
  specialize (Hcols Hne).
  exists (image_file_name (image m)),
    (class_rank classes (merged_class_id m)).
  assert (Hint : py_int (str_nat (1 + class_rank classes (merged_class_id m)))
                 = Return (Z.of_nat (class_rank classes (merged_class_id m))
                           + 1)%Z).
  { unfold str_nat. rewrite py_int_str_int. f_equal. lia. }
  unfold row_getitem, zero_based_label, cell. rewrite Hcols, Hc.
  fold classes. cbn [full_columns existsb String.eqb Ascii.eqb Bool.eqb
                     orb andb assoc expected_cells int_of_cell].
  split; [reflexivity |]. split; [reflexivity |]. split.
  - eexists. split; [reflexivity | exact Hint].
  - rewrite Hint. split; [f_equal; lia |].
    apply class_rank_lt, drop_duplicates_In, in_map, Hm.
Qed.

(** In a returned frame a label in range selects its row, whose file and
    label are read; a label out of range is a [KeyError]. *)
Lemma file_and_label_returned (label : Z) :
  if ((0 <=? label) && (label <? Z.of_nat (length (rows f))))%Z
  then exists row name rank,
      nth_error (rows f) (Z.to_nat label) = Some row /\
      cell "image_file_name" row = Some name /\
      zero_based_label row = Return (Z.of_nat rank) /\
      rank < length classes /\
      file_and_label IMAGES_DIR f label =
        Return ((IMAGES_DIR ++ name)%string, Z.of_nat rank)
  else file_and_label IMAGES_DIR f label = Throw (Std KeyError).
Proof.
  pose proof f_returned as (Hidx & _).
  unfold file_and_label. rewrite (loc_rows_range f label Hidx).
  destruct ((0 <=? label) && (label <? Z.of_nat (length (rows f))))%Z eqn:E;
    [| reflexivity].
  apply andb_true_iff in E as [E1 E2].
  apply Z.leb_le in E1. apply Z.ltb_lt in E2.
  destruct (nth_error (rows f) (Z.to_nat label)) as [row |] eqn:Hn;
    [| apply nth_error_None in Hn; lia].
  destruct (returned_row_reads row (nth_error_In _ _ Hn))
    as (name & rank & Hname & Hcell & (c & Hc & Hint) & Hz & Hlt).
  exists row, name, rank. split; [reflexivity |].
  repeat (split; [assumption |]).
  rewrite Hname. cbn [and_then str_add]. rewrite Hc.
  cbn [and_then int_of_cell]. rewrite Hint. cbn [and_then].
  replace (Z.of_nat rank + 1 - 1)%Z with (Z.of_nat rank) by lia.
  reflexivity.
Qed.

End Returned.

(** [sample(n)]: it raises on a negative size and on a size above the
    number of rows; otherwise it returns [n] rows that, with the rows
    left out, are the frame's rows. *)
Lemma sample_n_spec (n : Z) (df : DataFrame) (w : World) :
  if ((n <? 0) || (Z.of_nat (length (rows df)) <? n))%Z
  then sample_n n df w = Raise ValueError
  else exists s others g',
      sample_n n df w = Ok (s, {| np_random := g'; stdout := stdout w |}) /\
      columns s = columns df /\
      length (rows s) = Z.to_nat n /\
      Permutation (rows s ++ others) (rows df).
Proof.
  unfold sample_n, bind, raise, with_np_random, ret.
  destruct (n <? 0)%Z eqn:Hneg; [reflexivity |].
  apply Z.ltb_ge in Hneg. cbn [orb].
  pose proof (choice_spec (length (rows df)) (Z.to_nat n) (np_random w)) as Hc.
  destruct (Z.of_nat (length (rows df)) <? n)%Z eqn:Hbig.
  - apply Z.ltb_lt in Hbig.
    replace (length (rows df) <? Z.to_nat n)%nat with true in Hc
      by (symmetry; apply Nat.ltb_lt; lia).
    rewrite Hc. reflexivity.
  - apply Z.ltb_ge in Hbig.
    replace (length (rows df) <? Z.to_nat n)%nat with false in Hc
      by (symmetry; apply Nat.ltb_ge; lia).
    destruct Hc as (locs & others & g' & -> & Hlen & Hp).
    exists (take df locs), (take_rows (rows df) others), g'.
    split; [reflexivity |]. split; [reflexivity |]. split.
    + simpl. rewrite length_take_rows; [exact Hlen |].
      eapply choice_positions; exact Hp.
    + simpl. apply take_rows_split. exact Hp.
Qed.







End ReadFacts.


(** ** S3 paths *)

Section S3Facts.

Import Ascii.

Lemma lazy_to_slash_bucket (bucket key : string) :
  lacks slash bucket = true -> lacks newline_char bucket = true ->
  lazy_to_slash (bucket ++ String slash key) =
  Some (String.length bucket + 1).
Proof.
  induction bucket as [| c bucket IH]; intros Hs Hn.
  - reflexivity.
  - cbn [lacks] in Hs, Hn.
    apply andb_true_iff in Hs as [Hc Hs].
    apply andb_true_iff in Hn as [Hd Hn].
    apply negb_true_iff in Hc, Hd.
    cbn [String.append lazy_to_slash].
    change (Ascii.eqb c "/"%char) with (Ascii.eqb c slash).
    rewrite Hc.
    change (Ascii.eqb c "010"%char) with (Ascii.eqb c newline_char).
    rewrite Hd, (IH Hs Hn). reflexivity.
Qed.

Lemma drop_chars_app (a b : string) :
  drop_chars (String.length a) (a ++ b) = b.
Proof. induction a as [| c a IH]; [destruct b |]; simpl; auto. Qed.

Lemma substring_prefix (a b : string) :
  substring 0 (String.length a) (a ++ b) = a.
Proof.
  induction a as [| c a IH]; simpl.
  - destruct b; reflexivity.
  - rewrite IH. reflexivity.
Qed.

Lemma drop_last_snoc (a : string) (c : Ascii.ascii) :
  drop_last (a ++ String c EmptyString) = a.
Proof.
  unfold drop_last.
  assert (H : String.length (a ++ String c EmptyString) - 1 = String.length a).
  { induction a as [| x a IH]; simpl in *; [reflexivity |].
    destruct (a ++ String c EmptyString)%string eqn:E.
    - destruct a; discriminate.
    - simpl in IH. simpl. lia. }
  rewrite H. apply substring_prefix.
Qed.

Lemma lazy_to_slash_none (s : string) :
  lacks slash s = true -> lazy_to_slash s = None.
Proof.
  induction s as [| c s IH]; intros H; [reflexivity |].
  cbn [lacks] in H. apply andb_true_iff in H as [Hc H].
  apply negb_true_iff in Hc. cbn [lazy_to_slash].
  change (Ascii.eqb c "/"%char) with (Ascii.eqb c slash).
  rewrite Hc, (IH H). destruct (Ascii.eqb c "010"%char); reflexivity.
Qed.

Lemma search_from_none (whole : string) (i : nat) (rest : string) :
  lacks slash rest = true -> search_from whole i rest = None.
Proof.
  revert i. induction rest as [| c rest IH]; intros i H.
  - cbn. destruct (after_s3 whole i); reflexivity.
  - cbn [search_from]. rewrite (lazy_to_slash_none _ H).
    cbn [lacks] in H. apply andb_true_iff in H as [_ H].
    destruct (after_s3 whole i); cbn [option_map]; apply IH, H.
Qed.

Lemma search_from_here (whole : string) (i n : nat) (rest : string) :
  after_s3 whole i = true -> lazy_to_slash rest = Some n ->
  search_from whole i rest = Some (i, i + n).
Proof.
  intros Ha Hl. destruct rest as [| c rest]; [discriminate |].
  cbn [search_from]. rewrite Ha, Hl. reflexivity.
Qed.

(** The lookbehind first holds right after a leading "s3://". *)
Lemma search_from_s3 (rest : string) (n : nat) :
  lazy_to_slash rest = Some n ->
  search_from ("s3://" ++ rest) 0 ("s3://" ++ rest) = Some (5, 5 + n).
Proof.
  intros H. cbn -[lazy_to_slash Nat.add].
  apply search_from_here; [destruct rest; reflexivity | exact H].
Qed.

Lemma search_from_s3_none (rest : string) :
  lacks slash rest = true ->
  search_from ("s3://" ++ rest) 0 ("s3://" ++ rest) = None.
Proof.
  intros H. cbn -[lazy_to_slash Nat.add]. apply search_from_none, H.
Qed.

Lemma append_slash (bucket key : string) :
  (bucket ++ String slash key)%string =
  ((bucket ++ String slash EmptyString) ++ key)%string.
Proof.
  induction bucket as [| c b IH]; simpl; [reflexivity |].
  rewrite IH. reflexivity.
Qed.

Lemma length_snoc (a : string) (c : ascii) :
  String.length (a ++ String c EmptyString) = String.length a + 1.
Proof. induction a as [| x a IH]; simpl; [reflexivity | rewrite IH; reflexivity]. Qed.

End S3Facts.

(** * Further properties of the notebook *)

(** ** The split *)

(** X1. The [verbose] flag only prints: from the same random state, a
    verbose call and a silent one raise the same exception or return the
    same three frames and leave the same random state, and the silent one
    prints nothing. *)
Theorem split_verbose_only_prints (df : DataFrame) (label_column : string)
  (splits : Splits) (w1 w2 : World) :
  np_random w1 = np_random w2 ->
  match split_to_train_val_test df label_column splits true w1,
        split_to_train_val_test df label_column splits false w2 with
  | Ok (out1, w1'), Ok (out2, w2') =>
      out1 = out2 /\ np_random w1' = np_random w2' /\ stdout w2' = stdout w2
  | Raise e1, Raise e2 => e1 = e2
  | _, _ => False
  end.
Proof.
  intros H.
  pose proof (same_outcome_split df label_column splits true false w1 w2 H)
    as Ha.
  unfold agree in Ha.
  destruct (split_to_train_val_test df label_column splits true w1)
    as [[out1 w1'] | e1];
    destruct (split_to_train_val_test df label_column splits false w2)
      as [[[[tr va] te] w2'] | e2] eqn:E2; try exact Ha.
  destruct Ha as [-> Hr]. split; [reflexivity |]. split; [exact Hr |].
  apply (split_incl df label_column splits false _ _ _ E2). reflexivity.
Qed.

Lemma split_verbose_only_prints_witness :
  match split_to_train_val_test df_ab "class_id" SPLIT_RATIOS true w0,
        split_to_train_val_test df_ab "class_id" SPLIT_RATIOS false w0 with
  | Ok (out1, w1'), Ok (out2, w2') =>
      out1 = out2 /\ np_random w1' = np_random w2' /\ stdout w2' = stdout w0
  | Raise e1, Raise e2 => e1 = e2
  | _, _ => False
  end.
Proof.
  apply (split_verbose_only_prints df_ab "class_id" SPLIT_RATIOS w0 w0).
  reflexivity.
Defined.

(** X2. Rows without a label are left out. On a frame with distinct index
    labels, the rows of the three frames returned are exactly the rows
    that have a value in the label column: a row whose label is NaN is in
    none of the three, and the three sizes add up to the number of
    labelled rows. *)
Theorem split_returns_labelled_rows (df : DataFrame) (label_column : string)
  (splits : Splits) (verbose : bool) (w w' : World)
  (tr va te : DataFrame) :
  NoDup (index df) ->
  split_to_train_val_test df label_column splits verbose w =
    Ok ((tr, va, te), w') ->
  Permutation (rows tr ++ rows va ++ rows te)
    (filter (has_cell label_column) (rows df)) /\
  (forall r, cell label_column r = None ->
             ~ In r (rows tr ++ rows va ++ rows te)) /\
  length (rows tr) + length (rows va) + length (rows te) =
    length (filter (has_cell label_column) (rows df)).
Proof.
  intros Hnd Hrun.
  destruct (existsb (String.eqb label_column) (columns df)) eqn:Hc;
    [| rewrite split_missing_column in Hrun by exact Hc; discriminate].
  pose proof (split_spec df label_column splits verbose Hc w Hnd) as Hs.
  cbv zeta in Hs. destruct (all_group_sizes splits _); [| congruence].
  destruct Hs as (out & w1 & Hrun' & Hperm & _).
  rewrite Hrun in Hrun'. injection Hrun' as <- <-.
  rewrite (groups_are_labelled_rows df label_column) in Hperm.
  unfold all_rows in Hperm. simpl in Hperm.
  split; [exact Hperm |]. split.
  - intros r Hr Hin. apply (Permutation_in r Hperm) in Hin.
    apply filter_In in Hin as [_ Hin]. unfold has_cell in Hin.
    rewrite Hr in Hin. discriminate.
  - apply Permutation_length in Hperm. rewrite !length_app in Hperm. lia.
Qed.

Lemma split_returns_labelled_rows_witness :
  exists tr va te w',
    split_to_train_val_test df_ab "class_id" SPLIT_RATIOS false w0 =
      Ok ((tr, va, te), w') /\
    Permutation (rows tr ++ rows va ++ rows te)
      (filter (has_cell "class_id") (rows df_ab)) /\
    (forall r, cell "class_id" r = None ->
               ~ In r (rows tr ++ rows va ++ rows te)) /\
    length (rows tr) + length (rows va) + length (rows te) =
      length (filter (has_cell "class_id") (rows df_ab)).
Proof.
  destruct (split_to_train_val_test df_ab "class_id" SPLIT_RATIOS false w0)
    as [[[[tr va] te] w'] | e] eqn:Hrun; [| vm_compute in Hrun; discriminate].
  exists tr, va, te, w'. split; [reflexivity |].
  apply (split_returns_labelled_rows df_ab "class_id" SPLIT_RATIOS false
           w0 w' tr va te).
  - apply distinct_NoDup. vm_compute. reflexivity.
  - exact Hrun.
Defined.

(** X3. The verbose report is true to the result. On a frame with
    distinct index labels, a returning verbose call prints one line per
    distinct label, in the order in which the labels first appear; the
    total of a line is the number of input rows of that label, its three
    sizes are the numbers of rows of that label in the train, validation
    and test frames returned, and they add up to the total. *)
Theorem split_verbose_report (df : DataFrame) (label_column : string)
  (splits : Splits) (w w' : World) (tr va te : DataFrame) :
  NoDup (index df) ->
  split_to_train_val_test df label_column splits true w =
    Ok ((tr, va, te), w') ->
  exists report,
    stdout w' = (stdout w ++ report)%list /\
    map log_label report = unique (map (cell label_column) (rows df)) /\
    forall line, In line report ->
      log_total line = count_label label_column (log_label line) (rows df) /\
      log_train line = count_label label_column (log_label line) (rows tr) /\
      log_val line = count_label label_column (log_label line) (rows va) /\
      log_test line = count_label label_column (log_label line) (rows te) /\
      log_train line + log_val line + log_test line = log_total line.
Proof.
  intros Hnd Hrun.
  destruct (existsb (String.eqb label_column) (columns df)) eqn:Hc;
    [| rewrite split_missing_column in Hrun by exact Hc; discriminate].
  pose proof (split_spec df label_column splits true Hc w Hnd) as Hs.
  cbv zeta in Hs. destruct (all_group_sizes splits _); [| congruence].
  destruct Hs as (out & w1 & Hrun' & _ & Hin & _).
  rewrite Hrun in Hrun'. injection Hrun' as <- <-.
  set (labels := unique (map (cell label_column) (rows df))) in *.
  exists (flat_map (label_report df label_column splits) labels).
  split; [| split].
  - unfold split_to_train_val_test in Hrun.
    apply bind_inv in Hrun as (col & w1 & Hcol & Hrun).
    apply lift_inv in Hcol as [Hcol ->].
    rewrite (getitem_present df label_column Hc) in Hcol.
    injection Hcol as <-. fold labels in Hrun.
    apply bind_inv in Hrun as ([[a1 a2] a3] & w1 & Hloop & Hrun).
    apply (for_labels_stdout df label_column splits Hc Hnd) in Hloop.
    apply bind_inv in Hrun as (tr' & w2 & Htr & Hrun).
    apply sample_incl in Htr as [_ Hw2].
    apply bind_inv in Hrun as (va' & w3 & Hva & Hrun).
    apply sample_incl in Hva as [_ Hw3].
    apply bind_inv in Hrun as (te' & w4 & Hte & Hrun).
    apply sample_incl in Hte as [_ Hw4].
    unfold ret in Hrun. injection Hrun as _ _ _ <-.
    rewrite Hw4, Hw3, Hw2. exact Hloop.
  - assert (Hall : forall l, In l labels ->
              exists s, group_sizes splits
                          (length (group df label_column l)) = Ok s).
    { intros l Hl. destruct (Hin l Hl) as (s & Hs & _). exists s. exact Hs. }
    clear - Hall. induction labels as [| l labels IH]; [reflexivity |].
    simpl. rewrite map_app, IH by (intros x Hx; apply Hall; right; exact Hx).
    destruct (Hall l (or_introl eq_refl)) as ([[n1 n2] n3] & Hs).
    unfold label_report. rewrite Hs. reflexivity.
  - intros line Hline. apply in_flat_map in Hline as (l & Hl & Hline).
    destruct (label_report_label df label_column splits l line Hline)
      as (Hlab & Htot & Hsum & Hsz).
    destruct (Hin l Hl) as (s & Hs & Hc').
    change (length (group df label_column l))
      with (count_label label_column l (rows df)) in Hs.
    rewrite Hsz in Hs. injection Hs as <-.
    unfold counts in Hc'. simpl in Hc'. injection Hc' as H1 H2 H3.
    rewrite Hlab. repeat split; congruence.
Qed.

Lemma split_verbose_report_witness :
  exists tr va te w' report,
    split_to_train_val_test df_ab "class_id" SPLIT_RATIOS true w0 =
      Ok ((tr, va, te), w') /\
    stdout w' = (stdout w0 ++ report)%list /\
    map log_label report = unique (map (cell "class_id") (rows df_ab)) /\
    forall line, In line report ->
      log_total line = count_label "class_id" (log_label line) (rows df_ab) /\
      log_train line = count_label "class_id" (log_label line) (rows tr) /\
      log_val line = count_label "class_id" (log_label line) (rows va) /\
      log_test line = count_label "class_id" (log_label line) (rows te) /\
      log_train line + log_val line + log_test line = log_total line.
Proof.
  destruct (split_to_train_val_test df_ab "class_id" SPLIT_RATIOS true w0)
    as [[[[tr va] te] w'] | e] eqn:Hrun; [| vm_compute in Hrun; discriminate].
  destruct (split_verbose_report df_ab "class_id" SPLIT_RATIOS w0 w'
              tr va te) as (report & H).
  - apply distinct_NoDup. vm_compute. reflexivity.
  - exact Hrun.
  - exists tr, va, te, w', report. split; [reflexivity | exact H].
Defined.

(** X4. The frames returned keep the columns of the input: when the input
    has at least one row, each of the three frames has the input's column
    names in the input's order (for an input without rows they are
    [pd.DataFrame()], without columns). *)
Theorem split_keeps_columns (df : DataFrame) (label_column : string)
  (splits : Splits) (verbose : bool) (w w' : World)
  (tr va te : DataFrame) :
  rows df <> [] ->
  split_to_train_val_test df label_column splits verbose w =
    Ok ((tr, va, te), w') ->
  columns tr = columns df /\ columns va = columns df /\
  columns te = columns df.
Proof.
  intros Hne Hrun.
  exact (split_columns df label_column splits verbose w w' tr va te Hne Hrun).
Qed.

Lemma split_keeps_columns_witness :
  exists tr va te w',
    split_to_train_val_test df_ab "class_id" SPLIT_RATIOS false w0 =
      Ok ((tr, va, te), w') /\
    columns tr = columns df_ab /\ columns va = columns df_ab /\
    columns te = columns df_ab.
Proof.
  destruct (split_to_train_val_test df_ab "class_id" SPLIT_RATIOS false w0)
    as [[[[tr va] te] w'] | e] eqn:Hrun; [| vm_compute in Hrun; discriminate].
  exists tr, va, te, w'. split; [reflexivity |].
  apply (split_keeps_columns df_ab "class_id" SPLIT_RATIOS false w0 w'
           tr va te).
  - discriminate.
  - exact Hrun.
Defined.


(** ** Paths *)

(** X5. [get_class_name] never raises. It returns the part of the file
    name before the first "/": the result holds no "/", and the file name
    is the result itself or the result, a "/" and a rest. *)
Theorem get_class_name_prefix (fn : string) :
  exists name,
    get_class_name fn = Return name /\
    lacks slash name = true /\
    (fn = name \/
     exists rest, fn = (name ++ String slash rest)%string).
Proof.
  unfold get_class_name.
  pose proof (split_on_nonempty slash fn) as Hne.
  pose proof (split_on_lacks slash fn) as Hl.
  pose proof (join_split_on slash fn) as Hj.
  destruct (split_on slash fn) as [| name rest]; [contradiction |].
  exists name. split; [apply list_getitem_first |].
  split; [exact (Forall_inv Hl) |].
  destruct rest as [| q rest].
  - left. symmetry. exact Hj.
  - right. exists (join slash (q :: rest)). symmetry. exact Hj.
Qed.

(** X6. [download] names its target by the part of the URL after its last
    "/": that name holds no "/", and the URL is a directory part (empty or
    ending in "/") followed by the name. Taking the name never raises.
    The only errors of [download] before the network call are those of
    [os.path.exists] on that name, and then nothing is fetched; when
    [os.path.exists] answers, [download] fetches the URL to that name
    once if no such file exists and fetches nothing if one does. *)
Theorem download_target (path_exists : string -> Outcome bool)
  (url : string) :
  exists filename dir,
    url = (dir ++ filename)%string /\
    (dir = EmptyString \/
     exists d, dir = (d ++ String slash EmptyString)%string) /\
    lacks slash filename = true /\
    list_getitem (split_on slash url) (-1) = Return filename /\
    download path_exists url =
      match path_exists filename with
      | Throw e => Throw e
      | Return true => Return []
      | Return false => Return [Urlretrieve url filename]
      end.
Proof.
  unfold download.
  pose proof (split_on_nonempty slash url) as Hne.
  pose proof (split_on_lacks slash url) as Hl.
  pose proof (join_split_on slash url) as Hj.
  destruct (join_last slash (split_on slash url) Hne) as (dir & Hd & Hdir).
  rewrite Hj in Hd.
  exists (last (split_on slash url) EmptyString), dir.
  split; [exact Hd |]. split; [exact Hdir |]. split.
  - rewrite Forall_forall in Hl. apply Hl.
    destruct (@exists_last _ (split_on slash url) Hne) as (init & x & ->).
    rewrite last_last. apply in_or_app. right. left. reflexivity.
  - rewrite (list_getitem_last (split_on slash url) EmptyString Hne).
    split; [reflexivity |].
    destruct (path_exists _) as [[|] | e]; reflexivity.
Qed.


(** ** The caller of the split *)

(** X7. Take an image file that [read_csv] parses to at least one line of
    an int id and a str file name, and a label file that it parses to at
    least one line of an int id and an int class (the product of the two
    line counts below 2^53). Then [get_train_val_dataframes] returns,
    whatever those lines, the class list, the exclusion list and the
    sample switch are, and each of the three frames it returns is indexed
    0, 1, 2, ... in order. Files that [read_csv] parses to other types (a
    file name read as NaN or as a number, on which [get_class_name]
    raises [AttributeError]) are not covered. *)
Theorem get_train_val_dataframes_returns (SAMPLE_ONLY : bool)
  (CLASSES : list Z) (EXCLUDE_IMAGE_LIST : list string)
  (images : list ImageLine) (image_class_labels : list LabelLine)
  (s : Session) :
  images <> [] ->
  image_class_labels <> [] ->
  (Z.of_nat (length images * length image_class_labels) < 2 ^ 53)%Z ->
  exists tr va te s',
    get_train_val_dataframes SAMPLE_ONLY CLASSES EXCLUDE_IMAGE_LIST images
      image_class_labels s = Return ((tr, va, te), s') /\
    index tr = range_index (length (rows tr)) /\
    index va = range_index (length (rows va)) /\
    index te = range_index (length (rows te)).
Proof.
  intros _ _ Hlen.
  destruct (get_train_val_dataframes_spec SAMPLE_ONLY CLASSES
              EXCLUDE_IMAGE_LIST images image_class_labels s)
    as (tr & va & te & g' & _ & Hrun).
  - pose proof (selected_length SAMPLE_ONLY CLASSES EXCLUDE_IMAGE_LIST
                  images image_class_labels). lia.
  - eexists _, _, _, _. split; [exact Hrun |].
    repeat split; apply frame_reset_index_index.
Qed.

Lemma get_train_val_dataframes_returns_witness :
  exists tr va te s',
    get_train_val_dataframes true notebook_CLASSES
      notebook_EXCLUDE_IMAGE_LIST birds_images birds_labels session0 =
      Return ((tr, va, te), s') /\
    index tr = range_index (length (rows tr)) /\
    index va = range_index (length (rows va)) /\
    index te = range_index (length (rows te)).
Proof.
  apply (get_train_val_dataframes_returns true notebook_CLASSES
           notebook_EXCLUDE_IMAGE_LIST birds_images birds_labels session0).
  - discriminate.
  - discriminate.
  - vm_compute. reflexivity.
Defined.

(** X8. The three frames [get_train_val_dataframes] returns hold, between
    them, one row for every pair of an image line and a label line with
    the same id whose file is not excluded and, when only a sample is
    used, whose class is in the class list; the row holds the file name,
    the class, [str] of one more than the number of smaller classes among
    those rows, and the part of the file name before its first "/". *)
Theorem get_train_val_dataframes_rows (SAMPLE_ONLY : bool)
  (CLASSES : list Z) (EXCLUDE_IMAGE_LIST : list string)
  (images : list ImageLine) (image_class_labels : list LabelLine)
  (s s' : Session) (tr va te : DataFrame) :
  get_train_val_dataframes SAMPLE_ONLY CLASSES EXCLUDE_IMAGE_LIST images
    image_class_labels s = Return ((tr, va, te), s') ->
  let rows_wanted :=
    wanted SAMPLE_ONLY CLASSES EXCLUDE_IMAGE_LIST images
      image_class_labels in
  Permutation (map cells (rows tr ++ rows va ++ rows te))
    (map (expected_cells (classes_of rows_wanted)) rows_wanted).
Proof.
  intros Hrun W.
  apply get_train_val_dataframes_inv in Hrun
    as (tr0 & va0 & te0 & g' & Hsplit & Hout & _).
  injection Hout as -> -> ->.
  exact (returned_cells_wanted _ _ _ _ _ _ _ _ _ _ Hsplit).
Qed.

Lemma get_train_val_dataframes_rows_witness :
  exists tr va te s',
    get_train_val_dataframes true notebook_CLASSES
      notebook_EXCLUDE_IMAGE_LIST birds_images birds_labels session0 =
      Return ((tr, va, te), s') /\
    Permutation (map cells (rows tr ++ rows va ++ rows te))
      (map (expected_cells
              (classes_of (wanted true notebook_CLASSES
                             notebook_EXCLUDE_IMAGE_LIST birds_images
                             birds_labels)))
         (wanted true notebook_CLASSES notebook_EXCLUDE_IMAGE_LIST
            birds_images birds_labels)).
Proof.
  destruct (get_train_val_dataframes true notebook_CLASSES
              notebook_EXCLUDE_IMAGE_LIST birds_images birds_labels session0)
    as [[[[tr va] te] s'] | e] eqn:Hrun; [| vm_compute in Hrun; discriminate].
  exists tr, va, te, s'. split; [reflexivity |].
  exact (get_train_val_dataframes_rows true notebook_CLASSES
           notebook_EXCLUDE_IMAGE_LIST birds_images birds_labels session0 s'
           tr va te Hrun).
Defined.

(** X9. Every row [get_train_val_dataframes] returns comes from an image
    line and a label line with the same id: it holds that file name, that
    class and the file name's directory as class name; the file is not
    in the exclusion list and, when only a sample is used, the class is
    in the class list. *)
Theorem get_train_val_dataframes_provenance (SAMPLE_ONLY : bool)
  (CLASSES : list Z) (EXCLUDE_IMAGE_LIST : list string)
  (images : list ImageLine) (image_class_labels : list LabelLine)
  (s s' : Session) (tr va te : DataFrame) (r : Row) :
  get_train_val_dataframes SAMPLE_ONLY CLASSES EXCLUDE_IMAGE_LIST images
    image_class_labels s = Return ((tr, va, te), s') ->
  In r (rows tr ++ rows va ++ rows te) ->
  exists l c,
    In l images /\ In c image_class_labels /\
    labelled_pretty_name c = image_pretty_name l /\
    cell "image_file_name" r = Some (image_file_name l) /\
    cell "orig_class_id" r = Some (str_int (orig_class_id c)) /\
    cell "class_name" r = Some (directory_of (image_file_name l)) /\
    ~ In (image_file_name l) EXCLUDE_IMAGE_LIST /\
    (SAMPLE_ONLY = true -> In (orig_class_id c) CLASSES).
Proof.
  intros Hrun Hr.
  apply get_train_val_dataframes_inv in Hrun
    as (tr0 & va0 & te0 & g' & Hsplit & Hout & _).
  injection Hout as -> -> ->.
  apply (in_map cells) in Hr.
  apply (Permutation_in _ (returned_cells _ _ _ _ _ _ _ _ _ _ Hsplit)) in Hr.
  apply in_map_iff in Hr as (m & Hcells & Hm).
  apply (Permutation_in _ (selected_wanted _ _ _ _ _)) in Hm.
  unfold wanted in Hm. apply filter_In in Hm as [Hm Hw].
  apply matching_pairs_In in Hm as (Hl & c & Hc & Hid & Hclass).
  unfold wanted_line in Hw. apply andb_true_iff in Hw as [Hex Hcl].
  exists (image m), c. unfold cell. rewrite <- Hcells, Hclass.
  repeat split; try assumption; try reflexivity.
  - intros Hin. apply negb_true_iff in Hex.
    assert (isin String.eqb (image_file_name (image m)) EXCLUDE_IMAGE_LIST
            = true); [| congruence].
    apply existsb_exists. eexists. split; [exact Hin |].
    apply String.eqb_refl.
  - intros ->. apply existsb_exists in Hcl as (x & Hx & E).
    apply Z.eqb_eq in E. congruence.
Qed.

Lemma get_train_val_dataframes_provenance_witness :
  exists tr va te s' r,
    get_train_val_dataframes true notebook_CLASSES
      notebook_EXCLUDE_IMAGE_LIST birds_images birds_labels session0 =
      Return ((tr, va, te), s') /\
    In r (rows tr ++ rows va ++ rows te) /\
    exists l c,
      In l birds_images /\ In c birds_labels /\
      labelled_pretty_name c = image_pretty_name l /\
      cell "image_file_name" r = Some (image_file_name l) /\
      cell "orig_class_id" r = Some (str_int (orig_class_id c)) /\
      cell "class_name" r = Some (directory_of (image_file_name l)) /\
      ~ In (image_file_name l) notebook_EXCLUDE_IMAGE_LIST /\
      (true = true -> In (orig_class_id c) notebook_CLASSES).
Proof.
  destruct (get_train_val_dataframes true notebook_CLASSES
              notebook_EXCLUDE_IMAGE_LIST birds_images birds_labels session0)
    as [[[[tr va] te] s'] | e] eqn:Hrun; [| vm_compute in Hrun; discriminate].
  assert (Hne : (rows tr ++ rows va ++ rows te)%list <> []).
  { vm_compute in Hrun. injection Hrun as <- <- <- _. discriminate. }
  remember (rows tr ++ rows va ++ rows te)%list as every eqn:Hrows.
  destruct every as [| r rest]; [contradiction |].
  exists tr, va, te, s', r. split; [reflexivity |].
  split; [rewrite <- Hrows; left; reflexivity |].
  apply (get_train_val_dataframes_provenance true notebook_CLASSES
           notebook_EXCLUDE_IMAGE_LIST birds_images birds_labels session0 s'
           tr va te r Hrun).
  rewrite <- Hrows. left. reflexivity.
Defined.

(** X10. In every row [get_train_val_dataframes] returns, [int] of the
    class id is one more than the number of smaller classes among the
    wanted rows: the zero-based label [int(class_id) - 1] that the data
    set classes compute is at least 0 and below the number of distinct
    classes. *)
Theorem get_train_val_dataframes_class_ids (SAMPLE_ONLY : bool)
  (CLASSES : list Z) (EXCLUDE_IMAGE_LIST : list string)
  (images : list ImageLine) (image_class_labels : list LabelLine)
  (s s' : Session) (tr va te : DataFrame) (r : Row) :
  get_train_val_dataframes SAMPLE_ONLY CLASSES EXCLUDE_IMAGE_LIST images
    image_class_labels s = Return ((tr, va, te), s') ->
  In r (rows tr ++ rows va ++ rows te) ->
  let classes :=
    classes_of (wanted SAMPLE_ONLY CLASSES EXCLUDE_IMAGE_LIST images
                  image_class_labels) in
  exists c class_id,
    In c classes /\
    cell "orig_class_id" r = Some (str_int c) /\
    cell "class_id" r = Some class_id /\
    py_int class_id = Return (Z.of_nat (class_rank classes c) + 1)%Z /\
    class_rank classes c < length classes.
Proof.
  intros Hrun Hr classes.
  apply get_train_val_dataframes_inv in Hrun
    as (tr0 & va0 & te0 & g' & Hsplit & Hout & _).
  injection Hout as -> -> ->.
  pose proof (returned_cells_wanted _ _ _ _ _ _ _ _ _ _ Hsplit) as Hp.
  cbv zeta in Hp. fold classes in Hp.
  apply (in_map cells) in Hr. apply (Permutation_in _ Hp) in Hr.
  apply in_map_iff in Hr as (m & Hcells & Hm).
  assert (Hc : In (merged_class_id m) classes)
    by (apply drop_duplicates_In, in_map, Hm).
  exists (merged_class_id m), (str_nat (1 + class_rank classes
                                            (merged_class_id m))).
  unfold cell. rewrite <- Hcells.
  split; [exact Hc |]. split; [reflexivity |]. split; [reflexivity |].
  split.
  - unfold str_nat. rewrite py_int_str_int. f_equal. lia.
  - apply class_rank_lt, Hc.
Qed.

Lemma get_train_val_dataframes_class_ids_witness :
  exists tr va te s' r,
    get_train_val_dataframes true notebook_CLASSES
      notebook_EXCLUDE_IMAGE_LIST birds_images birds_labels session0 =
      Return ((tr, va, te), s') /\
    In r (rows tr ++ rows va ++ rows te) /\
    exists c class_id,
      In c (classes_of (wanted true notebook_CLASSES
                          notebook_EXCLUDE_IMAGE_LIST birds_images
                          birds_labels)) /\
      cell "orig_class_id" r = Some (str_int c) /\
      cell "class_id" r = Some class_id /\
      py_int class_id =
        Return (Z.of_nat
                  (class_rank
                     (classes_of (wanted true notebook_CLASSES
                                    notebook_EXCLUDE_IMAGE_LIST birds_images
                                    birds_labels)) c) + 1)%Z /\
      class_rank
        (classes_of (wanted true notebook_CLASSES
                       notebook_EXCLUDE_IMAGE_LIST birds_images
                       birds_labels)) c <
      length (classes_of (wanted true notebook_CLASSES
                            notebook_EXCLUDE_IMAGE_LIST birds_images
                            birds_labels)).
Proof.
  destruct (get_train_val_dataframes true notebook_CLASSES
              notebook_EXCLUDE_IMAGE_LIST birds_images birds_labels session0)
    as [[[[tr va] te] s'] | e] eqn:Hrun; [| vm_compute in Hrun; discriminate].
  assert (Hne : (rows tr ++ rows va ++ rows te)%list <> []).
  { vm_compute in Hrun. injection Hrun as <- <- <- _. discriminate. }
  remember (rows tr ++ rows va ++ rows te)%list as every eqn:Hrows.
  destruct every as [| r rest]; [contradiction |].
  exists tr, va, te, s', r. split; [reflexivity |].
  split; [rewrite <- Hrows; left; reflexivity |].
  apply (get_train_val_dataframes_class_ids true notebook_CLASSES
           notebook_EXCLUDE_IMAGE_LIST birds_images birds_labels session0 s'
           tr va te r Hrun).
  rewrite <- Hrows. left. reflexivity.
Defined.

(** X11. [get_train_val_dataframes] splits class by class with the
    notebook's ratios (0.7, 0.2, 0.1): for a class with [n] wanted rows,
    the numbers of rows of that class in the train, validation and test
    frames it returns are the sizes that one pass of the split gives a
    group of [n] rows. *)
Theorem get_train_val_dataframes_class_counts (SAMPLE_ONLY : bool)
  (CLASSES : list Z) (EXCLUDE_IMAGE_LIST : list string)
  (images : list ImageLine) (image_class_labels : list LabelLine)
  (s s' : Session) (tr va te : DataFrame) (c : Z) :
  get_train_val_dataframes SAMPLE_ONLY CLASSES EXCLUDE_IMAGE_LIST images
    image_class_labels s = Return ((tr, va, te), s') ->
  let rows_wanted :=
    wanted SAMPLE_ONLY CLASSES EXCLUDE_IMAGE_LIST images
      image_class_labels in
  In c (classes_of rows_wanted) ->
  group_sizes SPLIT_RATIOS
    (length (filter (fun m => Z.eqb (merged_class_id m) c) rows_wanted)) =
  Ok (rows_with "orig_class_id" (str_int c) (rows tr),
      rows_with "orig_class_id" (str_int c) (rows va),
      rows_with "orig_class_id" (str_int c) (rows te)).
Proof.
  intros Hrun W Hc.
  apply get_train_val_dataframes_inv in Hrun
    as (tr0 & va0 & te0 & g' & Hsplit & Hout & _).
  injection Hout as -> -> ->.
  exact (class_counts_of_split _ _ _ _ _ _ _ _ _ _ c Hsplit Hc).
Qed.

Lemma get_train_val_dataframes_class_counts_witness :
  exists tr va te s',
    get_train_val_dataframes true notebook_CLASSES
      notebook_EXCLUDE_IMAGE_LIST birds_images birds_labels session0 =
      Return ((tr, va, te), s') /\
    group_sizes SPLIT_RATIOS
      (length (filter (fun m => Z.eqb (merged_class_id m) 13)
                 (wanted true notebook_CLASSES notebook_EXCLUDE_IMAGE_LIST
                    birds_images birds_labels))) =
    Ok (rows_with "orig_class_id" (str_int 13) (rows tr),
        rows_with "orig_class_id" (str_int 13) (rows va),
        rows_with "orig_class_id" (str_int 13) (rows te)).
Proof.
  destruct (get_train_val_dataframes true notebook_CLASSES
              notebook_EXCLUDE_IMAGE_LIST birds_images birds_labels session0)
    as [[[[tr va] te] s'] | e] eqn:Hrun; [| vm_compute in Hrun; discriminate].
  exists tr, va, te, s'. split; [reflexivity |].
  apply (get_train_val_dataframes_class_counts true notebook_CLASSES
           notebook_EXCLUDE_IMAGE_LIST birds_images birds_labels session0 s'
           tr va te 13 Hrun).
  vm_compute. left. reflexivity.
Defined.

(** X12. What [get_train_val_dataframes] prints: the subtotal of the
    wanted rows when only a sample is used, nothing from the split, then
    the number of lines of the image file and the sizes of the three
    frames. The three sizes add up to the number of wanted rows, not to
    the total that is printed. *)
Theorem get_train_val_dataframes_prints (SAMPLE_ONLY : bool)
  (CLASSES : list Z) (EXCLUDE_IMAGE_LIST : list string)
  (images : list ImageLine) (image_class_labels : list LabelLine)
  (s s' : Session) (tr va te : DataFrame) :
  get_train_val_dataframes SAMPLE_ONLY CLASSES EXCLUDE_IMAGE_LIST images
    image_class_labels s = Return ((tr, va, te), s') ->
  let rows_wanted :=
    wanted SAMPLE_ONLY CLASSES EXCLUDE_IMAGE_LIST images
      image_class_labels in
  printed s' =
    (printed s ++ subset_report SAMPLE_ONLY (length rows_wanted) ++
     size_report (length images) (tr, va, te))%list /\
  length (rows tr) + length (rows va) + length (rows te) =
    length rows_wanted.
Proof.
  intros Hrun W.
  pose proof (selected_wanted SAMPLE_ONLY CLASSES EXCLUDE_IMAGE_LIST images
                image_class_labels) as Hsel. fold W in Hsel.
  apply get_train_val_dataframes_inv in Hrun
    as (tr0 & va0 & te0 & g' & Hsplit & Hout & ->).
  rewrite (Permutation_length Hsel). split; [reflexivity |].
  injection Hout as -> -> ->.
  pose proof (returned_cells_wanted _ _ _ _ _ _ _ _ _ _ Hsplit) as Hp.
  apply Permutation_length in Hp. fold W in Hp.
  rewrite !length_map, !length_app in Hp. lia.
Qed.

Lemma get_train_val_dataframes_prints_witness :
  exists tr va te s',
    get_train_val_dataframes true notebook_CLASSES
      notebook_EXCLUDE_IMAGE_LIST birds_images birds_labels session0 =
      Return ((tr, va, te), s') /\
    printed s' =
      (printed session0 ++
       subset_report true
         (length (wanted true notebook_CLASSES notebook_EXCLUDE_IMAGE_LIST
                    birds_images birds_labels)) ++
       size_report (length birds_images) (tr, va, te))%list /\
    length (rows tr) + length (rows va) + length (rows te) =
      length (wanted true notebook_CLASSES notebook_EXCLUDE_IMAGE_LIST
                birds_images birds_labels).
Proof.
  destruct (get_train_val_dataframes true notebook_CLASSES
              notebook_EXCLUDE_IMAGE_LIST birds_images birds_labels session0)
    as [[[[tr va] te] s'] | e] eqn:Hrun; [| vm_compute in Hrun; discriminate].
  exists tr, va, te, s'. split; [reflexivity |].
  exact (get_train_val_dataframes_prints true notebook_CLASSES
           notebook_EXCLUDE_IMAGE_LIST birds_images birds_labels session0 s'
           tr va te Hrun).
Defined.


(** ** Reading the frames *)

(** X13. [ImageDataset.__getitem__] on a frame that
    [get_train_val_dataframes] returned: an index from 0 up to the
    length selects the row at that position, the file opened is
    [IMAGES_DIR] followed by the row's file name, and the label is the
    row's [int(class_id) - 1], a number from 0 up to the number of
    classes; any other index is a [KeyError]. *)
Theorem ImageDataset_getitem_returned (Image : Type) (IMAGES_DIR : string)
  (Image_open : string -> Outcome Image)
  (convert_RGB : Image -> Outcome Image)
  (SAMPLE_ONLY : bool) (CLASSES : list Z) (EXCLUDE_IMAGE_LIST : list string)
  (images : list ImageLine) (image_class_labels : list LabelLine)
  (s s' : Session) (tr va te : DataFrame) (self : ImageDataset Image)
  (index : Z) :
  get_train_val_dataframes SAMPLE_ONLY CLASSES EXCLUDE_IMAGE_LIST images
    image_class_labels s = Return ((tr, va, te), s') ->
  In (data Image self) [tr; va; te] ->
  let classes :=
    classes_of (wanted SAMPLE_ONLY CLASSES EXCLUDE_IMAGE_LIST images
                  image_class_labels) in
  if ((0 <=? index) && (index <? Z.of_nat (ImageDataset_len Image self)))%Z
  then
    exists row name rank,
      nth_error (rows (data Image self)) (Z.to_nat index) = Some row /\
      cell "image_file_name" row = Some name /\
      zero_based_label row = Return (Z.of_nat rank) /\
      rank < length classes /\
      ImageDataset_getitem Image IMAGES_DIR Image_open convert_RGB self index =
        (image <- Image_open (IMAGES_DIR ++ name) ;;
         image <- convert_RGB image ;;
         image <- match transform Image self with
                  | Some t => t image
                  | None => Return image
                  end ;;
         Return (image, Z.of_nat rank))%outcome
  else
    ImageDataset_getitem Image IMAGES_DIR Image_open convert_RGB self index =
      Throw (Std KeyError).
Proof.
  intros Hrun Hin classes.
  pose proof (returned_frames _ _ _ _ _ _ _ _ _ _ _ Hrun Hin) as Hf.
  pose proof (file_and_label_returned IMAGES_DIR _ _ _ _ _ _ Hf index) as H.
  unfold ImageDataset_len, ImageDataset_getitem.
  destruct ((0 <=? index) && _)%Z.
  - destruct H as (row & name & rank & Hn & Hname & Hz & Hlt & Hfl).
    exists row, name, rank. repeat (split; [assumption |]).
    rewrite Hfl. reflexivity.
  - rewrite H. reflexivity.
Qed.

Lemma ImageDataset_getitem_returned_witness :
  exists tr va te s',
    get_train_val_dataframes true notebook_CLASSES
      notebook_EXCLUDE_IMAGE_LIST birds_images birds_labels session0 =
      Return ((tr, va, te), s') /\
    exists row name rank,
      nth_error (rows tr) (Z.to_nat 0) = Some row /\
      cell "image_file_name" row = Some name /\
      zero_based_label row = Return (Z.of_nat rank) /\
      rank < length (classes_of (wanted true notebook_CLASSES
                                   notebook_EXCLUDE_IMAGE_LIST birds_images
                                   birds_labels)) /\
      ImageDataset_getitem string example_dir example_open example_convert
        {| data := tr; transform := None |} 0 =
        Return ((example_dir ++ name)%string, Z.of_nat rank).
Proof.
  destruct (get_train_val_dataframes true notebook_CLASSES
              notebook_EXCLUDE_IMAGE_LIST birds_images birds_labels session0)
    as [[[[tr va] te] s'] | e] eqn:Hrun; [| vm_compute in Hrun; discriminate].
  exists tr, va, te, s'. split; [reflexivity |].
  pose proof (ImageDataset_getitem_returned string example_dir example_open
                example_convert true notebook_CLASSES
                notebook_EXCLUDE_IMAGE_LIST birds_images birds_labels
                session0 s' tr va te {| data := tr; transform := None |} 0
                Hrun (or_introl eq_refl)) as H.
  cbv zeta in H.
  assert (Hlen : ((0 <=? 0) &&
                  (0 <? Z.of_nat
                          (ImageDataset_len string
                             {| data := tr; transform := None |})))%Z = true).
  { vm_compute in Hrun. injection Hrun as <- _ _ _. reflexivity. }
  rewrite Hlen in H. exact H.
Defined.



(** X15. [get_random_images(df, num)] raises [ValueError] when [num] is
    negative or above the number of rows of [df], before it opens any
    file. *)
Theorem get_random_images_size_error (Image : Type) (IMAGES_DIR : string)
  (Image_open : string -> Outcome Image) (df : DataFrame) (num : Z)
  (s : Session) :
  (num < 0 \/ Z.of_nat (length (rows df)) < num)%Z ->
  get_random_images Image IMAGES_DIR Image_open df num s =
    Throw (Std ValueError).
Proof.
  intros Hnum. unfold get_random_images, run_bind, call.
  pose proof (sample_n_spec num df
                {| np_random := random_state s; stdout := [] |}) as Hs.
  replace ((num <? 0) || (Z.of_nat (length (rows df)) <? num))%Z with true
    in Hs.
  - rewrite Hs. reflexivity.
  - symmetry. apply orb_true_iff.
    destruct Hnum; [left; apply Z.ltb_lt | right; apply Z.ltb_lt]; assumption.
Qed.

Lemma get_random_images_size_error_witness :
  (3 < 0 \/ Z.of_nat (length (rows two_birds)) < 3)%Z /\
  get_random_images string example_dir example_open two_birds 3 session0 =
    Throw (Std ValueError).
Proof.
  assert (H : (3 < 0 \/ Z.of_nat (length (rows two_birds)) < 3)%Z)
    by (right; simpl; lia).
  split; [exact H |].
  exact (get_random_images_size_error string example_dir example_open
           two_birds 3 session0 H).
Defined.




(** ** The XGBoost notebook *)

(** X17. [download_artifacts] looks up the job named by the global
    [TRAINING_JOB_NAME], not by its argument [job_name]. When the model
    artifacts are at [s3://<bucket>/<key>] (no "/" and no newline in the
    bucket) it downloads the object [<key>] of the bucket [<bucket>] to
    the local file. *)
Theorem download_artifacts_parses (TRAINING_JOB_NAME : string)
  (S3ModelArtifacts : string -> Outcome string)
  (job_name local_fname bucket key : string) :
  S3ModelArtifacts TRAINING_JOB_NAME =
    Return ("s3://" ++ bucket ++ String slash key) ->
  lacks slash bucket = true ->
  lacks newline_char bucket = true ->
  download_artifacts TRAINING_JOB_NAME S3ModelArtifacts job_name local_fname =
    Return [DescribeTrainingJob TRAINING_JOB_NAME;
            DownloadFile bucket key local_fname].
Proof.
  intros Hpath Hs Hn. unfold download_artifacts. rewrite Hpath.
  cbn [and_then].
  rewrite (search_from_s3 _ _ (lazy_to_slash_bucket bucket key Hs Hn)).
  assert (Hlen : String.length (bucket ++ String slash EmptyString) =
                 String.length bucket + 1)
    by apply length_snoc.
  replace (5 + (String.length bucket + 1) - 5)
    with (String.length (bucket ++ String slash EmptyString)) by lia.
  replace (5 + (String.length bucket + 1))
    with (5 + String.length (bucket ++ String slash EmptyString)) by lia.
  rewrite (append_slash bucket key).
  cbn [String.append substring drop_chars Nat.add].
  rewrite substring_prefix, drop_last_snoc, drop_chars_app. reflexivity.
Qed.

Lemma download_artifacts_parses_witness :
  download_artifacts "xgboost-2019-07-24-19-59-26-003"
    (fun _ => Return "s3://my-bucket/output/model.tar.gz")
    "another-job" "model.tar.gz" =
  Return [DescribeTrainingJob "xgboost-2019-07-24-19-59-26-003";
          DownloadFile "my-bucket" "output/model.tar.gz" "model.tar.gz"].
Proof.
  apply (download_artifacts_parses "xgboost-2019-07-24-19-59-26-003"
           (fun _ => Return "s3://my-bucket/output/model.tar.gz")
           "another-job" "model.tar.gz" "my-bucket" "output/model.tar.gz");
    reflexivity.
Defined.

(** X18. When the path of the model artifacts is [s3://<bucket>] with no
    "/" after the bucket, [download_artifacts] finds no match and raises
    [AttributeError] before it downloads anything. *)
Theorem download_artifacts_no_object (TRAINING_JOB_NAME : string)
  (S3ModelArtifacts : string -> Outcome string)
  (job_name local_fname bucket : string) :
  S3ModelArtifacts TRAINING_JOB_NAME = Return ("s3://" ++ bucket) ->
  lacks slash bucket = true ->
  download_artifacts TRAINING_JOB_NAME S3ModelArtifacts job_name local_fname =
    Throw AttributeError.
Proof.
  intros Hpath Hs. unfold download_artifacts. rewrite Hpath. cbn [and_then].
  rewrite (search_from_s3_none bucket Hs). reflexivity.
Qed.

Lemma download_artifacts_no_object_witness :
  download_artifacts "job" (fun _ => Return "s3://my-bucket") "job"
    "model.tar.gz" = Throw AttributeError.
Proof.
  apply (download_artifacts_no_object "job"
           (fun _ => Return "s3://my-bucket") "job" "model.tar.gz"
           "my-bucket"); reflexivity.
Defined.
